(** * ThemisAI: the analysis coordinator and its service wrappers

    A shallow embedding of
      - app/models/app_analysis.py        (the request and report models),
      - app/domain/analysis_domain.py     (AnalysisDomain.perform_analysis),
      - app/services/opensearch_service.py (index_docs, the two searches),
      - app/services/llama_service.py     (start-up checks, command line, the
                                           two generators),
      - app/routes/app_analysis.py        (the dependency factory, the route),
      - the application module            (lifespan),
    followed by the properties of the specification that concern them, and
    by further properties of the same code.

    Conventions.
      - A Python [str] is represented by the bytes of its UTF-8 encoding, as a
        Rocq [string]; [str.encode()] is then the identity on the
        representation.
      - A Python [int] is a [Z]; a count or a list position is a [nat].
      - An exception is a value of [exn]; code that may raise returns a
        [result]; code that also talks to a collaborator runs in the
        state-and-error monad [M], whose state records every call made to a
        collaborator, in order. *)

From Stdlib Require Import ZArith QArith List String Ascii Lia Bool.
From Stdlib Require Import DecimalString Floats Sorted Permutation.
From stdpp Require Import base strings gmap list.

Import ListNotations.
Set Warnings "-register-all".
#[local] Open Scope Z_scope.

(* ===================================================================== *)
(** ** Text helpers *)
(* ===================================================================== *)

Module Text.

(** The characters that cannot be written inside a string literal here. *)
Definition dquote : ascii := ascii_of_nat 34.
Definition backslash : ascii := ascii_of_nat 92.
Definition newline : ascii := ascii_of_nat 10.

Definition str1 (c : ascii) : string := String c EmptyString.
Definition nl : string := str1 newline.

(** [sep.join(parts)] *)
Fixpoint join (sep : string) (parts : list string) : string :=
  match parts with
  | [] => EmptyString
  | [p] => p
  | p :: rest => p +:+ sep +:+ join sep rest
  end.

(** Lines of a triple-quoted literal, joined by line feeds. *)
Definition unlines (ls : list string) : string := join nl ls.

Definition bytes_of (s : string) : list Z :=
  map (fun c => Z.of_N (N_of_ascii c)) (list_ascii_of_string s).

Definition hexdigit (n : Z) : ascii :=
  nth (Z.to_nat n) (list_ascii_of_string "0123456789abcdef") "0"%char.

(** Python's truth value of a [str]: false exactly for the empty one. *)
Definition truthy (s : string) : bool :=
  match s with EmptyString => false | String _ _ => true end.

(** [needle in hay] *)
Fixpoint is_prefix (p s : string) : bool :=
  match p, s with
  | EmptyString, _ => true
  | String a p', String b s' => Ascii.eqb a b && is_prefix p' s'
  | String _ _, EmptyString => false
  end.

Fixpoint contains (needle hay : string) : bool :=
  is_prefix needle hay ||
  match hay with
  | EmptyString => false
  | String _ hay' => contains needle hay'
  end.

(** [s[:n]] on the UTF-8 representation: the first [n] code points.  A byte
    [10xxxxxx] continues the code point before it. *)
Definition is_continuation (c : ascii) : bool :=
  let n := nat_of_ascii c in Nat.leb 128 n && Nat.ltb n 192.

Fixpoint take_chars (n : nat) (s : string) : string :=
  match s with
  | EmptyString => EmptyString
  | String c s' =>
      if is_continuation c then String c (take_chars n s')
      else match n with
           | O => EmptyString
           | S n' => String c (take_chars n' s')
           end
  end.

(** The digits of a lower-case hexadecimal numeral. *)
Definition is_hex (c : ascii) : bool :=
  existsb (Ascii.eqb c) (list_ascii_of_string "0123456789abcdef").

Fixpoint all_hex (s : string) : bool :=
  match s with
  | EmptyString => true
  | String c r => is_hex c && all_hex r
  end.

(** Bytes that every way of decoding captured output reads alike: ASCII,
    and no carriage return (which text mode rewrites to a line feed). *)
Definition is_plain_char (c : ascii) : bool :=
  let n := nat_of_ascii c in Nat.ltb n 128 && negb (Nat.eqb n 13).

Fixpoint is_plain (s : string) : bool :=
  match s with
  | EmptyString => true
  | String c r => is_plain_char c && is_plain r
  end.

(** What text mode does to captured output read whole (universal
    newlines): a carriage return with the line feed after it, and a lone
    carriage return, each become one line feed. *)
Fixpoint universal_newlines (s : string) : string :=
  match s with
  | EmptyString => EmptyString
  | String c r =>
      if Nat.eqb (nat_of_ascii c) 13
      then match r with
           | String c' r' =>
               if Nat.eqb (nat_of_ascii c') 10
               then String c' (universal_newlines r')
               else String (ascii_of_nat 10) (universal_newlines r)
           | EmptyString => String (ascii_of_nat 10) EmptyString
           end
      else String c (universal_newlines r)
  end.

(** [s] between double quotes, as it stands. *)
Definition quoted (s : string) : string := String dquote (s +:+ str1 dquote).

(** [str(n)] for an [int]. *)
Definition str_of_int (n : Z) : string := NilZero.string_of_int (Z.to_int n).

End Text.

(* ===================================================================== *)
(** ** hashlib.sha256 *)
(* ===================================================================== *)

(** FIPS 180-4, on 32-bit words held in [Z] with the wrap-around written
    out. [hexdigest] is what [hashlib.sha256(data).hexdigest()] returns. *)
Module Sha256.

Definition w32 (x : Z) : Z := Z.land x 0xFFFFFFFF.
Definition add32 (a b : Z) : Z := w32 (a + b).
Definition rotr (n x : Z) : Z :=
  Z.lor (Z.shiftr x n) (w32 (Z.shiftl x (32 - n))).
Definition shr (n x : Z) : Z := Z.shiftr x n.

Definition Ch (x y z : Z) : Z := Z.lxor (Z.land x y) (Z.land (Z.lnot x) z).
Definition Maj (x y z : Z) : Z :=
  Z.lxor (Z.lxor (Z.land x y) (Z.land x z)) (Z.land y z).
Definition bsig0 (x : Z) : Z := Z.lxor (Z.lxor (rotr 2 x) (rotr 13 x)) (rotr 22 x).
Definition bsig1 (x : Z) : Z := Z.lxor (Z.lxor (rotr 6 x) (rotr 11 x)) (rotr 25 x).
Definition ssig0 (x : Z) : Z := Z.lxor (Z.lxor (rotr 7 x) (rotr 18 x)) (shr 3 x).
Definition ssig1 (x : Z) : Z := Z.lxor (Z.lxor (rotr 17 x) (rotr 19 x)) (shr 10 x).

(** The primes below [bound], in order. *)
Definition is_prime (n : nat) : bool :=
  forallb (fun d => negb (Nat.eqb (n mod d) 0)) (seq 2 (n - 2)).

Definition primes_below (bound : nat) : list Z :=
  map Z.of_nat (filter (fun n => is_prime n = true) (seq 2 (bound - 2))).

(** The integer cube root, found bit by bit from bit [n - 1] down. *)
Fixpoint cube_root_bits (n : nat) (x target : Z) : Z :=
  match n with
  | O => x
  | S n' =>
      let y := x + 2 ^ Z.of_nat n' in
      cube_root_bits n' (if y * y * y <=? target then y else x) target
  end.

(** The round constants: the first 32 bits of the fractional parts of the
    cube roots of the first 64 primes. *)
Definition K : list Z :=
  Eval vm_compute in
    map (fun p => w32 (cube_root_bits 40 0 (p * 2 ^ 96))) (primes_below 312).

(** The eight working words. *)
Record state : Type := State8 {
  ha : Z; hb : Z; hc : Z; hd : Z; he : Z; hf : Z; hg : Z; hh : Z
}.

(** The first 32 bits of the fractional part of a square root. *)
Definition frac_sqrt (p : Z) : Z := w32 (Z.sqrt (p * 2 ^ 64)).

(** The initial value: from the square roots of the first 8 primes. *)
Definition H0 : state :=
  State8 (frac_sqrt 2) (frac_sqrt 3) (frac_sqrt 5) (frac_sqrt 7)
         (frac_sqrt 11) (frac_sqrt 13) (frac_sqrt 17) (frac_sqrt 19).

(** Big-endian bytes of a length, most significant first. *)
Fixpoint be_bytes (n : nat) (x : Z) : list Z :=
  match n with
  | O => []
  | S n' => Z.land (Z.shiftr x (8 * Z.of_nat n')) 0xFF :: be_bytes n' x
  end.

Definition pad (msg : list Z) : list Z :=
  let len := Z.of_nat (length msg) in
  msg ++ [0x80] ++ repeat 0 (Z.to_nat ((55 - len) mod 64)) ++ be_bytes 8 (8 * len).

Fixpoint words_of_bytes (l : list Z) : list Z :=
  match l with
  | a :: b :: c :: d :: r =>
      Z.lor (Z.lor (Z.shiftl a 24) (Z.shiftl b 16)) (Z.lor (Z.shiftl c 8) d)
      :: words_of_bytes r
  | _ => []
  end.

(** [win] holds the sixteen latest schedule words, oldest first. *)
Fixpoint schedule (n : nat) (win : list Z) : list Z :=
  match n with
  | O => []
  | S n' =>
      let w := add32 (add32 (ssig1 (nth 14 win 0)) (nth 9 win 0))
                     (add32 (ssig0 (nth 1 win 0)) (nth 0 win 0)) in
      w :: schedule n' (tl win ++ [w])
  end.

Definition round (s : state) (kw : Z * Z) : state :=
  let t1 := add32 (add32 (add32 (hh s) (bsig1 (he s)))
                         (add32 (Ch (he s) (hf s) (hg s)) (fst kw))) (snd kw) in
  let t2 := add32 (bsig0 (ha s)) (Maj (ha s) (hb s) (hc s)) in
  State8 (add32 t1 t2) (ha s) (hb s) (hc s) (add32 (hd s) t1) (he s) (hf s) (hg s).

Definition compress (h : state) (block : list Z) : state :=
  let w := block ++ schedule 48 block in
  let s := fold_left round (combine K w) h in
  State8 (add32 (ha h) (ha s)) (add32 (hb h) (hb s)) (add32 (hc h) (hc s))
         (add32 (hd h) (hd s)) (add32 (he h) (he s)) (add32 (hf h) (hf s))
         (add32 (hg h) (hg s)) (add32 (hh h) (hh s)).

(** Consumes the word list sixteen words at a time. *)
Fixpoint blocks (fuel : nat) (h : state) (ws : list Z) : state :=
  match fuel with
  | O => h
  | S fuel' =>
      match ws with
      | [] => h
      | _ => blocks fuel' (compress h (firstn 16 ws)) (skipn 16 ws)
      end
  end.

Definition digest (msg : list Z) : state :=
  let ws := words_of_bytes (pad msg) in
  blocks (length ws) H0 ws.

Fixpoint hex_nibbles (n : nat) (x : Z) : string :=
  match n with
  | O => EmptyString
  | S n' => String (Text.hexdigit (Z.land (Z.shiftr x (4 * Z.of_nat n')) 0xF))
                   (hex_nibbles n' x)
  end.

Definition hex32 (x : Z) : string := hex_nibbles 8 x.

Definition hex_of_state (s : state) : string :=
  hex32 (ha s) +:+ hex32 (hb s) +:+ hex32 (hc s) +:+ hex32 (hd s) +:+
  hex32 (he s) +:+ hex32 (hf s) +:+ hex32 (hg s) +:+ hex32 (hh s).

(** [hashlib.sha256(data).hexdigest()] *)
Definition hexdigest (data : string) : string :=
  hex_of_state (digest (Text.bytes_of data)).

End Sha256.


(* ===================================================================== *)
(** ** JSON values and the serializer *)
(* ===================================================================== *)

Module Json.

(** A parsed JSON document.  A number keeps its numeral; an object keeps its
    members in document order. *)
Inductive value : Type :=
| Null
| Bool (b : bool)
| Number (numeral : string)
| Str (s : string)
| Array (items : list value)
| Object (members : list (string * value)).

(** The member an object lookup yields: the last one of that name. *)
Fixpoint member (name : string) (members : list (string * value)) : option value :=
  match members with
  | [] => None
  | (k, v) :: rest =>
      match member name rest with
      | Some v' => Some v'
      | None => if String.eqb k name then Some v else None
      end
  end.

(** How the serializer writes one byte of a string: a quote and a backslash
    are escaped, the control characters get their short escape or a
    [\u00xx], everything else (all of UTF-8 above 0x1F included) is copied. *)
Definition escape_char (c : ascii) : string :=
  let n := nat_of_ascii c in
  if Nat.eqb n 34 then String Text.backslash (Text.str1 Text.dquote)
  else if Nat.eqb n 92 then String Text.backslash (Text.str1 Text.backslash)
  else if Nat.eqb n 8 then String Text.backslash "b"
  else if Nat.eqb n 9 then String Text.backslash "t"
  else if Nat.eqb n 10 then String Text.backslash "n"
  else if Nat.eqb n 12 then String Text.backslash "f"
  else if Nat.eqb n 13 then String Text.backslash "r"
  else if Nat.ltb n 32 then
    String Text.backslash
      ("u00" +:+ String (Text.hexdigit (Z.of_nat (n / 16)))
                        (Text.str1 (Text.hexdigit (Z.of_nat (n mod 16)))))
  else Text.str1 c.

Fixpoint escape (s : string) : string :=
  match s with
  | EmptyString => EmptyString
  | String c s' => escape_char c +:+ escape s'
  end.

(** Reading back one escaped byte from the front of a text: the inverse of
    [escape_char], by which the serializer is shown to lose nothing. *)
Definition unhex (c : ascii) : option nat :=
  let n := nat_of_ascii c in
  if Nat.leb 48 n && Nat.leb n 57 then Some (n - 48)%nat
  else if Nat.leb 97 n && Nat.leb n 102 then Some (n - 87)%nat
  else None.

Definition read_escaped (s : string) : option (ascii * string) :=
  match s with
  | EmptyString => None
  | String c r =>
      if Nat.eqb (nat_of_ascii c) 92 then
        match r with
        | String e r1 =>
            let n := nat_of_ascii e in
            if Nat.eqb n 34 then Some (Text.dquote, r1)
            else if Nat.eqb n 92 then Some (Text.backslash, r1)
            else if Nat.eqb n 98 then Some (ascii_of_nat 8, r1)
            else if Nat.eqb n 116 then Some (ascii_of_nat 9, r1)
            else if Nat.eqb n 110 then Some (ascii_of_nat 10, r1)
            else if Nat.eqb n 102 then Some (ascii_of_nat 12, r1)
            else if Nat.eqb n 114 then Some (ascii_of_nat 13, r1)
            else
              match r1 with
              | String _ (String _ (String h1 (String h2 r2))) =>
                  match unhex h1, unhex h2 with
                  | Some a, Some b => Some (ascii_of_nat (a * 16 + b), r2)
                  | _, _ => None
                  end
              | _ => None
              end
        | EmptyString => None
        end
      else Some (c, r)
  end.

(** A string as a JSON string literal. *)
Definition quote (s : string) : string :=
  String Text.dquote (escape s +:+ Text.str1 Text.dquote).

(** The elements of an array, comma separated. *)
Fixpoint items (l : list string) : string :=
  match l with
  | [] => EmptyString
  | [x] => quote x
  | x :: rest => quote x +:+ "," +:+ items rest
  end.

(** The elements of an array in the indented layout, one per line. *)
Fixpoint items_indented (pad : string) (l : list string) : string :=
  match l with
  | [] => EmptyString
  | [x] => pad +:+ quote x
  | x :: rest => pad +:+ quote x +:+ "," +:+ Text.nl +:+ items_indented pad rest
  end.

End Json.

(* ===================================================================== *)
(** ** Exceptions and results *)
(* ===================================================================== *)

Module Py.

(** The exception classes that occur in the modelled code.
    [json.JSONDecodeError] is a subclass of [ValueError]; pydantic's
    [ValidationError] is another, unrelated subclass of [ValueError].
    [ServiceError] stands for whatever a collaborator (search engine, cache,
    embedding model) raises. *)
(** One entry of a [ValidationError]: where, which kind, and the input that
    failed: the text itself when it is not JSON, otherwise the parsed value
    at fault (for a missing field, the whole document). *)
Inductive error_input : Type :=
| InputText (text : string)
| InputValue (v : Json.value).

Record error_entry : Type := ErrorEntry {
  loc : string;
  kind : string;
  input : error_input
}.

Inductive exn : Type :=
| AttributeError (attr : string)
| TypeError (msg : string)
| KeyError (key : string)
| ValueError (msg : string)
| JSONDecodeError (msg : string)
| ValidationError (errors : list error_entry)
| RuntimeError (msg : string)
| TimeoutExpired (cmd : list string) (timeout : Q)
| HTTPException (status_code : Z) (detail : string)
| ServiceError (msg : string).

Inductive result (A : Type) : Type :=
| Ok (a : A)
| Raise (e : exn).
Arguments Ok {A} a.
Arguments Raise {A} e.

(** [isinstance(e, json.JSONDecodeError)] *)
Definition is_JSONDecodeError (e : exn) : bool :=
  match e with JSONDecodeError _ => true | _ => false end.

Definition is_Ok {A} (r : result A) : bool :=
  match r with Ok _ => true | Raise _ => false end.

End Py.
Export Py.

(* ===================================================================== *)
(** ** What the libraries outside the repository contribute *)
(* ===================================================================== *)

(** pydantic, the [json] module and a few [str] functions are not code of
    the repository.  Their behaviour enters the model as the fields of a
    [runtime]; nothing is assumed about them except where a statement says
    so. *)
Record runtime : Type := Runtime {
  (** pydantic-core's JSON reader: [None] when the text is not JSON. *)
  json_loads : string -> option Json.value;
  (** pydantic's validator for a [float] field. *)
  float_of_json : Json.value -> option float;
  (** [str(e)] *)
  exn_text : exn -> string;
  (** [json.dumps(ThemisAIReport.model_json_schema(), indent=2)] *)
  schema_json_str : string;
  (** [s.strip()] *)
  str_strip : string -> string;
  (** [shlex.join(cmd)] *)
  shlex_join : list string -> string
}.

(** The one fact about the JSON reader that a statement below relies on:
    the empty text is not a JSON document. *)
Definition reads_no_empty_text (rt : runtime) : Prop :=
  json_loads rt EmptyString = None.

(* ===================================================================== *)
(** ** app/models/app_analysis.py *)
(* ===================================================================== *)

Module Models.

Record AndroguardAnalysis : Type := Build_AndroguardAnalysis {
  package_name : string;
  permissions_list : list string;
  dalvik_analysis_log : string
}.

Record ThemisAIReport : Type := Build_ThemisAIReport {
  report_package_name : string;
  score : float;
  summary : string;
  vulnerability_name : string;
  severity_level : string;
  mitigation_actions : list string
}.

(** [req.model_dump_json()]: the compact layout, fields in declaration
    order. *)
Definition model_dump_json (req : AndroguardAnalysis) : string :=
  "{" +:+ Json.quote "package_name" +:+ ":" +:+ Json.quote (package_name req)
  +:+ "," +:+ Json.quote "permissions_list" +:+ ":["
  +:+ Json.items (permissions_list req) +:+ "]"
  +:+ "," +:+ Json.quote "dalvik_analysis_log" +:+ ":"
  +:+ Json.quote (dalvik_analysis_log req) +:+ "}".

(** [req.model_dump_json(indent=2)] *)
Definition model_dump_json_indent2 (req : AndroguardAnalysis) : string :=
  "{" +:+ Text.nl
  +:+ "  " +:+ Json.quote "package_name" +:+ ": " +:+ Json.quote (package_name req)
  +:+ "," +:+ Text.nl
  +:+ "  " +:+ Json.quote "permissions_list" +:+ ": "
  +:+ match permissions_list req with
      | [] => "[]"
      | l => "[" +:+ Text.nl +:+ Json.items_indented "    " l +:+ Text.nl +:+ "  ]"
      end
  +:+ "," +:+ Text.nl
  +:+ "  " +:+ Json.quote "dalvik_analysis_log" +:+ ": "
  +:+ Json.quote (dalvik_analysis_log req) +:+ Text.nl
  +:+ "}".

(** The outcome of validating one field: its value, or the error entries it
    contributes. *)
Definition checked (A : Type) : Type := (list error_entry + A)%type.

Definition errors_of {A} (c : checked A) : list error_entry :=
  match c with inl es => es | inr _ => [] end.

Definition missing (name : string) (ms : list (string * Json.value)) : error_entry :=
  ErrorEntry name "missing" (InputValue (Json.Object ms)).

(** A required [str] field. *)
Definition str_field (name : string) (ms : list (string * Json.value)) : checked string :=
  match Json.member name ms with
  | None => inl [missing name ms]
  | Some (Json.Str s) => inr s
  | Some v => inl [ErrorEntry name "string_type" (InputValue v)]
  end.

(** A required [float] field: a value that is no number is refused, a
    string that does not read as one with its own kind of error. *)
Definition float_field (rt : runtime) (name : string) (ms : list (string * Json.value))
  : checked float :=
  match Json.member name ms with
  | None => inl [missing name ms]
  | Some v =>
      match float_of_json rt v with
      | Some x => inr x
      | None =>
          inl [ErrorEntry name
                 match v with
                 | Json.Str _ => "float_parsing"
                 | _ => "float_type"
                 end (InputValue v)]
      end
  end.

(** The items of a [List[str]] from position [i] on: every item has to be a
    string. *)
Fixpoint str_items (name : string) (i : Z) (l : list Json.value) : checked (list string) :=
  match l with
  | [] => inr []
  | v :: rest =>
      match v, str_items name (i + 1) rest with
      | Json.Str s, inr ss => inr (s :: ss)
      | Json.Str _, inl es => inl es
      | _, r => inl (ErrorEntry (name +:+ "." +:+ Text.str_of_int i) "string_type"
                                (InputValue v) :: errors_of r)
      end
  end.

(** A required [List[str]] field. *)
Definition str_list_field (name : string) (ms : list (string * Json.value))
  : checked (list string) :=
  match Json.member name ms with
  | None => inl [missing name ms]
  | Some (Json.Array l) => str_items name 0 l
  | Some v => inl [ErrorEntry name "list_type" (InputValue v)]
  end.

(** [ThemisAIReport.model_validate(obj)]: all six fields are required;
    members of other names are ignored; every failing field is reported. *)
Definition model_validate (rt : runtime) (v : Json.value) : result ThemisAIReport :=
  match v with
  | Json.Object ms =>
      let f1 := str_field "package_name" ms in
      let f2 := float_field rt "score" ms in
      let f3 := str_field "summary" ms in
      let f4 := str_field "vulnerability_name" ms in
      let f5 := str_field "severity_level" ms in
      let f6 := str_list_field "mitigation_actions" ms in
      match f1, f2, f3, f4, f5, f6 with
      | inr a, inr b, inr c, inr d, inr e, inr f =>
          Ok (Build_ThemisAIReport a b c d e f)
      | _, _, _, _, _, _ =>
          Raise (ValidationError (errors_of f1 ++ errors_of f2 ++ errors_of f3 ++
                                  errors_of f4 ++ errors_of f5 ++ errors_of f6))
      end
  | _ => Raise (ValidationError [ErrorEntry EmptyString "model_type" (InputValue v)])
  end.

(** The error entries the six fields of a document contribute. *)
Definition field_errors (rt : runtime) (ms : list (string * Json.value))
  : list error_entry :=
  errors_of (str_field "package_name" ms) ++ errors_of (float_field rt "score" ms)
  ++ errors_of (str_field "summary" ms) ++ errors_of (str_field "vulnerability_name" ms)
  ++ errors_of (str_field "severity_level" ms)
  ++ errors_of (str_list_field "mitigation_actions" ms).

(** [ThemisAIReport.model_validate_json(text)]: text that is not JSON and a
    document that does not fit the model both raise [ValidationError]. *)
Definition model_validate_json (rt : runtime) (text : string) : result ThemisAIReport :=
  match json_loads rt text with
  | None => Raise (ValidationError [ErrorEntry EmptyString "json_invalid" (InputText text)])
  | Some v => model_validate rt v
  end.

(** The names of the fields, all of them required. *)
Definition required_fields : list string :=
  [ "package_name"; "score"; "summary"; "vulnerability_name";
    "severity_level"; "mitigation_actions" ]%string.

End Models.
Export Models.

(* ===================================================================== *)
(** ** Collaborators, their calls, and the monad of effects *)
(* ===================================================================== *)

Module Eff.

(** An embedding vector. *)
Definition vector : Type := list float.

(** The open key/value bag of a document. *)
Definition metadata : Type := list (string * Json.value).

(** The body of a search request: a lexical match on [text], or the
    nearest neighbours of a vector; [size] (and [k]) is [top_k]. *)
Inductive search_body : Type :=
| MatchText (size : nat) (query : string)
| Knn (size : nat) (vec : vector).

(** One action of a bulk request: index [_source] under [_id]. *)
Record action : Type := Action {
  action_index : string;
  action_id : option string;
  source_id : option string;
  source_text : option string;
  source_metadata : metadata;
  source_vector : vector
}.

(** Every call that leaves the process, and every line printed. *)
Inductive event : Type :=
| CacheGet (key : string)
| CacheSet (key value : string) (ex : Z)
| SearchVector (query : string)
| GenerateAsync (prompt : string) (max_tokens : Z)
| IndicesExists (index : string)
| IndicesCreate (index : string) (dim : Z)
| EncodeBatch (texts : list string)
| EncodeQuery (text : string)
| Search (index : string) (body : search_body)
| Mget (index : string) (ids : list string)
| Bulk (actions : list action)
| Printed (line : string).

(** The state threaded through the code: the cache's content (value and
    expiration in seconds, per key) and the calls made so far, oldest
    first. *)
Record world : Type := World {
  cache_store : gmap string (string * Z);
  history : list event
}.

Definition M (A : Type) : Type := world -> result A * world.

Definition ret {A} (a : A) : M A := fun w => (Ok a, w).

Definition raise {A} (e : exn) : M A := fun w => (Raise e, w).

Definition bind {A B} (m : M A) (k : A -> M B) : M B :=
  fun w =>
    match m w with
    | (Ok a, w') => k a w'
    | (Raise e, w') => (Raise e, w')
    end.

Definition log (e : event) (w : world) : world :=
  World (cache_store w) (history w ++ [e]).

(** A call to a collaborator: recorded, then answered. *)
Definition call {A} (e : event) (answer : result A) : M A :=
  fun w => (answer, log e w).

(** A computation that touches no collaborator. *)
Definition lift {A} (r : result A) : M A := fun w => (r, w).

Definition print (line : string) : M unit := call (Printed line) (Ok tt).

(** [try: body except <classes>: handler]; an exception of another class
    passes through. *)
Definition try_except {A} (body : M A) (catches : exn -> bool) (handler : exn -> M A) : M A :=
  fun w =>
    match body w with
    | (Ok a, w') => (Ok a, w')
    | (Raise e, w') => if catches e then handler e w' else (Raise e, w')
    end.

(** Modelled from the spec: the Cache Service.  app/services/redis_service.py
    is not part of the source tree; the specification gives its protocol as
    [get(key) -> string | absent] and [set(key, value, expire_seconds) -> ack].
    The passing of time, hence expiry, is not modelled: an entry stays.
    Both calls answer; a cache service whose calls may fail is
    [AnalysisDomain.cache_service]. *)
Definition cache_get (key : string) : M (option string) :=
  fun w => (Ok (fst <$> cache_store w !! key), log (CacheGet key) w).

Definition cache_set (key value : string) (ex : Z) : M unit :=
  fun w => (Ok tt, World (<[key := (value, ex)]> (cache_store w))
                         (history w ++ [CacheSet key value ex])).

(** The calls of one kind in a history. *)
Definition is_search_vector (e : event) : bool :=
  match e with SearchVector _ => true | _ => false end.
Definition is_generate (e : event) : bool :=
  match e with GenerateAsync _ _ => true | _ => false end.
Definition is_cache_set (e : event) : bool :=
  match e with CacheSet _ _ _ => true | _ => false end.
Definition is_cache_get (e : event) : bool :=
  match e with CacheGet _ => true | _ => false end.
Definition is_encode (e : event) : bool :=
  match e with EncodeBatch _ | EncodeQuery _ => true | _ => false end.
Definition is_index_call (e : event) : bool :=
  match e with
  | IndicesExists _ | IndicesCreate _ _ | Search _ _ | Mget _ _ | Bulk _ => true
  | _ => false
  end.

Definition count (p : event -> bool) (h : list event) : nat :=
  length (filter (fun e => p e = true) h).

End Eff.
Export Eff.

Notation "'let!' x ':=' m 'in' k" := (bind m (fun x => k))
  (at level 10, x name, m at level 100, k at level 200, only parsing).
Notation "'run!' m 'in' k" := (bind m (fun _ => k))
  (at level 10, m at level 100, k at level 200, only parsing).

(* ===================================================================== *)
(** ** app/services/opensearch_service.py *)
(* ===================================================================== *)

(** The arithmetic the fusion needs from its scores.  The code computes in
    binary64; [Score_float] is that arithmetic, [Score_Q] the exact one in
    which the specification states its sums. *)
Class Score (num : Type) : Type := {
  s_zero : num;
  s_add : num -> num -> num;
  s_inv : Z -> num;
  s_ltb : num -> num -> bool
}.

#[export] Instance Score_Q : Score Q := {|
  s_zero := 0%Q;
  s_add := Qplus;
  s_inv n := (1 / inject_Z n)%Q;
  s_ltb a b := negb (Qle_bool b a)
|}.

#[export] Instance Score_float : Score float := {|
  s_zero := 0%float;
  s_add := PrimFloat.add;
  s_inv n := PrimFloat.div 1%float (PrimFloat.of_uint63 (Uint63.of_Z n));
  s_ltb := PrimFloat.ltb
|}.

(** The binary64 values that are numbers and not negative (the positive
    zero included): the scores of the fusion are among them, and on them
    the comparison of the code is a total order. *)
Module Binary64.

Definition nonneg (x : spec_float) : Prop :=
  match x with
  | S754_zero s => s = false
  | S754_infinity s => s = false
  | S754_nan => False
  | S754_finite s _ _ => s = false
  end.

Definition nonneg64 (x : float) : Prop := nonneg (Prim2SF x).

End Binary64.

Module OpenSearchService.

(** [a or b] on optional strings: [a] unless it is [None] or empty. *)
Definition or_else (a b : option string) : option string :=
  match a with
  | Some s => if Text.truthy s then a else b
  | None => b
  end.

(** The [_source] of a stored document. *)
Record source : Type := Source {
  src_id : option string;
  src_text : option string;
  src_metadata : option metadata
}.

(** A document handed to [index_docs]: a dict that may lack any key. *)
Record doc : Type := Doc {
  d_id : option string;
  d_text : option string;
  d_metadata : option metadata
}.

(** The service object; [client] and [model] are the [backend] below. *)
Record t : Type := Service {
  host : string;
  index : string;
  dim : Z
}.

(** The method names the class defines, and the attributes [__init__]
    sets. *)
Definition class_attributes : list string :=
  [ "__init__"; "_ensure_index"; "index_docs"; "search_knn_slim";
    "search_hybrid_slim"; "host"; "index"; "client"; "model"; "dim" ]%string.

Section WithScores.
Context {num : Type} {score_arith : Score num}.

(** One entry of [resp["hits"]["hits"]]. *)
Record hit : Type := Hit {
  hit_id : option string;
  hit_score : option num;
  hit_source : option source
}.

(** One entry of the [docs] of a multi-get response. *)
Record mget_doc : Type := MgetDoc {
  mdoc_id : option string;
  mdoc_found : bool;
  mdoc_source : option source
}.

(** A slim hit: [{"id", "score", "text", "meta"}]. *)
Record slim_hit : Type := Slim {
  slim_id : option string;
  slim_score : option num;
  slim_text : string;
  slim_meta : metadata
}.

(** The answers of the search engine's client and of the embedding model. *)
Record backend : Type := Backend {
  indices_exists : string -> result bool;
  indices_create : string -> Z -> result unit;
  encode_batch : list string -> result (list vector);
  encode_query : string -> result vector;
  search : string -> search_body -> result (list hit);
  mget : string -> list string -> result (list mget_doc);
  bulk : list action -> result Z
}.

Variable rt : runtime.
Variable be : backend.

Definition _ensure_index (self : t) : M unit :=
  try_except
    (let! present := call (IndicesExists (index self)) (indices_exists be (index self)) in
     if present : bool then ret tt
     else call (IndicesCreate (index self) (dim self))
               (indices_create be (index self) (dim self)))
    (fun _ => true)
    (fun e => run! print ("вќЊ Erro ao garantir Г­ndice OpenSearch: " +:+ exn_text rt e) in raise e).

(** [[d["text"] for d in docs]] *)
Fixpoint texts_of (docs : list doc) : result (list string) :=
  match docs with
  | [] => Ok []
  | d :: rest =>
      match d_text d with
      | None => Raise (KeyError "text")
      | Some t =>
          match texts_of rest with
          | Ok ts => Ok (t :: ts)
          | Raise e => Raise e
          end
      end
  end.

Definition action_of (self : t) (dv : doc * vector) : action :=
  let d := fst dv in
  Action (index self) (d_id d) (d_id d) (d_text d)
         (match d_metadata d with Some m => m | None => [] end) (snd dv).

(** The return value [{"indexed": n}] is represented by [n]. *)
Definition index_docs (self : t) (docs : list doc) : M Z :=
  match docs with
  | [] => ret 0
  | _ =>
      run! _ensure_index self in
      let! texts := lift (texts_of docs) in
      let! vectors := call (EncodeBatch texts) (encode_batch be texts) in
      let actions := map (action_of self) (combine docs vectors) in
      let! success := call (Bulk actions) (bulk be actions) in
      ret success
  end.

Definition source_of (o : option source) : source :=
  match o with Some s => s | None => Source None None None end.

Definition text_of (s : source) : string :=
  match src_text s with Some t => t | None => EmptyString end.

Definition meta_of (s : source) : metadata :=
  match src_metadata s with Some m => m | None => [] end.

Definition slim_of_hit (h : hit) : slim_hit :=
  let src := source_of (hit_source h) in
  Slim (or_else (src_id src) (hit_id h)) (hit_score h) (text_of src) (meta_of src).

Definition search_knn_slim (self : t) (query : string) (top_k : nat) : M (list slim_hit) :=
  run! _ensure_index self in
  let! vec := call (EncodeQuery query) (encode_query be query) in
  let body := Knn top_k vec in
  let! hits := call (Search (index self) body) (search be (index self) body) in
  ret (map slim_of_hit hits).

(** [scores.setdefault(_id, 0.0); scores[_id] += x] on a dict kept in
    insertion order. *)
Fixpoint bump (id : string) (x : num) (scores : list (string * num)) : list (string * num) :=
  match scores with
  | [] => [(id, s_add s_zero x)]
  | (k, v) :: rest =>
      if String.eqb k id then (k, s_add v x) :: rest
      else (k, v) :: bump id x rest
  end.

(** [add_rrf(hlist)], from position [rank] on. *)
Fixpoint add_rrf_from (rank : Z) (hlist : list hit) (scores : list (string * num))
  : list (string * num) :=
  match hlist with
  | [] => scores
  | h :: rest =>
      let scores' :=
        match hit_id h with
        | Some id => if Text.truthy id then bump id (s_inv (60 + rank)) scores else scores
        | None => scores
        end in
      add_rrf_from (rank + 1) rest scores'
  end.

Definition add_rrf (hlist : list hit) (scores : list (string * num)) : list (string * num) :=
  add_rrf_from 1 hlist scores.

(** [sorted(items, key=lambda x: x[1], reverse=True)]: descending, and
    stable, so items of equal score keep their order. *)
Fixpoint insert_desc (x : string * num) (l : list (string * num)) : list (string * num) :=
  match l with
  | [] => [x]
  | y :: rest =>
      if s_ltb (snd x) (snd y) then y :: insert_desc x rest
      else x :: y :: rest
  end.

Definition sorted_desc (l : list (string * num)) : list (string * num) :=
  fold_right insert_desc [] l.

(** [scores.get(key, 0)] *)
Fixpoint scores_get (key : option string) (scores : list (string * num)) : num :=
  match key, scores with
  | Some id, (k, v) :: rest => if String.eqb k id then v else scores_get key rest
  | _, _ => s_zero
  end.

Definition fused_of (scores : list (string * num)) (d : mget_doc) : slim_hit :=
  let src := source_of (mdoc_source d) in
  Slim (or_else (src_id src) (mdoc_id d)) (Some (scores_get (mdoc_id d) scores))
       (text_of src) (meta_of src).

(** The fusion proper: the scores after both lists, and the ids asked back. *)
Definition rrf_scores (bm25_hits knn_hits : list hit) : list (string * num) :=
  add_rrf knn_hits (add_rrf bm25_hits []).

Definition top_ids (top_k : nat) (scores : list (string * num)) : list string :=
  map fst (firstn top_k (sorted_desc scores)).

Definition search_hybrid_slim (self : t) (query : string) (top_k : nat) : M (list slim_hit) :=
  run! _ensure_index self in
  let bm25_body := MatchText top_k query in
  let! bm25_hits := call (Search (index self) bm25_body) (search be (index self) bm25_body) in
  let! vec := call (EncodeQuery query) (encode_query be query) in
  let knn_body := Knn top_k vec in
  let! knn_hits := call (Search (index self) knn_body) (search be (index self) knn_body) in
  let scores := rrf_scores bm25_hits knn_hits in
  match scores with
  | [] => ret []
  | _ =>
      let ids := top_ids top_k scores in
      let! docs := call (Mget (index self) ids) (mget be (index self) ids) in
      ret (map (fused_of scores) (filter (fun d => mdoc_found d = true) docs))
  end.

End WithScores.

Arguments hit : clear implicits.
Arguments mget_doc : clear implicits.
Arguments slim_hit : clear implicits.
Arguments backend : clear implicits.

End OpenSearchService.

(* ===================================================================== *)
(** ** os.path and the PATH variable *)
(* ===================================================================== *)

(** The POSIX versions ([posixpath]): the separator is [/], the entries of
    [PATH] are separated by [:]. *)
Module OsPath.

Definition sep : ascii := "/"%char.
Definition pathsep : ascii := ":"%char.

Fixpoint ends_with_sep (s : string) : bool :=
  match s with
  | EmptyString => false
  | String c EmptyString => Ascii.eqb c sep
  | String _ r => ends_with_sep r
  end.

(** [os.path.join(a, b)]: an absolute [b] replaces [a]; otherwise [b] is
    appended, after a separator unless [a] is empty or ends with one. *)
Definition join (a b : string) : string :=
  if Text.is_prefix (Text.str1 sep) b then b
  else if negb (Text.truthy a) || ends_with_sep a then a +:+ b
  else a +:+ Text.str1 sep +:+ b.

(** [p[:p.rfind("/") + 1]] *)
Fixpoint upto_last_sep (p : string) : string :=
  match p with
  | EmptyString => EmptyString
  | String c r =>
      if Text.contains (Text.str1 sep) p then String c (upto_last_sep r)
      else EmptyString
  end.

Fixpoint all_sep (s : string) : bool :=
  match s with
  | EmptyString => true
  | String c r => Ascii.eqb c sep && all_sep r
  end.

(** [s.rstrip("/")] *)
Fixpoint rstrip_sep (s : string) : string :=
  match s with
  | EmptyString => EmptyString
  | String c r =>
      match rstrip_sep r with
      | EmptyString => if Ascii.eqb c sep then EmptyString else Text.str1 c
      | r' => String c r'
      end
  end.

(** [os.path.dirname(p)] *)
Definition dirname (p : string) : string :=
  let head := upto_last_sep p in
  if Text.truthy head && negb (all_sep head) then rstrip_sep head else head.

(** [s.split(c)]: one more part than there are separators. *)
Fixpoint split (c : ascii) (s : string) : list string :=
  match s with
  | EmptyString => [EmptyString]
  | String x r =>
      if Ascii.eqb x c then EmptyString :: split c r
      else match split c r with
           | p :: ps => String x p :: ps
           | [] => [Text.str1 x]
           end
  end.

End OsPath.

(* ===================================================================== *)
(** ** app/services/llama_service.py *)
(* ===================================================================== *)

Module LlamaService.

(** The service after construction: the paths have been validated. *)
Record t : Type := Service {
  llama_cpp : string;
  model_path : string;
  default_ngl : string;
  default_extra_args : list string
}.

(** *** Start-up: the executable and the model *)

(** What the start-up checks see of the machine: [os.path.isfile],
    [os.path.isdir], [os.access(path, os.X_OK)], [os.listdir] ([None] when
    it raises) and [os.environ.get("PATH")]. *)
Record machine : Type := Machine {
  isfile : string -> bool;
  isdir : string -> bool;
  access_X_OK : string -> bool;
  listdir : string -> option (list string);
  environ_PATH : option string
}.

(** The two entries of [app.config.settings.settings] the class reads. *)
Record settings : Type := Settings {
  LLAMA_CPP_PATH : string;
  MODEL_PATH : string
}.

Definition DEFAULT_CANDIDATES : list string :=
  [ "/app/llama.cpp/build/bin/llama-cli";
    "/app/llama.cpp/build/bin/llama-bin";
    "/app/llama.cpp/build/bin/llama-simple";
    "/app/llama.cpp/build/bin/main";
    "/app/llama.cpp/build/bin/llama" ]%string.

Definition _is_executable (m : machine) (path : string) : bool :=
  isfile m path && access_X_OK m path.

(** The loop both searches run over a listing: the names that start with
    [llama-], as paths under [dir], those that are executable. *)
Definition llama_entries (m : machine) (dir : string) (names : list string) : list string :=
  List.filter (_is_executable m)
    (map (OsPath.join dir) (List.filter (Text.is_prefix "llama-") names)).

Definition _candidate_bins_from_dir (m : machine) (dir_path : string) : list string :=
  if negb (isdir m dir_path) then []
  else
    let found :=
      List.filter (_is_executable m)
        (map (OsPath.join dir_path)
             ["llama-cli"; "llama-bin"; "llama-simple"; "main"; "llama"]%string) in
    match listdir m dir_path with
    | Some names => found ++ llama_entries m dir_path names
    | None => found
    end.

Definition _search_path_for_llama_bins (m : machine) : list string :=
  flat_map (fun d => match listdir m d with
                     | Some names => llama_entries m d names
                     | None => []
                     end)
           (OsPath.split OsPath.pathsep
              match environ_PATH m with Some p => p | None => EmptyString end).

(** [a or b] for a string that may not be given. *)
Definition or_default (a : option string) (b : string) : string :=
  match a with
  | Some s => if Text.truthy s then s else b
  | None => b
  end.

Definition _autodetect_bin (m : machine) (self : t) : option string :=
  match (if isdir m (llama_cpp self)
         then head (_candidate_bins_from_dir m (llama_cpp self)) else None) with
  | Some cand => Some cand
  | None =>
      match List.find (_is_executable m) DEFAULT_CANDIDATES with
      | Some p => Some p
      | None =>
          let maybe_dir := OsPath.dirname (llama_cpp self) in
          match (if isdir m maybe_dir
                 then head (_candidate_bins_from_dir m maybe_dir) else None) with
          | Some cand => Some cand
          | None => head (_search_path_for_llama_bins m)
          end
      end
  end.

Definition no_binary_message (self : t) : string :=
  "[llama] Nenhum binário executável encontrado para llama.cpp (LLAMA_CPP_PATH='"
  +:+ llama_cpp self +:+ "')".

Definition no_model_message (self : t) : string :=
  "[llama] Modelo não encontrado em '" +:+ model_path self
  +:+ "'. Verifique MODEL_PATH.".

(** [_validate_paths] changes [self.llama_cpp] in place; here it returns the
    object as it leaves it. *)
Definition _validate_paths (m : machine) (self : t) : M t :=
  let! self :=
    if negb (_is_executable m (llama_cpp self)) then
      match _autodetect_bin m self with
      | Some cand =>
          if Text.truthy cand then
            run! print ("[llama] Aviso: LLAMA_CPP_PATH inválido ('" +:+ llama_cpp self
                        +:+ "'). Usando '" +:+ cand +:+ "'.") in
            ret (Service cand (model_path self) (default_ngl self)
                         (default_extra_args self))
          else raise (RuntimeError (no_binary_message self))
      | None => raise (RuntimeError (no_binary_message self))
      end
    else ret self in
  if negb (isfile m (model_path self))
  then raise (RuntimeError (no_model_message self))
  else ret self.

(** [LlamaService(llama_cpp, model_path, default_ngl, default_extra_args)];
    [None] is an argument the call leaves to its default. *)
Definition __init__ (m : machine) (st : settings) (llama_cpp model_path : option string)
    (default_ngl : option string) (default_extra_args : option (list string)) : M t :=
  let self :=
    Service (or_default llama_cpp (LLAMA_CPP_PATH st))
            (or_default model_path (MODEL_PATH st))
            (match default_ngl with Some n => n | None => "0"%string end)
            (match default_extra_args with Some l => l | None => [] end) in
  _validate_paths m self.

(** What a child process does, as seen by its parent: how long it runs
    (seconds), what it writes and how it exits.  The captured output is taken
    to be text already.  The synchronous generator reads it in text mode
    (strict decoding, carriage returns rewritten to line feeds), the
    asynchronous one decodes the bytes and drops what does not decode: the
    two read plain output ([Text.is_plain]) alike, and the model is that of
    such output. *)
Record process : Type := Process {
  run_time : Q;
  stdout : string;
  stderr : string;
  returncode : Z
}.

(** The operating system: the process a command line starts. *)
Definition os : Type := list string -> process.

(** A wait bounded by [timeout] expires when the process runs longer. *)
Definition expires (timeout : option Q) (p : process) : bool :=
  match timeout with
  | None => false
  | Some t => negb (Qle_bool (run_time p) t)
  end.

(** [if extra_args:] a list is true when it is given and not empty. *)
Definition given (extra_args : option (list string)) : bool :=
  match extra_args with
  | Some (_ :: _) => true
  | _ => false
  end.

Definition _build_command (self : t) (prompt : string) (max_tokens : Z)
    (extra_args : option (list string)) : list string :=
  let cmd := [ llama_cpp self;
               "-m"%string; model_path self;
               "-n"%string; Text.str_of_int max_tokens;
               "-ngl"%string; default_ngl self;
               "-p"%string; prompt ] in
  if given extra_args
  then cmd ++ match extra_args with Some l => l | None => [] end
  else cmd ++ default_extra_args self.

(** The message of the error raised on a non-zero exit. *)
Definition failure_message (rt : runtime) (cmd : list string) (code : Z) (err : string)
  : string :=
  "LLaMA falhou (exit " +:+ Text.str_of_int code +:+ ")." +:+ Text.nl
  +:+ "cmd: " +:+ shlex_join rt cmd +:+ Text.nl
  +:+ "stderr:" +:+ Text.nl +:+ err.

(** [subprocess.run(cmd, capture_output=True, text=True, timeout=timeout)]:
    on expiry the child is killed and [subprocess.TimeoutExpired] is
    raised. *)
Definition subprocess_run (sys : os) (cmd : list string) (timeout : option Q)
  : result process :=
  let p := sys cmd in
  match timeout with
  | Some t => if expires timeout p then Raise (TimeoutExpired cmd t) else Ok p
  | None => Ok p
  end.

Definition generate_response (rt : runtime) (sys : os) (self : t)
    (prompt : string) (max_tokens : Z) (extra_args : option (list string))
    (timeout : option Q) : result string :=
  let cmd := _build_command self prompt max_tokens extra_args in
  match subprocess_run sys cmd timeout with
  | Raise e => Raise e
  | Ok res =>
      if negb (returncode res =? 0)
      then Raise (RuntimeError (failure_message rt cmd (returncode res) (stderr res)))
      else Ok (str_strip rt (stdout res))
  end.

(** [_run_async]: [asyncio.wait_for(proc.communicate(), timeout)]; on
    [asyncio.TimeoutError] the child is killed and a [RuntimeError] is
    raised. *)
Definition _run_async (rt : runtime) (sys : os) (cmd : list string) (timeout : option Q)
  : result (string * string * Z) :=
  let p := sys cmd in
  if expires timeout p
  then Raise (RuntimeError ("LLaMA timeout." +:+ Text.nl +:+ "cmd: " +:+ shlex_join rt cmd))
  else Ok (stdout p, stderr p, returncode p).

Definition generate_response_async (rt : runtime) (sys : os) (self : t)
    (prompt : string) (max_tokens : Z) (extra_args : option (list string))
    (timeout : option Q) : result string :=
  let cmd := _build_command self prompt max_tokens extra_args in
  match _run_async rt sys cmd timeout with
  | Raise e => Raise e
  | Ok (out, err, code) =>
      if negb (code =? 0)
      then Raise (RuntimeError (failure_message rt cmd code err))
      else Ok (str_strip rt out)
  end.

(** The method names the class defines, and the attributes [__init__]
    sets. *)
Definition class_attributes : list string :=
  [ "__init__"; "_autodetect_bin"; "_validate_paths"; "_build_command";
    "generate_response"; "generate_response_async"; "_run_async";
    "llama_cpp"; "model_path"; "default_ngl"; "default_extra_args" ]%string.

End LlamaService.

(* ===================================================================== *)
(** ** app/domain/analysis_domain.py *)
(* ===================================================================== *)

Module AnalysisDomain.

(** The object injected as [retriever], as the coordinator uses it: which
    attribute names it answers to, and what awaiting
    [search_vector(query)] yields when it has that attribute. *)
Record retriever_object : Type := Retriever {
  retriever_has : string -> bool;
  search_vector : string -> result (list string)
}.

(** The object injected as [generator]: likewise, for
    [generate_response_async(prompt=..., max_tokens=...)]. *)
Record generator_object : Type := Generator {
  generator_has : string -> bool;
  generate_response_async : string -> Z -> result string
}.

(** The handle of the cache service; its content is the world's
    [cache_store]. *)
Inductive cache_object : Type := TheCache.

Record t : Type := Domain {
  retriever : retriever_object;
  generator : generator_object;
  cache : cache_object
}.

(** How the missing parameters are listed in the [TypeError] of a call:
    ['a'], ['a' and 'b'], ['a', 'b', and 'c']. *)
Fixpoint listed_many (names : list string) : string :=
  match names with
  | [] => EmptyString
  | [a] => "and '" +:+ a +:+ "'"
  | a :: rest => "'" +:+ a +:+ "', " +:+ listed_many rest
  end.

Definition listed (names : list string) : string :=
  match names with
  | [] => EmptyString
  | [a] => "'" +:+ a +:+ "'"
  | [a; b] => "'" +:+ a +:+ "' and '" +:+ b +:+ "'"
  | _ => listed_many names
  end.

Definition missing_arguments (callee : string) (names : list string) : exn :=
  TypeError (callee +:+ "() missing "
             +:+ Text.str_of_int (Z.of_nat (length names))
             +:+ " required positional argument"
             +:+ (if Nat.eqb (length names) 1 then "" else "s") +:+ ": "
             +:+ listed names).

Definition absent {A} (name : string) (arg : option A) : list string :=
  match arg with Some _ => [] | None => [name] end.

(** [AnalysisDomain(...)]: the constructor has three parameters and no
    default for any of them; [None] is a parameter the call does not
    supply. *)
Definition __init__ (retriever : option retriever_object)
    (generator : option generator_object) (cache : option cache_object) : result t :=
  match retriever, generator, cache with
  | Some r, Some g, Some c => Ok (Domain r g c)
  | _, _, _ =>
      Raise (missing_arguments "AnalysisDomain.__init__"
               (absent "retriever" retriever ++ absent "generator" generator
                ++ absent "cache" cache))
  end.

(** [if cached_report:] *)
Definition hit_value (cached_report : option string) : option string :=
  match cached_report with
  | Some v => if Text.truthy v then Some v else None
  | None => None
  end.

Definition cache_key (req : AndroguardAnalysis) : string :=
  let input_hash := Sha256.hexdigest (model_dump_json req) in
  "themisai:analysis:" +:+ input_hash.

Definition specific_context (req : AndroguardAnalysis) : string :=
  let app_data_json := model_dump_json_indent2 req in
  Text.unlines [
    EmptyString;
    "        # CONTEXTO ESPECÍFICO DA APLICAÇÃO (ANDROGUARD)";
    "        Pacote: " +:+ package_name req +:+ ".";
    "        Dados Analíticos Brutos (JSON):";
    "        " +:+ app_data_json;
    "        " ]%string.

Definition _get_system_prompt (rt : runtime) : string :=
  Text.unlines [
    EmptyString;
    "        Você é um Analista de Segurança Sênior, especializado em análise estática de aplicativos Android.";
    EmptyString;
    "        Sua única e estrita tarefa é ANALISAR os dados brutos do aplicativo fornecidos";
    "        e usar o CONTEXTO MITRE fornecido para identificar vulnerabilidades e mitigá-las.";
    EmptyString;
    "        SUA RESPOSTA DEVE SER ESTREITAMENTE O OBJETO JSON COMPLETO, SEM QUALQUER TEXTO EXPLICATIVO, ";
    "        CABEÇALHO, MARCAÇÃO DE CÓDIGO (```JSON) OU INTRODUÇÃO.";
    EmptyString;
    "        FORMATO DE SAÍDA OBRIGATÓRIO (JSON Schema):";
    "        ---";
    "        " +:+ schema_json_str rt;
    "        ---";
    "        " ]%string.

(** The retrieved fragments, one per line. *)
Definition mitre_context_str (mitre_context : list string) : string :=
  Text.join Text.nl (map (fun c => "  - " +:+ c) mitre_context).

Definition _format_final_prompt (system_prompt app_context : string)
    (mitre_context : list string) : string :=
  Text.unlines [
    EmptyString;
    "        " +:+ system_prompt;
    EmptyString;
    "        ################################################################################";
    "        # CONTEXTO GERAL DE SEGURANÇA (MITRE ATT&CK Mobile)";
    "        ################################################################################";
    "        Use este contexto para identificar e categorizar vulnerabilidades presentes nos ";
    "        dados do aplicativo e sugerir mitigações.";
    EmptyString;
    "        Chunk de Conhecimento:";
    "        " +:+ mitre_context_str mitre_context;
    EmptyString;
    EmptyString;
    "        ################################################################################";
    "        # DADOS BRUTOS DA APLICAÇÃO (ANDROGUARD)";
    "        ################################################################################";
    "        Analise o conteúdo abaixo (logs, permissões, resultados de análise estática)";
    "        para correlacionar com as técnicas MITRE.";
    EmptyString;
    "        " +:+ app_context;
    EmptyString;
    EmptyString;
    "        ################################################################################";
    "        # TAREFA FINAL E RESTRIÇÕES";
    "        ################################################################################";
    "        Sua análise deve ser completa, baseada estritamente nos dados fornecidos. ";
    "        Gere o relatório de segurança completo no formato JSON ESPECIFICADO NO INÍCIO ";
    "        (ThemisAIReport), sem adicionar nenhuma outra informação.";
    "        " ]%string.

Definition final_prompt (rt : runtime) (req : AndroguardAnalysis)
    (mitre_chunks : list string) : string :=
  _format_final_prompt (_get_system_prompt rt) (specific_context req) mitre_chunks.

(** [await self.retriever.search_vector(query)] *)
Definition await_search_vector (r : retriever_object) (query : string) : M (list string) :=
  if retriever_has r "search_vector"
  then call (SearchVector query) (search_vector r query)
  else raise (AttributeError "search_vector").

(** [await self.generator.generate_response_async(prompt=..., max_tokens=...)] *)
Definition await_generate (g : generator_object) (prompt : string) (max_tokens : Z)
  : M string :=
  if generator_has g "generate_response_async"
  then call (GenerateAsync prompt max_tokens) (generate_response_async g prompt max_tokens)
  else raise (AttributeError "generate_response_async").

(** The message of the [ValueError] the coordinator builds. *)
Definition invalid_json_message (rt : runtime) (e : exn) (json_response_str : string)
  : string :=
  "LLM retornou JSON inválido. Erro: " +:+ exn_text rt e +:+ ". Output: "
  +:+ Text.take_chars 200 json_response_str +:+ "...".

(** The closing [try] statement: deserialize the output; a
    [json.JSONDecodeError] is turned into a [ValueError] that quotes the
    first 200 characters. *)
Definition validated (rt : runtime) (json_response_str : string) : M ThemisAIReport :=
  try_except (lift (model_validate_json rt json_response_str))
    is_JSONDecodeError
    (fun e => raise (ValueError (invalid_json_message rt e json_response_str))).

Definition perform_analysis (rt : runtime) (self : t) (req : AndroguardAnalysis)
  : M ThemisAIReport :=
  let cache_key := cache_key req in
  let! cached_report := cache_get cache_key in
  match hit_value cached_report with
  | Some cached =>
      run! print ("CACHE HIT: Retornando relatório para chave " +:+ cache_key) in
      lift (model_validate_json rt cached)
  | None =>
      let specific_context := specific_context req in
      let! mitre_chunks := await_search_vector (retriever self) specific_context in
      let final_prompt := final_prompt rt req mitre_chunks in
      let! json_response_str := await_generate (generator self) final_prompt 512 in
      let TTL_SECONDS := 3600 in
      run! cache_set cache_key json_response_str TTL_SECONDS in
      validated rt json_response_str
  end.

(** The cache service with calls that may fail: [get] and [set] are any
    computations.  [spec_cache] is the cache of the specification, whose
    calls always answer. *)
Record cache_service : Type := CacheService {
  service_get : string -> M (option string);
  service_set : string -> string -> Z -> M unit
}.

Definition spec_cache : cache_service := CacheService cache_get cache_set.

(** [perform_analysis] over such a cache service: both cache calls stand
    outside any [try], so what they raise leaves the coordinator. *)
Definition perform_analysis_over (rt : runtime) (c : cache_service) (self : t)
    (req : AndroguardAnalysis) : M ThemisAIReport :=
  let cache_key := cache_key req in
  let! cached_report := service_get c cache_key in
  match hit_value cached_report with
  | Some cached =>
      run! print ("CACHE HIT: Retornando relatório para chave " +:+ cache_key) in
      lift (model_validate_json rt cached)
  | None =>
      let specific_context := specific_context req in
      let! mitre_chunks := await_search_vector (retriever self) specific_context in
      let final_prompt := final_prompt rt req mitre_chunks in
      let! json_response_str := await_generate (generator self) final_prompt 512 in
      let TTL_SECONDS := 3600 in
      run! service_set c cache_key json_response_str TTL_SECONDS in
      validated rt json_response_str
  end.

(** The retriever an [OpenSearchService] makes: it answers to the names
    its class defines, [search_vector] not being one of them (so the second
    field is never consulted). *)
Definition of_OpenSearchService : retriever_object :=
  Retriever (fun name => existsb (String.eqb name) OpenSearchService.class_attributes)
            (fun _ => Raise (AttributeError "search_vector")).

(** The generator a [LlamaService] makes. *)
Definition of_LlamaService (rt : runtime) (sys : LlamaService.os) (svc : LlamaService.t)
  : generator_object :=
  Generator (fun name => existsb (String.eqb name) LlamaService.class_attributes)
            (fun prompt max_tokens =>
               LlamaService.generate_response_async rt sys svc prompt max_tokens None None).

(** The stand-ins of the unit tests ([AsyncMock]): they answer to every
    name, with a configured return value. *)
Definition mock_retriever (return_value : list string) : retriever_object :=
  Retriever (fun _ => true) (fun _ => Ok return_value).

Definition mock_generator (return_value : string) : generator_object :=
  Generator (fun _ => true) (fun _ _ => Ok return_value).

End AnalysisDomain.

(* ===================================================================== *)
(** ** app/routes/app_analysis.py *)
(* ===================================================================== *)

Module Routes.

(** [get_analysis_domain]: the call names [retriever] and [generator]
    only. *)
Definition get_analysis_domain (retriever : AnalysisDomain.retriever_object)
    (generator : AnalysisDomain.generator_object) : result AnalysisDomain.t :=
  AnalysisDomain.__init__ (Some retriever) (Some generator) None.

(** [analyze_app]: the dependencies are resolved in the order of the
    parameters ([_user], then [domain] with its own two), and only then is
    the body run.  [user], [retriever] and [generator] are what the
    providers [get_current_user], [get_opensearch_service] and
    [get_llama_service] returned or raised. *)
Definition analyze_app (rt : runtime) (user : result unit)
    (retriever : result AnalysisDomain.retriever_object)
    (generator : result AnalysisDomain.generator_object)
    (req : AndroguardAnalysis) : M ThemisAIReport :=
  let! _user := lift user in
  let! r := lift retriever in
  let! g := lift generator in
  let! domain := lift (get_analysis_domain r g) in
  try_except (AnalysisDomain.perform_analysis rt domain req)
    (fun _ => true)
    (fun e => raise (HTTPException 500 ("Falha ao gerar análise: " +:+ exn_text rt e))).


End Routes.

(* ===================================================================== *)
(** ** The application module: start-up *)
(* ===================================================================== *)

Module Main.

(** [lifespan], up to its [yield]: [service] is what importing the search
    service's module and calling its constructor gave. *)
Definition lifespan {num : Type} (rt : runtime) (be : OpenSearchService.backend num)
    (service : result OpenSearchService.t) : M unit :=
  try_except
    (let! osvc := lift service in
     try_except (OpenSearchService._ensure_index rt be osvc)
       (fun _ => true)
       (fun _ => print "AVISO: Falha ao garantir o índice do OpenSearch no lifespan."))
    (fun _ => true)
    (fun _ => print "AVISO: OpenSearchService não disponível ou inicialização falhou.").

End Main.

(* ===================================================================== *)
(** ** A reference runtime *)
(* ===================================================================== *)

(** One concrete [runtime], on which the model can be run: a reader for the
    JSON grammar of RFC 8259, a conversion of short numerals to binary64,
    and plain versions of the text functions.  The general statements below
    hold for every runtime; the examples use this one. *)
Module Reference.
#[local] Open Scope nat_scope.

Definition code (c : ascii) : nat := nat_of_ascii c.

Definition is_ws (c : ascii) : bool :=
  let n := code c in
  Nat.eqb n 32 || Nat.eqb n 9 || Nat.eqb n 10 || Nat.eqb n 13.

Definition is_digit (c : ascii) : bool :=
  let n := code c in Nat.leb 48 n && Nat.leb n 57.

Fixpoint skip_ws (s : string) : string :=
  match s with
  | String c r => if is_ws c then skip_ws r else s
  | EmptyString => s
  end.

Definition hex_value (c : ascii) : option nat :=
  let n := code c in
  if is_digit c then Some (n - 48)
  else if Nat.leb 97 n && Nat.leb n 102 then Some (n - 87)
  else if Nat.leb 65 n && Nat.leb n 70 then Some (n - 55)
  else None.

(** The UTF-8 bytes of a code point of the basic plane. *)
Definition utf8 (cp : nat) : string :=
  if Nat.ltb cp 128 then Text.str1 (ascii_of_nat cp)
  else if Nat.ltb cp 2048 then
    String (ascii_of_nat (192 + cp / 64)) (Text.str1 (ascii_of_nat (128 + cp mod 64)))
  else
    String (ascii_of_nat (224 + cp / 4096))
      (String (ascii_of_nat (128 + (cp / 64) mod 64))
         (Text.str1 (ascii_of_nat (128 + cp mod 64)))).

Definition unescape (e : ascii) : option ascii :=
  let n := code e in
  if Nat.eqb n 34 then Some Text.dquote
  else if Nat.eqb n 92 then Some Text.backslash
  else if Nat.eqb n 47 then Some "/"%char
  else if Nat.eqb n 98 then Some (ascii_of_nat 8)
  else if Nat.eqb n 102 then Some (ascii_of_nat 12)
  else if Nat.eqb n 110 then Some (ascii_of_nat 10)
  else if Nat.eqb n 114 then Some (ascii_of_nat 13)
  else if Nat.eqb n 116 then Some (ascii_of_nat 9)
  else None.

Definition prepend (p : string) (r : option (string * string)) : option (string * string) :=
  match r with
  | Some (body, rest) => Some (p +:+ body, rest)
  | None => None
  end.

(** The body of a string literal, after its opening quote: the text it
    denotes and what follows the closing quote.  Surrogate escapes are not
    read. *)
Fixpoint read_string (s : string) : option (string * string) :=
  match s with
  | EmptyString => None
  | String c r =>
      if Nat.eqb (code c) 34 then Some (EmptyString, r)
      else if Nat.eqb (code c) 92 then
        match r with
        | String e r1 =>
            if Nat.eqb (code e) 117 then
              match r1 with
              | String h1 (String h2 (String h3 (String h4 r2))) =>
                  match hex_value h1, hex_value h2, hex_value h3, hex_value h4 with
                  | Some a, Some b, Some c', Some d =>
                      let cp := ((a * 16 + b) * 16 + c') * 16 + d in
                      if Nat.leb 216 (cp / 256) && Nat.leb (cp / 256) 223 then None
                      else prepend (utf8 cp) (read_string r2)
                  | _, _, _, _ => None
                  end
              | _ => None
              end
            else
              match unescape e with
              | Some x => prepend (Text.str1 x) (read_string r1)
              | None => None
              end
        | EmptyString => None
        end
      else if Nat.ltb (code c) 32 then None
      else prepend (Text.str1 c) (read_string r)
  end.

(** The longest run of digits at the front. *)
Fixpoint digits (s : string) : string * string :=
  match s with
  | String c r =>
      if is_digit c then let (d, rest) := digits r in (String c d, rest)
      else (EmptyString, s)
  | EmptyString => (EmptyString, s)
  end.

Definition nonempty (s : string) : bool := Text.truthy s.

(** A numeral: an optional minus, an integer part without a leading zero,
    an optional fraction and an optional exponent. *)
Definition read_number (s : string) : option (string * string) :=
  let (sign, s1) :=
    match s with
    | String "-" r => ("-"%string, r)
    | _ => (EmptyString, s)
    end in
  let (int_part, s2) := digits s1 in
  let int_ok :=
    match int_part with
    | EmptyString => false
    | String "0" (String _ _) => false
    | _ => true
    end in
  if negb int_ok then None else
  let (frac, s3) :=
    match s2 with
    | String "." r =>
        let (d, rest) := digits r in
        if nonempty d then ("." +:+ d, rest) else ("."%string, s2)
    | _ => (EmptyString, s2)
    end in
  if String.eqb frac "." then None else
  let (expo, s4) :=
    match s3 with
    | String e r =>
        if Ascii.eqb e "e" || Ascii.eqb e "E" then
          let (sg, r1) :=
            match r with
            | String "+" r' => ("+"%string, r')
            | String "-" r' => ("-"%string, r')
            | _ => (EmptyString, r)
            end in
          let (d, rest) := digits r1 in
          if nonempty d then (Text.str1 e +:+ sg +:+ d, rest) else ("!"%string, s3)
        else (EmptyString, s3)
    | EmptyString => (EmptyString, s3)
    end in
  if String.eqb expo "!" then None
  else Some (sign +:+ int_part +:+ frac +:+ expo, s4).

Definition strip_prefix (p s : string) : option string :=
  if Text.is_prefix p s then Some (String.substring (String.length p) (String.length s - String.length p) s)
  else None.

(** A value, and then what follows it. *)
Fixpoint read_value (fuel : nat) (s : string) : option (Json.value * string) :=
  match fuel with
  | O => None
  | S fuel' =>
      match skip_ws s with
      | EmptyString => None
      | String c r =>
          let n := code c in
          if Nat.eqb n 34 then
            match read_string r with
            | Some (t, rest) => Some (Json.Str t, rest)
            | None => None
            end
          else if Nat.eqb n 91 then
            match skip_ws r with
            | String "]" rest => Some (Json.Array [], rest)
            | _ => read_items fuel' r []
            end
          else if Nat.eqb n 123 then
            match skip_ws r with
            | String "}" rest => Some (Json.Object [], rest)
            | _ => read_members fuel' r []
            end
          else if Nat.eqb n 116 then
            match strip_prefix "true" (String c r) with
            | Some rest => Some (Json.Bool true, rest)
            | None => None
            end
          else if Nat.eqb n 102 then
            match strip_prefix "false" (String c r) with
            | Some rest => Some (Json.Bool false, rest)
            | None => None
            end
          else if Nat.eqb n 110 then
            match strip_prefix "null" (String c r) with
            | Some rest => Some (Json.Null, rest)
            | None => None
            end
          else
            match read_number (String c r) with
            | Some (numeral, rest) => Some (Json.Number numeral, rest)
            | None => None
            end
      end
  end
with read_items (fuel : nat) (s : string) (acc : list Json.value)
  : option (Json.value * string) :=
  match fuel with
  | O => None
  | S fuel' =>
      match read_value fuel' s with
      | Some (v, rest) =>
          match skip_ws rest with
          | String "," rest' => read_items fuel' rest' (acc ++ [v])
          | String "]" rest' => Some (Json.Array (acc ++ [v]), rest')
          | _ => None
          end
      | None => None
      end
  end
with read_members (fuel : nat) (s : string) (acc : list (string * Json.value))
  : option (Json.value * string) :=
  match fuel with
  | O => None
  | S fuel' =>
      match skip_ws s with
      | String c r =>
          if Nat.eqb (code c) 34 then
            match read_string r with
            | Some (k, rest) =>
                match skip_ws rest with
                | String ":" rest1 =>
                    match read_value fuel' rest1 with
                    | Some (v, rest2) =>
                        match skip_ws rest2 with
                        | String "," rest3 => read_members fuel' rest3 (acc ++ [(k, v)])
                        | String "}" rest3 => Some (Json.Object (acc ++ [(k, v)]), rest3)
                        | _ => None
                        end
                    | None => None
                    end
                | _ => None
                end
            | None => None
            end
          else None
      | EmptyString => None
      end
  end.

(** A whole document: one value, white space around it, nothing else. *)
Definition loads (text : string) : option Json.value :=
  match read_value (2 * String.length text + 2) text with
  | Some (v, rest) =>
      match skip_ws rest with
      | EmptyString => Some v
      | _ => None
      end
  | None => None
  end.

(** The value of a run of digits. *)
Fixpoint digits_value (acc : Z) (s : string) : Z :=
  match s with
  | String c r => digits_value (10 * acc + Z.of_nat (code c - 48))%Z r
  | EmptyString => acc
  end.

Definition float_of_Z (n : Z) : float := PrimFloat.of_uint63 (Uint63.of_Z n).

(** A numeral as a binary64, when its digits fit 53 bits and its power of
    ten is at most 22 either way: then one multiplication or division of
    two exact values gives the nearest binary64. *)
Definition float_of_numeral (numeral : string) : option float :=
  let (neg, s1) :=
    match numeral with
    | String "-" r => (true, r)
    | _ => (false, numeral)
    end in
  let (int_part, s2) := digits s1 in
  let (frac, s3) :=
    match s2 with
    | String "." r => digits r
    | _ => (EmptyString, s2)
    end in
  let expo : Z :=
    match s3 with
    | String _ (String "-" r) => (- digits_value 0 r)%Z
    | String _ (String "+" r) => digits_value 0 r
    | String _ r => digits_value 0 r
    | EmptyString => 0%Z
    end in
  let m := digits_value 0 (int_part +:+ frac) in
  let e := (expo - Z.of_nat (String.length frac))%Z in
  if (m <? 2 ^ 53)%Z && (Z.abs e <=? 22)%Z then
    let x := if (0 <=? e)%Z
             then PrimFloat.mul (float_of_Z m) (float_of_Z (10 ^ e))
             else PrimFloat.div (float_of_Z m) (float_of_Z (10 ^ (- e))) in
    Some (if neg then PrimFloat.opp x else x)
  else None.

(** A [float] field takes a JSON number. *)
Definition float_of_json (v : Json.value) : option float :=
  match v with
  | Json.Number numeral => float_of_numeral numeral
  | _ => None
  end.

(** [repr] of a parsed value, as Python writes the dict and its parts. *)
Fixpoint py_repr (v : Json.value) : string :=
  match v with
  | Json.Null => "None"
  | Json.Bool true => "True"
  | Json.Bool false => "False"
  | Json.Number numeral => numeral
  | Json.Str t => "'" +:+ t +:+ "'"
  | Json.Array l => "[" +:+ Text.join ", " (map py_repr l) +:+ "]"
  | Json.Object ms =>
      "{" +:+ Text.join ", " (map (fun kv => match kv with
                                             | (k, x) => "'" +:+ k +:+ "': " +:+ py_repr x
                                             end) ms) +:+ "}"
  end.

(** A long [repr] is shown by its two ends. *)
Definition shortened (t : string) : string :=
  if Nat.leb (String.length t) 50 then t
  else String.substring 0 25 t +:+ "..."
       +:+ String.substring (String.length t - 24) 24 t.

Definition entry_text (en : error_entry) : string :=
  loc en +:+ " [type=" +:+ kind en +:+ ", input_value="
  +:+ match input en with
      | InputText t => shortened ("'" +:+ t +:+ "'") +:+ ", input_type=str"
      | InputValue x => shortened (py_repr x)
      end +:+ "]".

(** [str(e)], for a [ValidationError] in the manner of pydantic. *)
Definition exn_text (e : exn) : string :=
  match e with
  | AttributeError a => "object has no attribute '" +:+ a +:+ "'"
  | TypeError m | ValueError m | JSONDecodeError m | RuntimeError m | ServiceError m => m
  | KeyError k => "'" +:+ k +:+ "'"
  | ValidationError es =>
      Text.str_of_int (Z.of_nat (length es)) +:+ " validation errors for ThemisAIReport"
      +:+ Text.nl +:+ Text.join Text.nl (map entry_text es)
  | TimeoutExpired cmd _ => "Command '" +:+ Text.join " " cmd +:+ "' timed out"
  | HTTPException code detail => Text.str_of_int code +:+ ": " +:+ detail
  end.

(** The white space of ASCII, as [str.isspace] has it. *)
Definition is_space (c : ascii) : bool :=
  let n := code c in
  (Nat.leb 9 n && Nat.leb n 13) || (Nat.leb 28 n && Nat.leb n 32).

Fixpoint lstrip (l : list ascii) : list ascii :=
  match l with
  | c :: r => if is_space c then lstrip r else l
  | [] => []
  end.

Definition str_strip (s : string) : string :=
  string_of_list_ascii (rev (lstrip (rev (lstrip (list_ascii_of_string s))))).

(** The characters [shlex.quote] leaves alone. *)
Definition is_safe (c : ascii) : bool :=
  let n := code c in
  is_digit c || (Nat.leb 65 n && Nat.leb n 90) || (Nat.leb 97 n && Nat.leb n 122)
  || existsb (Ascii.eqb c) (list_ascii_of_string "_@%+=:,./-").

(** ['] becomes ['"'"'] inside single quotes. *)
Fixpoint quote_body (s : string) : string :=
  match s with
  | EmptyString => EmptyString
  | String c r =>
      (if Nat.eqb (code c) 39
       then "'" +:+ String Text.dquote ("'" +:+ String Text.dquote "'")
       else Text.str1 c) +:+ quote_body r
  end.

Definition shlex_quote (s : string) : string :=
  match s with
  | EmptyString => "''"
  | _ => if forallb is_safe (list_ascii_of_string s) then s
         else "'" +:+ quote_body s +:+ "'"
  end.

Definition shlex_join (cmd : list string) : string :=
  Text.join " " (map shlex_quote cmd).

(** The schema text is pydantic's; a stand-in of the same shape. *)
Definition schema_json_str : string :=
  "{" +:+ Json.quote "required" +:+ ": [" +:+ Json.items required_fields +:+ "], "
  +:+ Json.quote "title" +:+ ": " +:+ Json.quote "ThemisAIReport" +:+ ", "
  +:+ Json.quote "type" +:+ ": " +:+ Json.quote "object" +:+ "}".

Definition rt : runtime :=
  Runtime loads float_of_json exn_text schema_json_str str_strip shlex_join.

End Reference.


(* ===================================================================== *)
(** ** The fixtures of tests/unit/test_analysis_domain.py *)
(* ===================================================================== *)

Module Samples.

Definition mock_androguard_input : AndroguardAnalysis :=
  Build_AndroguardAnalysis "com.example.vulnerableapp"
    ["INTERNET"; "READ_EXTERNAL_STORAGE"]%string
    "Vulnerabilidade detectada em Logcat...".

(** [json.dumps(report_data)] *)
Definition mock_themis_report_json : string :=
  "{"
  +:+ Text.quoted "package_name"
  +:+ ": "
  +:+ Text.quoted "com.example.vulnerableapp"
  +:+ ", "
  +:+ Text.quoted "score"
  +:+ ": 7.5, "
  +:+ Text.quoted "summary"
  +:+ ": "
  +:+ Text.quoted "O app apresenta risco m\u00e9dio devido a permiss\u00f5es excessivas."
  +:+ ", "
  +:+ Text.quoted "vulnerability_name"
  +:+ ": "
  +:+ Text.quoted "Inseguran\u00e7a na Comunica\u00e7\u00e3o"
  +:+ ", "
  +:+ Text.quoted "severity_level"
  +:+ ": "
  +:+ Text.quoted "High"
  +:+ ", "
  +:+ Text.quoted "mitigation_actions"
  +:+ ": ["
  +:+ Text.quoted "Implementar TLS/SSL em todas as comunica\u00e7\u00f5es."
  +:+ "], "
  +:+ Text.quoted "findings"
  +:+ ": [{"
  +:+ Text.quoted "risk"
  +:+ ": "
  +:+ Text.quoted "HIGH"
  +:+ ", "
  +:+ Text.quoted "description"
  +:+ ": "
  +:+ Text.quoted "Permiss\u00e3o INTERNET sem uso de TLS."
  +:+ "}]}".

Definition mock_themis_report : ThemisAIReport :=
  Build_ThemisAIReport "com.example.vulnerableapp" 7.5%float
    "O app apresenta risco médio devido a permissões excessivas."
    "Insegurança na Comunicação" "High"
    ["Implementar TLS/SSL em todas as comunicações."]%string.

Definition rag_context : list string :=
  ["Contexto de RAG 1"; "Contexto de RAG 2"]%string.

(** The coordinator over the two mocks, the generator returning [output]. *)
Definition domain_returning (output : string) : AnalysisDomain.t :=
  AnalysisDomain.Domain (AnalysisDomain.mock_retriever rag_context)
                        (AnalysisDomain.mock_generator output)
                        AnalysisDomain.TheCache.

Definition domain : AnalysisDomain.t := domain_returning mock_themis_report_json.

(** A cache that holds nothing, and one that holds the report under the key
    of the request. *)
Definition cold : world := World ∅ [].

Definition warm : world :=
  World {[ AnalysisDomain.cache_key mock_androguard_input
           := (mock_themis_report_json, 3600) ]} [].

(** Two outputs that do not deserialize: text that is not JSON, and a
    document with one of the six fields. *)
Definition not_json : string := "Aqui esta o relatorio: a aplicacao e segura".

Definition only_score : string := "{" +:+ Text.quoted "score" +:+ ": 1}".

(** The hit lists of the fusion example: lexical [A, B, C], vector
    [B, D]; and an index that holds the four documents. *)
Definition hit_of {num : Type} (id : string) : OpenSearchService.hit num :=
  OpenSearchService.Hit (Some id) None None.

Definition lexical_hits {num : Type} : list (OpenSearchService.hit num) :=
  [hit_of "A"; hit_of "B"; hit_of "C"].

Definition vector_hits {num : Type} : list (OpenSearchService.hit num) :=
  [hit_of "B"; hit_of "D"].

Definition stored (id : string) : OpenSearchService.mget_doc :=
  OpenSearchService.MgetDoc (Some id) true
    (Some (OpenSearchService.Source (Some id) (Some ("text of " +:+ id)) None)).

Definition service : OpenSearchService.t :=
  OpenSearchService.Service "http://opensearch:9200" "themis" 384.

(** A search engine that answers the two searches with the two lists and
    hands back every document asked for; and one that finds nothing. *)
Definition engine : OpenSearchService.backend Q :=
  OpenSearchService.Backend
    (fun _ => Ok true) (fun _ _ => Ok tt)
    (fun texts => Ok (map (fun _ => []) texts)) (fun _ => Ok [])
    (fun _ body => match body with
                   | MatchText _ _ => Ok lexical_hits
                   | Knn _ _ => Ok vector_hits
                   end)
    (fun _ ids => Ok (map stored ids))
    (fun actions => Ok (Z.of_nat (length actions))).

Definition empty_engine : OpenSearchService.backend Q :=
  OpenSearchService.Backend
    (fun _ => Ok true) (fun _ _ => Ok tt)
    (fun texts => Ok (map (fun _ => []) texts)) (fun _ => Ok [])
    (fun _ _ => Ok []) (fun _ ids => Ok (map stored ids))
    (fun actions => Ok (Z.of_nat (length actions))).

(** A text generation service, and an operating system on which the model
    runs for two minutes before it prints a report and exits with 0. *)
Definition llama : LlamaService.t :=
  LlamaService.Service "/app/llama.cpp/build/bin/llama-cli" "/models/model.gguf" "0" [].

Definition slow_os : LlamaService.os :=
  fun _ => LlamaService.Process 120 ("  " +:+ mock_themis_report_json +:+ Text.nl)
                                EmptyString 0.

(** Collaborators that fail ([AsyncMock(side_effect=e)]), and the
    coordinator over one of them. *)
Definition failing_retriever (e : exn) : AnalysisDomain.retriever_object :=
  AnalysisDomain.Retriever (fun _ => true) (fun _ => Raise e).

Definition failing_generator (e : exn) : AnalysisDomain.generator_object :=
  AnalysisDomain.Generator (fun _ => true) (fun _ _ => Raise e).

Definition domain_without_retrieval (e : exn) : AnalysisDomain.t :=
  AnalysisDomain.Domain (failing_retriever e)
                        (AnalysisDomain.mock_generator mock_themis_report_json)
                        AnalysisDomain.TheCache.

Definition domain_without_generation (e : exn) : AnalysisDomain.t :=
  AnalysisDomain.Domain (AnalysisDomain.mock_retriever rag_context)
                        (failing_generator e)
                        AnalysisDomain.TheCache.

(** Two documents to index, and a batch one of whose documents has no
    text. *)
Definition techniques : list OpenSearchService.doc :=
  [ OpenSearchService.Doc (Some "T1417") (Some "Input Capture") None;
    OpenSearchService.Doc (Some "T1636") (Some "Protected User Data")
      (Some [("tactic", Json.Str "collection")]) ]%string.

Definition batch_without_text : list OpenSearchService.doc :=
  [ OpenSearchService.Doc (Some "T1417") (Some "Input Capture") None;
    OpenSearchService.Doc (Some "T1636") None None ]%string.

(** A hit as the engine returns it, with a score and the stored document;
    and an engine that answers every search with two of them, the second
    stored without an id of its own. *)
Definition scored_hit (id : string) (score : Q) (stored_id : option string)
  : OpenSearchService.hit Q :=
  OpenSearchService.Hit (Some id) (Some score)
    (Some (OpenSearchService.Source stored_id (Some ("text of " +:+ id)) None)).

Definition scoring_engine : OpenSearchService.backend Q :=
  OpenSearchService.Backend
    (fun _ => Ok true) (fun _ _ => Ok tt)
    (fun texts => Ok (map (fun _ => []) texts)) (fun _ => Ok [])
    (fun _ _ => Ok [scored_hit "T1417" (9 # 10) (Some "T1417"%string);
                    scored_hit "T1636" (7 # 10) None])
    (fun _ ids => Ok (map stored ids))
    (fun actions => Ok (Z.of_nat (length actions))).

(** A machine like the container image: the executables under the default
    directory, the model under [/models]; and two configurations for it, one
    that names the executable and one that names a path that is not there. *)
Definition among (paths : list string) (p : string) : bool :=
  existsb (String.eqb p) paths.

Definition image : LlamaService.machine :=
  LlamaService.Machine
    (among [ "/app/llama.cpp/build/bin/llama-cli";
             "/app/llama.cpp/build/bin/llama-server";
             "/models/model.gguf" ]%string)
    (among [ "/app"; "/app/llama.cpp/build/bin"; "/models"; "/usr/bin" ]%string)
    (among [ "/app/llama.cpp/build/bin/llama-cli";
             "/app/llama.cpp/build/bin/llama-server";
             "/app/llama.cpp/build/bin"; "/usr/bin" ]%string)
    (fun d =>
       if String.eqb d "/app/llama.cpp/build/bin"
       then Some ["llama-server"; "llama-cli"]%string
       else if String.eqb d "/usr/bin" then Some ["env"%string] else None)
    (Some "/usr/local/bin:/usr/bin"%string).

Definition image_settings : LlamaService.settings :=
  LlamaService.Settings "/app/llama.cpp/build/bin/llama-cli" "/models/model.gguf".

Definition stale_settings : LlamaService.settings :=
  LlamaService.Settings "/opt/llama.cpp/llama-cli" "/models/model.gguf".

(** The members of the report of the fixture, as a reader hands them over,
    and the member the fixture carries besides the six fields. *)
Definition report_members : list (string * Json.value) :=
  [ ("package_name", Json.Str "com.example.vulnerableapp");
    ("score", Json.Number "7.5");
    ("summary", Json.Str "O app apresenta risco médio devido a permissões excessivas.");
    ("vulnerability_name", Json.Str "Insegurança na Comunicação");
    ("severity_level", Json.Str "High");
    ("mitigation_actions",
     Json.Array [Json.Str "Implementar TLS/SSL em todas as comunicações."]) ]%string.

Definition findings : Json.value :=
  Json.Array
    [ Json.Object [ ("risk", Json.Str "HIGH");
                    ("description", Json.Str "Permissão INTERNET sem uso de TLS.") ] ]%string.

(** An operating system on which the model fails at once. *)
Definition failing_os : LlamaService.os :=
  fun _ => LlamaService.Process 1 "partial" "error: failed to load model" 1.

(** An engine whose index is there but whose searches time out. *)
Definition timing_out_engine : OpenSearchService.backend Q :=
  OpenSearchService.Backend
    (fun _ => Ok true) (fun _ _ => Ok tt)
    (fun texts => Ok (map (fun _ => []) texts)) (fun _ => Ok [])
    (fun _ _ => Raise (ServiceError "ConnectionTimeout"))
    (fun _ ids => Ok (map stored ids))
    (fun actions => Ok (Z.of_nat (length actions))).

(** The engine of the fusion example, in binary64. *)
Definition engine64 : OpenSearchService.backend float :=
  OpenSearchService.Backend
    (fun _ => Ok true) (fun _ _ => Ok tt)
    (fun texts => Ok (map (fun _ => []) texts)) (fun _ => Ok [])
    (fun _ body => match body with
                   | MatchText _ _ => Ok lexical_hits
                   | Knn _ _ => Ok vector_hits
                   end)
    (fun _ ids => Ok (map stored ids))
    (fun actions => Ok (Z.of_nat (length actions))).

(** A cache service that cannot be reached. *)
Definition unreachable_cache : AnalysisDomain.cache_service :=
  AnalysisDomain.CacheService
    (fun _ => raise (ServiceError "ConnectionError"))
    (fun _ _ _ => raise (ServiceError "ConnectionError")).

End Samples.

(* ===================================================================== *)
(** ** The words of the specification *)
(* ===================================================================== *)

Module Spec.

(** "A hash collision": two different texts with the same digest. *)
Definition sha256_collision (m1 m2 : string) : Prop :=
  m1 <> m2 /\ Sha256.hexdigest m1 = Sha256.hexdigest m2.

(** A miss with both collaborators answering: the cache returns absent
    (or an empty value, which [if cached_report:] treats alike), the
    retriever yields [chunks] for the context of the request, the generator
    yields [raw] for the prompt built from them. *)
Record answered_miss (rt : runtime) (self : AnalysisDomain.t) (req : AndroguardAnalysis)
    (w : world) (chunks : list string) (raw : string) : Prop := AnsweredMiss {
  cache_miss :
    AnalysisDomain.hit_value (fst <$> cache_store w !! AnalysisDomain.cache_key req)
    = None;
  retriever_ready :
    AnalysisDomain.retriever_has (AnalysisDomain.retriever self) "search_vector" = true;
  retrieved :
    AnalysisDomain.search_vector (AnalysisDomain.retriever self)
      (AnalysisDomain.specific_context req) = Ok chunks;
  generator_ready :
    AnalysisDomain.generator_has (AnalysisDomain.generator self)
      "generate_response_async" = true;
  generated :
    AnalysisDomain.generate_response_async (AnalysisDomain.generator self)
      (AnalysisDomain.final_prompt rt req chunks) 512 = Ok raw
}.

(** The calls of a miss, in order. *)
Definition miss_calls (rt : runtime) (req : AndroguardAnalysis)
    (chunks : list string) (raw : string) : list event :=
  [ CacheGet (AnalysisDomain.cache_key req);
    SearchVector (AnalysisDomain.specific_context req);
    GenerateAsync (AnalysisDomain.final_prompt rt req chunks) 512;
    CacheSet (AnalysisDomain.cache_key req) raw 3600 ].

(** The world once the output has been written to the cache. *)
Definition written (rt : runtime) (req : AndroguardAnalysis) (w : world)
    (chunks : list string) (raw : string) : world :=
  World (<[AnalysisDomain.cache_key req := (raw, 3600)]> (cache_store w))
        (history w ++ miss_calls rt req chunks raw).

(** "Fails with a descriptive error that includes a truncated prefix of the
    offending output": the call raises, and the text of what it raises
    contains the first 200 characters of the output. *)
Definition fails_with_excerpt (rt : runtime) (outcome : result ThemisAIReport)
    (output : string) : Prop :=
  exists e, outcome = Raise e
            /\ Text.contains (Text.take_chars 200 output) (exn_text rt e) = true.

(** *** Reciprocal rank fusion *)

(** The id under which a hit counts: one that is present and not empty. *)
Definition usable_id {num : Type} (h : OpenSearchService.hit num) : option string :=
  match OpenSearchService.hit_id h with
  | Some id => if Text.truthy id then Some id else None
  | None => None
  end.

Definition usable_ids {num : Type} (hits : list (OpenSearchService.hit num)) : list string :=
  omap usable_id hits.

(** A result list names no document twice. *)
Definition distinct_ids {num : Type} (hits : list (OpenSearchService.hit num)) : Prop :=
  List.NoDup (usable_ids hits).

(** The position of a document in a list whose first position is [rank]. *)
Fixpoint rank_from {num : Type} (id : string) (hits : list (OpenSearchService.hit num))
    (rank : Z) : option Z :=
  match hits with
  | [] => None
  | h :: rest =>
      match usable_id h with
      | Some id' => if String.eqb id' id then Some rank else rank_from id rest (rank + 1)
      | None => rank_from id rest (rank + 1)
      end
  end.

(** What a list adds to a running score, in the arithmetic of the code:
    [1.0 / (60 + rank)] when the document is in the list at position
    [rank], nothing otherwise. *)
Definition add_term {num : Type} {score_arith : Score num} (acc : num) (rank : option Z)
  : num :=
  match rank with
  | Some r => s_add acc (s_inv (60 + r))
  | None => acc
  end.

(** The score as the code accumulates it: from [0.0], the lexical list
    first, then the vector list. *)
Definition accumulated {num : Type} {score_arith : Score num} (id : string)
    (bm25 knn : list (OpenSearchService.hit num)) : num :=
  add_term (add_term s_zero (rank_from id bm25 1)) (rank_from id knn 1).

(** "1/(60+rank) where rank is its 1-based position in that list", and
    nothing for a list that does not contain it. *)
Definition contribution (id : string) (hits : list (OpenSearchService.hit Q)) : Q :=
  match rank_from id hits 1 with
  | Some rank => 1 / inject_Z (60 + rank)
  | None => 0
  end.

(** "The sum, over the lists containing it". *)
Definition fused_score (id : string) (bm25 knn : list (OpenSearchService.hit Q)) : Q :=
  contribution id bm25 + contribution id knn.

(** "By fused score descending". *)
Definition by_score_desc (a b : string * Q) : Prop := (snd b <= snd a)%Q.

(** The index exists, or is created on demand. *)
Definition index_ready {num : Type} (be : OpenSearchService.backend num)
    (self : OpenSearchService.t) : Prop :=
  OpenSearchService.indices_exists be (OpenSearchService.index self) = Ok true
  \/ (OpenSearchService.indices_exists be (OpenSearchService.index self) = Ok false
      /\ OpenSearchService.indices_create be (OpenSearchService.index self)
           (OpenSearchService.dim self) = Ok tt).

(** The engine answers the lexical search with [bm25] and the vector
    search with [knn]. *)
Record searches_answer {num : Type} (be : OpenSearchService.backend num)
    (self : OpenSearchService.t) (query : string) (top_k : nat)
    (bm25 knn : list (OpenSearchService.hit num)) : Prop := SearchesAnswer {
  ready : index_ready be self;
  lexical :
    OpenSearchService.search be (OpenSearchService.index self) (MatchText top_k query)
    = Ok bm25;
  nearest :
    exists vec,
      OpenSearchService.encode_query be query = Ok vec
      /\ OpenSearchService.search be (OpenSearchService.index self) (Knn top_k vec)
         = Ok knn
}.

(** "By fused score descending", in binary64. *)
Definition by_score_desc64 (a b : string * float) : Prop :=
  PrimFloat.leb (snd b) (snd a) = true.

(** "Full records ... annotated with the fused score": the record of a
    fetched document is its stored id (the engine's when none, or an empty
    one, is stored), its stored text (empty when none is stored) and its
    stored metadata (empty when none is stored), with [score]. *)
Definition annotated {num : Type} (score : num) (d : OpenSearchService.mget_doc)
  : OpenSearchService.slim_hit num :=
  OpenSearchService.Slim
    match OpenSearchService.mdoc_source d with
    | Some (OpenSearchService.Source (Some (String c r)) _ _) => Some (String c r)
    | _ => OpenSearchService.mdoc_id d
    end
    (Some score)
    match OpenSearchService.mdoc_source d with
    | Some (OpenSearchService.Source _ (Some t) _) => t
    | _ => EmptyString
    end
    match OpenSearchService.mdoc_source d with
    | Some (OpenSearchService.Source _ _ (Some m)) => m
    | _ => []
    end.

(** The fused score of a fetched document: that of its [_id]; zero for a
    document without one. *)
Definition score_of {num : Type} {score_arith : Score num}
    (bm25 knn : list (OpenSearchService.hit num)) (d : OpenSearchService.mget_doc) : num :=
  match OpenSearchService.mdoc_id d with
  | Some id => accumulated id bm25 knn
  | None => s_zero
  end.

(** The documents of a multi-get answer that were found. *)
Fixpoint found_docs (docs : list OpenSearchService.mget_doc)
  : list OpenSearchService.mget_doc :=
  match docs with
  | [] => []
  | d :: rest =>
      if OpenSearchService.mdoc_found d then d :: found_docs rest else found_docs rest
  end.

(** The term of a position, as the code computes it from [0.0]. *)
Definition term {num : Type} {score_arith : Score num} (rank : Z) : num :=
  s_add s_zero (s_inv (60 + rank)).

(** The positions [1 .. n]. *)
Definition positions (n : Z) : list Z := map Z.of_nat (seq 1 (Z.to_nat n)).


(** What one list of hits leaves in a dict that had none of its documents:
    every usable id, in the order of the list, with the term of its
    position added to [0.0]. *)
Fixpoint ranked {num : Type} {score_arith : Score num} (rank : Z)
    (hits : list (OpenSearchService.hit num)) : list (string * num) :=
  match hits with
  | [] => []
  | h :: rest =>
      match usable_id h with
      | Some id => (id, s_add s_zero (s_inv (60 + rank))) :: ranked (rank + 1) rest
      | None => ranked (rank + 1) rest
      end
  end.

End Spec.
(* ===================================================================== *)
(** * Properties *)
(* ===================================================================== *)

(** ** The hash, on the test vectors of FIPS 180-4 *)

Example sha256_abc :
  Sha256.hexdigest "abc"
  = "ba7816bf8f01cfea414140de5dae2223b00361a396177a9cb410ff61f20015ad"%string.
Proof. vm_compute. reflexivity. Qed.

Example sha256_empty :
  Sha256.hexdigest ""
  = "e3b0c44298fc1c149afbf4c8996fb92427ae41e4649b934ca495991b7852b855"%string.
Proof. vm_compute. reflexivity. Qed.

Example sha256_two_blocks :
  Sha256.hexdigest "abcdbcdecdefdefgefghfghighijhijkijkljklmklmnlmnomnopnopq"
  = "248d6a61d20638b8e5c026930c3e6039a33ce45964ff2167f6ecedd419db06c1"%string.
Proof. vm_compute. reflexivity. Qed.

(** ** Texts *)

Lemma append_empty (b : string) : EmptyString +:+ b = b.
Proof. reflexivity. Qed.

Lemma append_cons (x : ascii) (a b : string) : String x a +:+ b = String x (a +:+ b).
Proof. reflexivity. Qed.

Lemma append_assoc (a b c : string) : (a +:+ b) +:+ c = a +:+ (b +:+ c).
Proof.
  induction a as [|x a IH]; [reflexivity|].
  rewrite !append_cons, IH. reflexivity.
Qed.

Lemma length_append (a b : string) :
  String.length (a +:+ b) = (String.length a + String.length b)%nat.
Proof.
  induction a as [|x a IH]; [reflexivity|].
  rewrite append_cons. cbn [String.length]. rewrite IH. reflexivity.
Qed.

Lemma all_hex_append (a b : string) :
  Text.all_hex (a +:+ b) = Text.all_hex a && Text.all_hex b.
Proof.
  induction a as [|x a IH]; [reflexivity|].
  rewrite append_cons. cbn [Text.all_hex]. rewrite IH. apply andb_assoc.
Qed.

Lemma append_inv_head (a x y : string) : a +:+ x = a +:+ y -> x = y.
Proof.
  induction a as [|c a IH]; intros H; [exact H|].
  rewrite !append_cons in H. injection H as H. auto.
Qed.

(** Bringing the constructors of a text to the front. *)
Ltac expose := repeat (rewrite append_cons in * || rewrite append_empty in * ).

(** ** The serializer loses nothing *)

(** Every escaped byte can be read back, whatever follows it. *)
Lemma read_escaped_escape_char (c : ascii) (r : string) :
  Json.read_escaped (Json.escape_char c +:+ r) = Some (c, r).
Proof. destruct c as [[] [] [] [] [] [] [] []]; reflexivity. Qed.

(** An escaped byte never starts with a double quote. *)
Lemma escape_char_not_quote (c : ascii) (r r' : string) :
  Json.escape_char c +:+ r <> String Text.dquote r'.
Proof.
  intros H. pose proof (read_escaped_escape_char c r) as Hd.
  rewrite H in Hd. cbv in Hd. injection Hd as <- _. cbv in H. discriminate.
Qed.

(** The escaped text up to the closing quote determines the string. *)
Lemma escape_inj (s1 s2 r1 r2 : string) :
  Json.escape s1 +:+ String Text.dquote r1 = Json.escape s2 +:+ String Text.dquote r2 ->
  s1 = s2 /\ r1 = r2.
Proof.
  revert s2. induction s1 as [|c1 s1 IH]; intros [|c2 s2]; cbn [Json.escape]; intros H.
  - rewrite !append_empty in H. injection H as H. auto.
  - rewrite append_assoc, append_empty in H. symmetry in H.
    exfalso. eapply escape_char_not_quote. exact H.
  - rewrite append_assoc, append_empty in H.
    exfalso. eapply escape_char_not_quote. exact H.
  - rewrite !append_assoc in H.
    assert (Hd : Some (c1, Json.escape s1 +:+ String Text.dquote r1)
                 = Some (c2, Json.escape s2 +:+ String Text.dquote r2)).
    { rewrite <- !read_escaped_escape_char. rewrite H. reflexivity. }
    injection Hd as -> Hrest. destruct (IH _ Hrest) as [-> ->]. auto.
Qed.

Lemma quote_inj (s1 s2 r1 r2 : string) :
  Json.quote s1 +:+ r1 = Json.quote s2 +:+ r2 -> s1 = s2 /\ r1 = r2.
Proof.
  unfold Json.quote, Text.str1. intros H. rewrite !append_cons in H.
  injection H as H. rewrite !append_assoc in H. expose.
  apply escape_inj in H. exact H.
Qed.

(** A quoted string starts with a double quote. *)
Lemma quote_head (s r : string) :
  Json.quote s +:+ r = String Text.dquote (Json.escape s +:+ String Text.dquote r).
Proof.
  unfold Json.quote, Text.str1. rewrite append_cons, append_assoc. expose. reflexivity.
Qed.

(** The elements of an array up to the closing bracket determine the list. *)
Lemma items_inj (l1 l2 : list string) (r1 r2 : string) :
  Json.items l1 +:+ String "]" r1 = Json.items l2 +:+ String "]" r2 ->
  l1 = l2 /\ r1 = r2.
Proof.
  revert l2 r1 r2.
  induction l1 as [|x1 l1 IH]; intros [|x2 l2] r1 r2 H.
  - cbn [Json.items] in H. expose. injection H as H. auto.
  - exfalso. destruct l2; cbn [Json.items] in H; rewrite ?append_assoc, quote_head in H;
      expose; discriminate.
  - exfalso. destruct l1; cbn [Json.items] in H; rewrite ?append_assoc, quote_head in H;
      expose; discriminate.
  - destruct l1 as [|y1 l1], l2 as [|y2 l2]; cbn [Json.items] in H.
    + apply quote_inj in H as [-> H]. injection H as H. auto.
    + rewrite !append_assoc in H. apply quote_inj in H as [_ H]. expose. discriminate.
    + rewrite !append_assoc in H. apply quote_inj in H as [_ H]. expose. discriminate.
    + rewrite !append_assoc in H. apply quote_inj in H as [-> H].
      expose. injection H as H.
      destruct (IH (y2 :: l2) r1 r2 H) as [-> ->]. auto.
Qed.

(** Two requests with the same compact JSON are the same request. *)
Lemma model_dump_json_inj (r1 r2 : AndroguardAnalysis) :
  model_dump_json r1 = model_dump_json r2 -> r1 = r2.
Proof.
  destruct r1 as [p1 l1 d1], r2 as [p2 l2 d2]. unfold model_dump_json.
  cbn [package_name permissions_list dalvik_analysis_log]. intros H.
  do 3 apply append_inv_head in H.
  apply quote_inj in H as [-> H].
  do 3 apply append_inv_head in H.
  rewrite !(append_cons "]") in H. rewrite !append_empty in H.
  apply items_inj in H as [-> H].
  do 3 apply append_inv_head in H.
  apply quote_inj in H as [-> _]. reflexivity.
Qed.

(** ** The digest is 64 hexadecimal digits *)

Lemma length_hex_nibbles (n : nat) (x : Z) :
  String.length (Sha256.hex_nibbles n x) = n.
Proof.
  induction n as [|n IH]; [reflexivity|].
  cbn [Sha256.hex_nibbles String.length]. rewrite IH. reflexivity.
Qed.

Lemma is_hex_hexdigit (z : Z) : Text.is_hex (Text.hexdigit z) = true.
Proof.
  unfold Text.hexdigit. generalize (Z.to_nat z). intros k.
  do 17 (destruct k as [|k]; [reflexivity|]). reflexivity.
Qed.

Lemma all_hex_hex_nibbles (n : nat) (x : Z) :
  Text.all_hex (Sha256.hex_nibbles n x) = true.
Proof.
  induction n as [|n IH]; [reflexivity|].
  cbn [Sha256.hex_nibbles Text.all_hex]. rewrite is_hex_hexdigit, IH. reflexivity.
Qed.

Lemma hexdigest_format (data : string) :
  String.length (Sha256.hexdigest data) = 64%nat
  /\ Text.all_hex (Sha256.hexdigest data) = true.
Proof.
  unfold Sha256.hexdigest, Sha256.hex_of_state, Sha256.hex32. split.
  - rewrite !length_append, !length_hex_nibbles. reflexivity.
  - rewrite !all_hex_append, !all_hex_hex_nibbles. reflexivity.
Qed.

(** ** Deserialization *)

(** Whatever the text, deserialization fails with a [ValidationError] and
    with nothing else; in particular never with a [json.JSONDecodeError]. *)
Lemma model_validate_raises_validation (rt : runtime) (v : Json.value) (e : exn) :
  model_validate rt v = Raise e -> exists es, e = ValidationError es.
Proof.
  unfold model_validate. intros H.
  destruct v; try (inversion H; eauto; fail).
  destruct (str_field "package_name" members), (float_field rt "score" members),
    (str_field "summary" members), (str_field "vulnerability_name" members),
    (str_field "severity_level" members), (str_list_field "mitigation_actions" members);
    inversion H; eauto.
Qed.

Lemma model_validate_json_raises_validation (rt : runtime) (text : string) (e : exn) :
  model_validate_json rt text = Raise e -> exists es, e = ValidationError es.
Proof.
  unfold model_validate_json. destruct (json_loads rt text) as [v|].
  - apply model_validate_raises_validation.
  - intros H. inversion H. eauto.
Qed.

Lemma model_validate_json_not_decode_error (rt : runtime) (text : string) (e : exn) :
  model_validate_json rt text = Raise e -> is_JSONDecodeError e = false.
Proof.
  intros H. apply model_validate_json_raises_validation in H as [es ->]. reflexivity.
Qed.

(** As soon as one field contributes an entry, validation raises them all. *)
Lemma model_validate_collects (rt : runtime) (ms : list (string * Json.value)) :
  field_errors rt ms <> [] ->
  model_validate rt (Json.Object ms) = Raise (ValidationError (field_errors rt ms)).
Proof.
  unfold model_validate, field_errors.
  destruct (str_field "package_name" ms), (float_field rt "score" ms),
    (str_field "summary" ms), (str_field "vulnerability_name" ms),
    (str_field "severity_level" ms), (str_list_field "mitigation_actions" ms);
    intros Hne; try reflexivity.
  exfalso. apply Hne. reflexivity.
Qed.

(** A document that lacks one of the six fields is refused, and the error
    names the field. *)
Lemma missing_field_is_refused (rt : runtime) (ms : list (string * Json.value))
    (name : string) :
  In name required_fields ->
  Json.member name ms = None ->
  exists es, model_validate rt (Json.Object ms) = Raise (ValidationError es)
             /\ In (missing name ms) es.
Proof.
  intros Hin Hm.
  assert (Hs : str_field name ms = inl [missing name ms])
    by (unfold str_field; rewrite Hm; reflexivity).
  assert (Hf : float_field rt name ms = inl [missing name ms])
    by (unfold float_field; rewrite Hm; reflexivity).
  assert (Hl : str_list_field name ms = inl [missing name ms])
    by (unfold str_list_field; rewrite Hm; reflexivity).
  assert (Hmem : In (missing name ms) (field_errors rt ms)).
  { unfold field_errors. cbn in Hin.
    destruct Hin as [<-|[<-|[<-|[<-|[<-|[<-|[]]]]]]];
      rewrite ?Hs, ?Hf, ?Hl; cbn [errors_of]; rewrite ?in_app_iff; cbn [In]; auto 12. }
  exists (field_errors rt ms). split; [|exact Hmem].
  apply model_validate_collects. intros Hnil. rewrite Hnil in Hmem. destruct Hmem.
Qed.

(** Conversely a report comes only from a document with all six. *)
Lemma report_has_every_field (rt : runtime) (ms : list (string * Json.value))
    (report : ThemisAIReport) (name : string) :
  model_validate rt (Json.Object ms) = Ok report ->
  In name required_fields ->
  Json.member name ms <> None.
Proof.
  intros Hok Hin Hm.
  destruct (missing_field_is_refused rt ms name Hin Hm) as [es [He _]].
  rewrite He in Hok. discriminate.
Qed.

(** A text that deserializes is not empty, so it is a hit. *)
Lemma valid_report_is_truthy (rt : runtime) (text : string) (report : ThemisAIReport) :
  reads_no_empty_text rt ->
  model_validate_json rt text = Ok report ->
  AnalysisDomain.hit_value (Some text) = Some text.
Proof.
  intros Hrt Hv. destruct text as [|c text']; [|reflexivity].
  unfold model_validate_json in Hv. rewrite Hrt in Hv. discriminate.
Qed.

(** ** The coordinator, step by step *)

#[local] Arguments AnalysisDomain.cache_key : simpl never.
#[local] Arguments AnalysisDomain.specific_context : simpl never.
#[local] Arguments AnalysisDomain.final_prompt : simpl never.
#[local] Arguments model_validate_json : simpl never.
#[local] Arguments AnalysisDomain.validated : simpl never.
#[local] Arguments String.append : simpl never.

Section Coordinator.
Import AnalysisDomain.
Variable rt : runtime.
Variable self : AnalysisDomain.t.
Variable req : AndroguardAnalysis.

(** The hit path, whatever the cached text is worth. *)
Lemma perform_analysis_on_hit (w : world) (cached : string) :
  hit_value (fst <$> cache_store w !! cache_key req) = Some cached ->
  perform_analysis rt self req w
  = (model_validate_json rt cached,
     World (cache_store w)
           (history w ++ [CacheGet (cache_key req);
                          Printed ("CACHE HIT: Retornando relatório para chave "
                                   +:+ cache_key req)])).
Proof.
  intros Hhit. unfold perform_analysis, bind, cache_get. cbn.
  rewrite Hhit. unfold print, call, lift, log. cbn.
  rewrite <- app_assoc. reflexivity.
Qed.

(** The closing [try] statement makes no call and leaves the cache alone;
    its handler never runs. *)
Lemma validated_eq (w : world) (text : string) :
  validated rt text w = (model_validate_json rt text, w).
Proof.
  unfold validated, try_except, lift.
  destruct (model_validate_json rt text) as [r|e] eqn:Hv; [reflexivity|].
  rewrite (model_validate_json_not_decode_error _ _ _ Hv). reflexivity.
Qed.

(** The miss path when both collaborators answer: all four calls are made,
    and then the closing [try] statement runs. *)
Lemma perform_analysis_on_miss (w : world) (chunks : list string) (raw : string) :
  Spec.answered_miss rt self req w chunks raw ->
  perform_analysis rt self req w = validated rt raw (Spec.written rt req w chunks raw).
Proof.
  intros [Hc Hr Hs Hg Hgen].
  unfold perform_analysis, bind, cache_get. cbn.
  rewrite Hc. unfold await_search_vector. rewrite Hr. unfold call at 1. cbn.
  rewrite Hs. unfold await_generate. rewrite Hg. unfold call. cbn.
  rewrite Hgen. unfold cache_set, Spec.written, Spec.miss_calls. cbn.
  repeat rewrite <- app_assoc. reflexivity.
Qed.

(** Whatever the state of the cache and of the process, and whatever the
    collaborators do, the first call is the cache read under the derived
    key. *)
Lemma perform_analysis_reads_derived_key (w : world) :
  exists rest : list event,
    history (snd (perform_analysis rt self req w))
    = history w ++ CacheGet (cache_key req) :: rest.
Proof.
  unfold perform_analysis, bind, cache_get. cbn.
  destruct (hit_value (fst <$> cache_store w !! cache_key req)) as [cached|].
  - unfold print, call, lift, log. cbn. rewrite <- app_assoc. eauto.
  - unfold await_search_vector.
    destruct (retriever_has (retriever self) "search_vector");
      [|exists []; reflexivity].
    unfold call at 1. cbn.
    destruct (search_vector (retriever self) (specific_context req)) as [chunks|e];
      [|cbn; rewrite <- app_assoc; eauto].
    unfold await_generate.
    destruct (generator_has (generator self) "generate_response_async");
      [|cbn; rewrite <- app_assoc; eauto].
    unfold call. cbn.
    destruct (generate_response_async (generator self) (final_prompt rt req chunks) 512)
      as [raw|e]; [|cbn; repeat rewrite <- app_assoc; eauto].
    unfold cache_set. cbn. rewrite validated_eq. cbn.
    repeat rewrite <- app_assoc. eauto.
Qed.

End Coordinator.

(** ** The cache key (C2) *)

(** C2. The cache key is the namespace prefix followed by the SHA-256
    digest, 64 hexadecimal digits, of the compact JSON of the request; it
    is a function of the three fields alone, and it is the key read
    whatever the state of the cache and of the process; and two different
    requests have the same key only when their JSON texts collide under
    SHA-256. *)
Theorem cache_key_is_deterministic (r1 r2 : AndroguardAnalysis) :
  (exists digest : string,
     AnalysisDomain.cache_key r1 = "themisai:analysis:" +:+ digest
     /\ digest = Sha256.hexdigest (model_dump_json r1)
     /\ String.length digest = 64%nat
     /\ Text.all_hex digest = true)
  /\ (package_name r1 = package_name r2 ->
      permissions_list r1 = permissions_list r2 ->
      dalvik_analysis_log r1 = dalvik_analysis_log r2 ->
      AnalysisDomain.cache_key r1 = AnalysisDomain.cache_key r2)
  /\ (forall (rt : runtime) (self : AnalysisDomain.t) (w : world),
        exists rest : list event,
          history (snd (AnalysisDomain.perform_analysis rt self r1 w))
          = history w ++ CacheGet (AnalysisDomain.cache_key r1) :: rest)
  /\ (r1 <> r2 ->
      AnalysisDomain.cache_key r1 = AnalysisDomain.cache_key r2 ->
      Spec.sha256_collision (model_dump_json r1) (model_dump_json r2)).
Proof.
  split; [|split; [|split]].
  - exists (Sha256.hexdigest (model_dump_json r1)).
    destruct (hexdigest_format (model_dump_json r1)) as [Hlen Hhex]. auto.
  - destruct r1, r2. cbn. intros -> -> ->. reflexivity.
  - intros rt self w. apply perform_analysis_reads_derived_key.
  - intros Hne Hkey. unfold AnalysisDomain.cache_key in Hkey.
    apply append_inv_head in Hkey. split; [|exact Hkey].
    intros Hdump. apply Hne. apply model_dump_json_inj. exact Hdump.
Qed.

(** The key of the request of the unit tests. *)
Example cache_key_of_the_test_request :
  AnalysisDomain.cache_key Samples.mock_androguard_input
  = "themisai:analysis:4ca27cb798e8a686b5fe053bc5ed74260c4f12a16b55ec82aaa3a85d71a08a1a"%string.
Proof. vm_compute. reflexivity. Qed.

(** ** The cache-hit path (C1) *)

(** C1. When the cache holds, under the derived key, a text that
    deserializes into a report, [perform_analysis] returns that very report;
    the cache is left as it was, and the only calls made are the cache read
    and the line printed: no retrieval, no generation, no cache write. *)
Theorem cache_hit_returns_cached_report
    (rt : runtime) (self : AnalysisDomain.t) (req : AndroguardAnalysis)
    (w : world) (cached : string) (ex : Z) (report : ThemisAIReport) :
  reads_no_empty_text rt ->
  cache_store w !! AnalysisDomain.cache_key req = Some (cached, ex) ->
  model_validate_json rt cached = Ok report ->
  exists new : list event,
    AnalysisDomain.perform_analysis rt self req w
    = (Ok report, World (cache_store w) (history w ++ new))
    /\ new = [CacheGet (AnalysisDomain.cache_key req);
              Printed ("CACHE HIT: Retornando relatório para chave "
                       +:+ AnalysisDomain.cache_key req)]
    /\ count is_search_vector new = 0%nat
    /\ count is_generate new = 0%nat
    /\ count is_cache_set new = 0%nat.
Proof.
  intros Hrt Hc Hv. eexists. split; [|split; [reflexivity|]].
  - rewrite (perform_analysis_on_hit rt self req w cached).
    + rewrite Hv. reflexivity.
    + rewrite Hc. cbn. eapply valid_report_is_truthy; eassumption.
  - repeat split.
Qed.

Lemma cache_hit_returns_cached_report_witness :
  exists new : list event,
    AnalysisDomain.perform_analysis Reference.rt Samples.domain
      Samples.mock_androguard_input Samples.warm
    = (Ok Samples.mock_themis_report,
       World (cache_store Samples.warm) (history Samples.warm ++ new))
    /\ new = [CacheGet (AnalysisDomain.cache_key Samples.mock_androguard_input);
              Printed ("CACHE HIT: Retornando relatório para chave "
                       +:+ AnalysisDomain.cache_key Samples.mock_androguard_input)]
    /\ count is_search_vector new = 0%nat
    /\ count is_generate new = 0%nat
    /\ count is_cache_set new = 0%nat.
Proof.
  apply (cache_hit_returns_cached_report Reference.rt Samples.domain
           Samples.mock_androguard_input Samples.warm
           Samples.mock_themis_report_json 3600 Samples.mock_themis_report).
  - reflexivity.
  - apply lookup_singleton_eq.
  - vm_compute. reflexivity.
Defined.

(** ** The cache-miss path (C3, C4, C5) *)

(** C3. When the cache returns absent for the derived key and the two
    collaborators answer, [perform_analysis] makes, after the cache read,
    exactly one retrieval call, one generation call and one cache write, in
    that order; the write stores the generation output as it came, under
    the derived key, with an expiration of 3600 seconds. *)
Theorem cache_miss_calls_each_collaborator_once
    (rt : runtime) (self : AnalysisDomain.t) (req : AndroguardAnalysis)
    (w : world) (chunks : list string) (raw : string) :
  Spec.answered_miss rt self req w chunks raw ->
  exists new : list event,
    AnalysisDomain.perform_analysis rt self req w
    = (model_validate_json rt raw,
       World (<[AnalysisDomain.cache_key req := (raw, 3600)]> (cache_store w))
             (history w ++ new))
    /\ new = [CacheGet (AnalysisDomain.cache_key req);
              SearchVector (AnalysisDomain.specific_context req);
              GenerateAsync (AnalysisDomain.final_prompt rt req chunks) 512;
              CacheSet (AnalysisDomain.cache_key req) raw 3600]
    /\ count is_search_vector new = 1%nat
    /\ count is_generate new = 1%nat
    /\ count is_cache_set new = 1%nat.
Proof.
  intros Hmiss. eexists. split; [|split; [reflexivity|]].
  - rewrite (perform_analysis_on_miss rt self req w chunks raw Hmiss).
    apply validated_eq.
  - repeat split.
Qed.

Lemma sample_miss (output : string) :
  Spec.answered_miss Reference.rt (Samples.domain_returning output)
    Samples.mock_androguard_input Samples.cold Samples.rag_context output.
Proof. split; reflexivity. Defined.

Lemma cache_miss_calls_each_collaborator_once_witness :
  exists new : list event,
    AnalysisDomain.perform_analysis Reference.rt Samples.domain
      Samples.mock_androguard_input Samples.cold
    = (model_validate_json Reference.rt Samples.mock_themis_report_json,
       World (<[AnalysisDomain.cache_key Samples.mock_androguard_input
                := (Samples.mock_themis_report_json, 3600)]> (cache_store Samples.cold))
             (history Samples.cold ++ new))
    /\ new = [CacheGet (AnalysisDomain.cache_key Samples.mock_androguard_input);
              SearchVector (AnalysisDomain.specific_context Samples.mock_androguard_input);
              GenerateAsync (AnalysisDomain.final_prompt Reference.rt
                               Samples.mock_androguard_input Samples.rag_context) 512;
              CacheSet (AnalysisDomain.cache_key Samples.mock_androguard_input)
                       Samples.mock_themis_report_json 3600]
    /\ count is_search_vector new = 1%nat
    /\ count is_generate new = 1%nat
    /\ count is_cache_set new = 1%nat.
Proof.
  exact (cache_miss_calls_each_collaborator_once Reference.rt Samples.domain
           Samples.mock_androguard_input Samples.cold Samples.rag_context
           Samples.mock_themis_report_json
           (sample_miss Samples.mock_themis_report_json)).
Defined.

(** C4. On a miss the output is written to the cache before it is parsed:
    the closing [try] statement runs in a world that already holds the
    write, and changes nothing in it.  So when the output does not
    deserialize, the call fails and the cache keeps the output all the
    same. *)
Theorem cache_write_precedes_parsing
    (rt : runtime) (self : AnalysisDomain.t) (req : AndroguardAnalysis)
    (w : world) (chunks : list string) (raw : string) :
  Spec.answered_miss rt self req w chunks raw ->
  AnalysisDomain.perform_analysis rt self req w
  = AnalysisDomain.validated rt raw (Spec.written rt req w chunks raw)
  /\ snd (AnalysisDomain.validated rt raw (Spec.written rt req w chunks raw))
     = Spec.written rt req w chunks raw
  /\ cache_store (Spec.written rt req w chunks raw) !! AnalysisDomain.cache_key req
     = Some (raw, 3600)
  /\ (forall e, model_validate_json rt raw = Raise e ->
        AnalysisDomain.perform_analysis rt self req w
        = (Raise e, Spec.written rt req w chunks raw)).
Proof.
  intros Hmiss.
  pose proof (perform_analysis_on_miss rt self req w chunks raw Hmiss) as Hrun.
  repeat split.
  - exact Hrun.
  - rewrite validated_eq. reflexivity.
  - unfold Spec.written. cbn. apply lookup_insert_eq.
  - intros e He. rewrite Hrun, validated_eq, He. reflexivity.
Qed.

Lemma cache_write_precedes_parsing_witness :
  AnalysisDomain.perform_analysis Reference.rt
    (Samples.domain_returning Samples.not_json) Samples.mock_androguard_input Samples.cold
  = AnalysisDomain.validated Reference.rt Samples.not_json
      (Spec.written Reference.rt Samples.mock_androguard_input Samples.cold
         Samples.rag_context Samples.not_json)
  /\ snd (AnalysisDomain.validated Reference.rt Samples.not_json
            (Spec.written Reference.rt Samples.mock_androguard_input Samples.cold
               Samples.rag_context Samples.not_json))
     = Spec.written Reference.rt Samples.mock_androguard_input Samples.cold
         Samples.rag_context Samples.not_json
  /\ cache_store (Spec.written Reference.rt Samples.mock_androguard_input Samples.cold
                    Samples.rag_context Samples.not_json)
       !! AnalysisDomain.cache_key Samples.mock_androguard_input
     = Some (Samples.not_json, 3600)
  /\ (forall e, model_validate_json Reference.rt Samples.not_json = Raise e ->
        AnalysisDomain.perform_analysis Reference.rt
          (Samples.domain_returning Samples.not_json)
          Samples.mock_androguard_input Samples.cold
        = (Raise e, Spec.written Reference.rt Samples.mock_androguard_input Samples.cold
                      Samples.rag_context Samples.not_json)).
Proof.
  exact (cache_write_precedes_parsing Reference.rt
           (Samples.domain_returning Samples.not_json)
           Samples.mock_androguard_input Samples.cold Samples.rag_context
           Samples.not_json (sample_miss Samples.not_json)).
Defined.

(** C5, as the code has it. When the generation output does not deserialize
    (text that is not JSON, or a document that lacks a required field),
    [perform_analysis] fails, after one generation call and no second one,
    and returns no report; for a document that lacks a field the error is
    the deserializer's [ValidationError] naming the field, as raised; and a
    report that is returned is the deserialization of the whole output,
    every field present. *)
Theorem failed_deserialization_fails_without_retry
    (rt : runtime) (self : AnalysisDomain.t) (req : AndroguardAnalysis)
    (w : world) (chunks : list string) (raw : string) :
  Spec.answered_miss rt self req w chunks raw ->
  (json_loads rt raw = None -> is_Ok (model_validate_json rt raw) = false)
  /\ (forall ms name,
        json_loads rt raw = Some (Json.Object ms) ->
        In name required_fields ->
        Json.member name ms = None ->
        is_Ok (model_validate_json rt raw) = false
        /\ exists es,
             fst (AnalysisDomain.perform_analysis rt self req w)
             = Raise (ValidationError es)
             /\ In (missing name ms) es)
  /\ (is_Ok (model_validate_json rt raw) = false ->
      exists e,
        AnalysisDomain.perform_analysis rt self req w
        = (Raise e, World (<[AnalysisDomain.cache_key req := (raw, 3600)]> (cache_store w))
                          (history w ++ Spec.miss_calls rt req chunks raw))
        /\ count is_generate (Spec.miss_calls rt req chunks raw) = 1%nat)
  /\ (forall report,
        fst (AnalysisDomain.perform_analysis rt self req w) = Ok report ->
        model_validate_json rt raw = Ok report
        /\ forall ms name,
             json_loads rt raw = Some (Json.Object ms) ->
             In name required_fields -> Json.member name ms <> None).
Proof.
  intros Hmiss.
  pose proof (perform_analysis_on_miss rt self req w chunks raw Hmiss) as Hrun.
  rewrite validated_eq in Hrun.
  split; [|split; [|split]].
  - intros Hnone. unfold model_validate_json. rewrite Hnone. reflexivity.
  - intros ms name Hl Hin Hm.
    destruct (missing_field_is_refused rt ms name Hin Hm) as [es [He Hes]].
    assert (Hv : model_validate_json rt raw = Raise (ValidationError es))
      by (unfold model_validate_json; rewrite Hl; exact He).
    split; [rewrite Hv; reflexivity|].
    exists es. rewrite Hrun, Hv. auto.
  - intros Hfail. destruct (model_validate_json rt raw) as [r|e] eqn:Hv; [discriminate|].
    exists e. rewrite Hrun. auto.
  - intros report Hok. rewrite Hrun in Hok. cbn in Hok. split; [exact Hok|].
    intros ms name Hl Hin. unfold model_validate_json in Hok. rewrite Hl in Hok.
    eapply report_has_every_field; eassumption.
Qed.

(** The theorem at the output that has a score only: the call raises a
    [ValidationError] that lists [summary] as missing. *)
Lemma failed_deserialization_fails_without_retry_witness :
  exists es,
    fst (AnalysisDomain.perform_analysis Reference.rt
           (Samples.domain_returning Samples.only_score)
           Samples.mock_androguard_input Samples.cold)
    = Raise (ValidationError es)
    /\ In (missing "summary" [("score"%string, Json.Number "1")]) es.
Proof.
  destruct (failed_deserialization_fails_without_retry Reference.rt
              (Samples.domain_returning Samples.only_score)
              Samples.mock_androguard_input Samples.cold Samples.rag_context
              Samples.only_score (sample_miss Samples.only_score))
    as (_ & Hmissing & _).
  apply (Hmissing [("score"%string, Json.Number "1")] "summary"%string).
  - vm_compute. reflexivity.
  - cbn. auto.
  - reflexivity.
Defined.

(** What the deserializer raises for the document that has a score only:
    five entries, each carrying the parsed document. *)
Example only_score_errors :
  model_validate_json Reference.rt Samples.only_score
  = Raise (ValidationError
             (map (fun name => missing name [("score"%string, Json.Number "1")])
                  [ "package_name"; "summary"; "vulnerability_name";
                    "severity_level"; "mitigation_actions" ]%string)).
Proof. vm_compute. reflexivity. Qed.

(** C5 as stated fails. For the output that has a score only, the call
    raises the deserializer's [ValidationError]; the [ValueError] that
    quotes the output is not built, and the text of the error does not
    contain the first 200 characters of the output. *)
Lemma missing_field_error_has_no_excerpt :
  fst (AnalysisDomain.perform_analysis Reference.rt
         (Samples.domain_returning Samples.only_score)
         Samples.mock_androguard_input Samples.cold)
  = model_validate_json Reference.rt Samples.only_score
  /\ ~ Spec.fails_with_excerpt Reference.rt
        (fst (AnalysisDomain.perform_analysis Reference.rt
                (Samples.domain_returning Samples.only_score)
                Samples.mock_androguard_input Samples.cold))
        Samples.only_score.
Proof.
  assert (Hrun : fst (AnalysisDomain.perform_analysis Reference.rt
                        (Samples.domain_returning Samples.only_score)
                        Samples.mock_androguard_input Samples.cold)
                 = model_validate_json Reference.rt Samples.only_score).
  { rewrite (perform_analysis_on_miss _ _ _ _ _ _ (sample_miss Samples.only_score)).
    rewrite validated_eq. reflexivity. }
  split; [exact Hrun|].
  rewrite Hrun, only_score_errors. intros [e [He Hc]].
  injection He as <-. vm_compute in Hc. discriminate.
Qed.

(** ** Reciprocal rank fusion (C6) *)

Section AnyArithmetic.
Import OpenSearchService.
Context {num : Type} {score_arith : Score num}.

Implicit Types (s : list (string * num)) (hits : list (hit num)) (id : string).

(** *** The running scores, in any arithmetic *)

Lemma scores_get_bump_same id (x : num) s :
  scores_get (Some id) (bump id x s) = s_add (scores_get (Some id) s) x.
Proof.
  induction s as [|[k v] s IH]; cbn.
  - rewrite String.eqb_refl. reflexivity.
  - destruct (String.eqb k id) eqn:E; cbn; rewrite E; [reflexivity|exact IH].
Qed.

Lemma scores_get_bump_other id id' (x : num) s :
  id' <> id -> scores_get (Some id') (bump id x s) = scores_get (Some id') s.
Proof.
  intros Hne. induction s as [|[k v] s IH]; cbn.
  - destruct (String.eqb id id') eqn:E; [|reflexivity].
    apply String.eqb_eq in E. congruence.
  - destruct (String.eqb k id) eqn:E1; cbn; destruct (String.eqb k id') eqn:E2;
      try reflexivity; try exact IH.
    apply String.eqb_eq in E1, E2. congruence.
Qed.

Lemma keys_bump id id' (x : num) s :
  In id' (map fst (bump id x s)) <-> id' = id \/ In id' (map fst s).
Proof.
  induction s as [|[k v] s IH]; cbn.
  - intuition.
  - destruct (String.eqb k id) eqn:E; cbn.
    + apply String.eqb_eq in E. subst. intuition.
    + rewrite IH. intuition.
Qed.

(** One step of [add_rrf]: a hit counts under its usable id. *)
Lemma add_rrf_from_step (rank : Z) (h : hit num) hits s :
  add_rrf_from rank (h :: hits) s
  = add_rrf_from (rank + 1) hits
      match Spec.usable_id h with
      | Some id => bump id (s_inv (60 + rank)) s
      | None => s
      end.
Proof.
  cbn [add_rrf_from]. unfold Spec.usable_id.
  destruct (hit_id h) as [id|]; [|reflexivity].
  destruct (Text.truthy id); reflexivity.
Qed.

Lemma usable_ids_cons (h : hit num) hits :
  Spec.usable_ids (h :: hits)
  = match Spec.usable_id h with
    | Some id => id :: Spec.usable_ids hits
    | None => Spec.usable_ids hits
    end.
Proof. reflexivity. Qed.

Lemma add_rrf_from_absent id (rank : Z) hits s :
  ~ In id (Spec.usable_ids hits) ->
  scores_get (Some id) (add_rrf_from rank hits s) = scores_get (Some id) s.
Proof.
  revert rank s. induction hits as [|h hits IH]; intros rank s Hno; [reflexivity|].
  rewrite add_rrf_from_step. rewrite usable_ids_cons in Hno.
  destruct (Spec.usable_id h) as [id0|].
  - rewrite IH by (intros Hin; apply Hno; right; exact Hin).
    apply scores_get_bump_other. intros ->. apply Hno. left. reflexivity.
  - apply IH. exact Hno.
Qed.

(** A list that names no document twice adds one term to the score of a
    document it contains, and nothing to the score of any other. *)
Lemma add_rrf_from_score id (rank : Z) hits s :
  Spec.distinct_ids hits ->
  scores_get (Some id) (add_rrf_from rank hits s)
  = Spec.add_term (scores_get (Some id) s) (Spec.rank_from id hits rank).
Proof.
  unfold Spec.distinct_ids. revert rank s.
  induction hits as [|h hits IH]; intros rank s Hnd; [reflexivity|].
  rewrite add_rrf_from_step. rewrite usable_ids_cons in Hnd. cbn [Spec.rank_from].
  destruct (Spec.usable_id h) as [id0|].
  - apply NoDup_cons_iff in Hnd as [Hfresh Hnd].
    destruct (String.eqb id0 id) eqn:E.
    + apply String.eqb_eq in E. subst id0.
      rewrite add_rrf_from_absent by exact Hfresh.
      rewrite scores_get_bump_same. reflexivity.
    + rewrite IH by exact Hnd. rewrite scores_get_bump_other; [reflexivity|].
      intros ->. rewrite String.eqb_refl in E. discriminate.
  - apply IH. exact Hnd.
Qed.

Lemma keys_add_rrf_from id (rank : Z) hits s :
  In id (map fst (add_rrf_from rank hits s))
  <-> In id (map fst s) \/ In id (Spec.usable_ids hits).
Proof.
  revert rank s. induction hits as [|h hits IH]; intros rank s.
  - cbn. intuition.
  - rewrite add_rrf_from_step, IH, usable_ids_cons.
    destruct (Spec.usable_id h) as [id0|]; [|reflexivity].
    rewrite keys_bump. cbn [In]. intuition.
Qed.

(** The score of a document is what the two lists add, in this order, to
    zero: so it is in binary64 as well as in exact arithmetic. *)
Lemma rrf_scores_accumulated id (bm25 knn : list (hit num)) :
  Spec.distinct_ids bm25 -> Spec.distinct_ids knn ->
  scores_get (Some id) (rrf_scores bm25 knn) = Spec.accumulated id bm25 knn.
Proof.
  intros H1 H2. unfold rrf_scores, add_rrf, Spec.accumulated.
  rewrite (add_rrf_from_score id 1 knn _ H2), (add_rrf_from_score id 1 bm25 [] H1).
  reflexivity.
Qed.

(** The documents that have a score are those of the two lists. *)
Lemma rrf_scores_keys id (bm25 knn : list (hit num)) :
  In id (map fst (rrf_scores bm25 knn))
  <-> In id (Spec.usable_ids bm25) \/ In id (Spec.usable_ids knn).
Proof.
  unfold rrf_scores, add_rrf. rewrite !keys_add_rrf_from. cbn. intuition.
Qed.

(** *** The sort rearranges *)

Lemma insert_desc_perm (x : string * num) s : Permutation (insert_desc x s) (x :: s).
Proof.
  induction s as [|y s IH]; cbn; [reflexivity|].
  destruct (s_ltb (snd x) (snd y)); [|reflexivity].
  rewrite IH. apply perm_swap.
Qed.

Lemma sorted_desc_perm s : Permutation (sorted_desc s) s.
Proof.
  induction s as [|x s IH]; cbn; [reflexivity|].
  rewrite insert_desc_perm. apply perm_skip. exact IH.
Qed.

End AnyArithmetic.

Section Fusion.
Import OpenSearchService.

Implicit Types (s : list (string * Q)) (hits : list (hit Q)) (id : string).

(** *** In exact arithmetic *)

(** What is accumulated is the sum of the contributions of the two lists. *)
Lemma rrf_scores_fused id (bm25 knn : list (hit Q)) :
  Spec.distinct_ids bm25 -> Spec.distinct_ids knn ->
  (scores_get (Some id) (rrf_scores bm25 knn) == Spec.fused_score id bm25 knn)%Q.
Proof.
  intros H1 H2. rewrite (rrf_scores_accumulated id bm25 knn H1 H2).
  unfold Spec.accumulated, Spec.fused_score, Spec.contribution, Spec.add_term.
  destruct (Spec.rank_from id bm25 1), (Spec.rank_from id knn 1); cbn; ring.
Qed.

Lemma insert_desc_sorted (x : string * Q) s :
  StronglySorted Spec.by_score_desc s ->
  StronglySorted Spec.by_score_desc (insert_desc x s).
Proof.
  induction 1 as [|y s Hs IH Hall]; cbn.
  - repeat constructor.
  - destruct (Qle_bool (snd y) (snd x)) eqn:E; cbn.
    + apply Qle_bool_iff in E. constructor; [constructor; assumption|].
      constructor; [exact E|].
      eapply List.Forall_impl; [|exact Hall]. unfold Spec.by_score_desc.
      intros z Hz. eapply Qle_trans; eassumption.
    + assert (Hlt : (snd x < snd y)%Q).
      { apply Qnot_le_lt. intros Hle. apply Qle_bool_iff in Hle. congruence. }
      constructor; [exact IH|].
      rewrite (List.Forall_forall (Spec.by_score_desc y)). intros z Hz.
      apply (Permutation_in _ (insert_desc_perm x s)) in Hz. destruct Hz as [<-|Hz].
      * unfold Spec.by_score_desc. apply Qlt_le_weak. exact Hlt.
      * rewrite List.Forall_forall in Hall. apply Hall. exact Hz.
Qed.

Lemma sorted_desc_sorted s : StronglySorted Spec.by_score_desc (sorted_desc s).
Proof.
  induction s as [|x s IH]; cbn; [constructor|].
  apply insert_desc_sorted. exact IH.
Qed.

End Fusion.

Lemma sample_distinct_lexical64 : Spec.distinct_ids (num := float) Samples.lexical_hits.
Proof.
  unfold Spec.distinct_ids. cbn.
  repeat (constructor; [cbn; intuition discriminate|]). constructor.
Defined.

Lemma sample_distinct_vector64 : Spec.distinct_ids (num := float) Samples.vector_hits.
Proof.
  unfold Spec.distinct_ids. cbn.
  repeat (constructor; [cbn; intuition discriminate|]). constructor.
Defined.

(** *** Binary64: the numbers that are not negative *)

Section Rounding.
Variables prec emax : Z.

Lemma shr_1_nonneg (mrs : shr_record) : 0 <= shr_m mrs -> 0 <= shr_m (shr_1 mrs).
Proof.
  destruct mrs as [m r s]. cbn [shr_m]. unfold shr_1.
  destruct m as [|[p|p|]|[p|p|]]; cbn [shr_m]; lia.
Qed.

Lemma iter_pos_nonneg (p : positive) (mrs : shr_record) :
  0 <= shr_m mrs -> 0 <= shr_m (SpecFloat.iter_pos shr_1 p mrs).
Proof.
  revert mrs. induction p as [p IH|p IH|]; intros mrs H; cbn [SpecFloat.iter_pos].
  - apply IH, IH, shr_1_nonneg, H.
  - apply IH, IH, H.
  - apply shr_1_nonneg, H.
Qed.

Lemma shr_fexp_nonneg (m e : Z) (l : location) :
  0 <= m -> 0 <= shr_m (fst (shr_fexp prec emax m e l)).
Proof.
  intros H. unfold shr_fexp, shr.
  assert (H0 : 0 <= shr_m (shr_record_of_loc m l)) by (destruct l as [|[]]; exact H).
  destruct (_ - e); cbn [fst]; [exact H0| |exact H0].
  apply iter_pos_nonneg, H0.
Qed.

Lemma round_nearest_even_nonneg (m : Z) (l : location) :
  0 <= m -> 0 <= round_nearest_even m l.
Proof.
  intros H. unfold round_nearest_even.
  destruct l as [|[]]; [lia| |lia|lia]. destruct (Z.even m); lia.
Qed.

(** Rounding a mantissa that is not negative gives a number that is not
    negative: never a NaN. *)
Lemma binary_round_aux_nonneg (m e : Z) (l : location) :
  0 <= m -> Binary64.nonneg (binary_round_aux prec emax false m e l).
Proof.
  intros H. unfold binary_round_aux.
  pose proof (shr_fexp_nonneg m e l H) as H1.
  destruct (shr_fexp prec emax m e l) as [mrs' e']. cbn [fst] in H1.
  pose proof (shr_fexp_nonneg _ e' loc_Exact
                (round_nearest_even_nonneg _ (loc_of_shr_record mrs') H1)) as H2.
  destruct (shr_fexp prec emax _ e' loc_Exact) as [mrs'' e'']. cbn [fst] in H2.
  destruct (shr_m mrs'') as [|p|p]; [reflexivity| |lia].
  destruct (Z.leb e'' (emax - prec)); reflexivity.
Qed.

Lemma binary_normalize_nonneg (m e : Z) :
  0 <= m -> Binary64.nonneg (binary_normalize prec emax m e false).
Proof.
  intros H. unfold binary_normalize. destruct m as [|p|p]; [reflexivity| |lia].
  unfold binary_round. destruct (shl_align _ _ _) as [mz ez].
  apply binary_round_aux_nonneg. lia.
Qed.

Lemma SFadd_nonneg (x y : spec_float) :
  Binary64.nonneg x -> Binary64.nonneg y -> Binary64.nonneg (SFadd prec emax x y).
Proof.
  destruct x as [sx|sx| |sx mx ex], y as [sy|sy| |sy my ey]; cbn [Binary64.nonneg];
    intros Hx Hy; try contradiction; subst; try reflexivity.
  unfold SFadd, cond_Zopp. apply binary_normalize_nonneg. lia.
Qed.

Lemma SFdiv_finite_nonneg (mx : positive) (ex : Z) (y : spec_float) :
  Binary64.nonneg y ->
  Binary64.nonneg (SFdiv prec emax (S754_finite false mx ex) y).
Proof.
  destruct y as [sy|sy| |sy my ey]; cbn [Binary64.nonneg]; intros Hy;
    try contradiction; subst; cbn [SFdiv xorb]; try reflexivity.
  unfold SFdiv_core_binary. cbv zeta.
  match goal with
  | |- context [Z.div_eucl ?a ?b] =>
      assert (Hm : 0 <= a);
      [ destruct (_ - _ - _); [lia|apply Z.shiftl_nonneg; lia|lia]
      | pose proof (Z.div_pos a b Hm ltac:(lia)) as Hq; unfold Z.div in Hq;
        destruct (Z.div_eucl a b) as [q r]; cbn [fst] in Hq ]
  end.
  apply binary_round_aux_nonneg. exact Hq.
Qed.

End Rounding.

Section Comparison.

Lemma SFleb_total (x y : spec_float) :
  Binary64.nonneg x -> Binary64.nonneg y -> SFltb x y = false -> SFleb y x = true.
Proof.
  unfold SFltb, SFleb.
  destruct x as [sx|sx| |sx mx ex], y as [sy|sy| |sy my ey]; cbn [Binary64.nonneg];
    intros Hx Hy; try contradiction; subst; cbn; try reflexivity; try discriminate.
  rewrite (Z.compare_antisym ex ey).
  destruct (Z.compare ex ey); cbn; try reflexivity; try discriminate.
  change (Pos.compare_cont Eq mx my) with (Pos.compare mx my).
  change (Pos.compare_cont Eq my mx) with (Pos.compare my mx).
  rewrite (Pos.compare_antisym mx my).
  destruct (Pos.compare mx my); cbn; try reflexivity; discriminate.
Qed.

Lemma SFleb_not_SFltb (x y : spec_float) :
  Binary64.nonneg x -> Binary64.nonneg y -> SFleb y x = true -> SFltb x y = false.
Proof.
  unfold SFltb, SFleb.
  destruct x as [sx|sx| |sx mx ex], y as [sy|sy| |sy my ey]; cbn [Binary64.nonneg];
    intros Hx Hy; try contradiction; subst; cbn; try reflexivity; try discriminate.
  rewrite (Z.compare_antisym ex ey).
  destruct (Z.compare ex ey); cbn; try reflexivity; try discriminate.
  change (Pos.compare_cont Eq mx my) with (Pos.compare mx my).
  change (Pos.compare_cont Eq my mx) with (Pos.compare my mx).
  rewrite (Pos.compare_antisym mx my).
  destruct (Pos.compare mx my); cbn; try reflexivity; discriminate.
Qed.

Lemma SFltb_SFleb (x y : spec_float) : SFltb x y = true -> SFleb x y = true.
Proof. unfold SFltb, SFleb. destruct (SFcompare x y) as [[]|]; congruence. Qed.

Lemma SFleb_trans (x y z : spec_float) :
  Binary64.nonneg x -> Binary64.nonneg y -> Binary64.nonneg z ->
  SFleb x y = true -> SFleb y z = true -> SFleb x z = true.
Proof.
  unfold SFleb.
  destruct x as [sx|sx| |sx mx ex], y as [sy|sy| |sy my ey], z as [sz|sz| |sz mz ez];
    cbn [Binary64.nonneg]; intros Hx Hy Hz; try contradiction; subst; cbn;
    try reflexivity; try discriminate.
  change (Pos.compare_cont Eq mx my) with (Pos.compare mx my).
  change (Pos.compare_cont Eq my mz) with (Pos.compare my mz).
  change (Pos.compare_cont Eq mx mz) with (Pos.compare mx mz).
  destruct (Z.compare_spec ex ey), (Z.compare_spec ey ez), (Z.compare_spec ex ez);
    try lia; try reflexivity; try discriminate.
  destruct (Pos.compare_spec mx my), (Pos.compare_spec my mz), (Pos.compare_spec mx mz);
    try lia; try reflexivity; try discriminate.
Qed.

Lemma SFleb_zero (x : spec_float) :
  Binary64.nonneg x -> SFleb (S754_zero false) x = true.
Proof.
  destruct x as [sx|sx| |sx mx ex]; cbn [Binary64.nonneg]; intros Hx;
    try contradiction; subst; reflexivity.
Qed.

End Comparison.

(** The same on the values of the code: zero, the terms [1.0 / n] and
    their sums are numbers that are not negative, and [<] and [<=] order
    such numbers totally. *)
Lemma nonneg64_zero : Binary64.nonneg64 s_zero.
Proof. reflexivity. Qed.

Lemma nonneg64_add (a b : float) :
  Binary64.nonneg64 a -> Binary64.nonneg64 b -> Binary64.nonneg64 (s_add a b).
Proof.
  unfold Binary64.nonneg64. cbn [s_add Score_float].
  rewrite FloatAxioms.add_spec. apply SFadd_nonneg.
Qed.

Lemma nonneg64_inv (n : Z) : Binary64.nonneg64 (s_inv n).
Proof.
  unfold Binary64.nonneg64. cbn [s_inv Score_float].
  rewrite FloatAxioms.div_spec, FloatAxioms.of_uint63_spec.
  change (Prim2SF 1%float) with (S754_finite false 4503599627370496 (-52)).
  apply SFdiv_finite_nonneg. apply binary_normalize_nonneg.
  apply Uint63.to_Z_bounded.
Qed.

Lemma leb64_total (a b : float) :
  Binary64.nonneg64 a -> Binary64.nonneg64 b ->
  PrimFloat.ltb a b = false -> PrimFloat.leb b a = true.
Proof.
  unfold Binary64.nonneg64. rewrite FloatAxioms.ltb_spec, FloatAxioms.leb_spec.
  apply SFleb_total.
Qed.

Lemma leb64_not_ltb64 (a b : float) :
  Binary64.nonneg64 a -> Binary64.nonneg64 b ->
  PrimFloat.leb b a = true -> PrimFloat.ltb a b = false.
Proof.
  unfold Binary64.nonneg64. rewrite FloatAxioms.ltb_spec, FloatAxioms.leb_spec.
  apply SFleb_not_SFltb.
Qed.

Lemma ltb64_leb64 (a b : float) : PrimFloat.ltb a b = true -> PrimFloat.leb a b = true.
Proof. rewrite FloatAxioms.ltb_spec, FloatAxioms.leb_spec. apply SFltb_SFleb. Qed.

Lemma leb64_trans (a b c : float) :
  Binary64.nonneg64 a -> Binary64.nonneg64 b -> Binary64.nonneg64 c ->
  PrimFloat.leb a b = true -> PrimFloat.leb b c = true -> PrimFloat.leb a c = true.
Proof. unfold Binary64.nonneg64. rewrite !FloatAxioms.leb_spec. apply SFleb_trans. Qed.

Lemma leb64_zero (a : float) : Binary64.nonneg64 a -> PrimFloat.leb 0 a = true.
Proof.
  unfold Binary64.nonneg64. rewrite FloatAxioms.leb_spec.
  change (Prim2SF 0%float) with (S754_zero false). apply SFleb_zero.
Qed.

(** *** The order of the scores, in an arithmetic that orders them *)

Section OrderedScores.
Import OpenSearchService.
Context {num : Type} {score_arith : Score num}.
Variable proper : num -> Prop.
Variable le : num -> num -> Prop.
Hypothesis proper_zero : proper s_zero.
Hypothesis proper_inv : forall n : Z, proper (s_inv n).
Hypothesis proper_add : forall a b : num, proper a -> proper b -> proper (s_add a b).
Hypothesis le_total :
  forall a b : num, proper a -> proper b -> s_ltb a b = false -> le b a.
Hypothesis lt_le : forall a b : num, s_ltb a b = true -> le a b.
Hypothesis le_trans :
  forall a b c : num, proper a -> proper b -> proper c -> le a b -> le b c -> le a c.

Implicit Types (s : list (string * num)) (hits : list (hit num)) (id : string).

Lemma bump_proper id (x : num) s :
  proper x -> List.Forall (fun kv => proper (snd kv)) s ->
  List.Forall (fun kv => proper (snd kv)) (bump id x s).
Proof.
  intros Hx. induction 1 as [|[k v] s Hv Hs IH]; cbn.
  - constructor; [cbn; auto|constructor].
  - destruct (String.eqb k id); constructor; cbn in *; auto.
Qed.

Lemma add_rrf_from_proper (rank : Z) hits s :
  List.Forall (fun kv => proper (snd kv)) s ->
  List.Forall (fun kv => proper (snd kv)) (add_rrf_from rank hits s).
Proof.
  revert rank s. induction hits as [|h hits IH]; intros rank s Hs; [exact Hs|].
  rewrite add_rrf_from_step. apply IH.
  destruct (Spec.usable_id h); [apply bump_proper; auto|exact Hs].
Qed.

Lemma rrf_scores_proper (bm25 knn : list (hit num)) :
  List.Forall (fun kv => proper (snd kv)) (rrf_scores bm25 knn).
Proof.
  unfold rrf_scores, add_rrf. apply add_rrf_from_proper, add_rrf_from_proper. constructor.
Qed.

Lemma insert_desc_sorted_by (x : string * num) s :
  proper (snd x) -> List.Forall (fun kv => proper (snd kv)) s ->
  StronglySorted (fun a b => le (snd b) (snd a)) s ->
  StronglySorted (fun a b => le (snd b) (snd a)) (insert_desc x s).
Proof.
  intros Hx Hp Hs. induction Hs as [|y s Hs IH Hall]; cbn.
  - repeat constructor.
  - apply List.Forall_cons_iff in Hp as [Hy Hp].
    destruct (s_ltb (snd x) (snd y)) eqn:E.
    + constructor; [apply IH; exact Hp|].
      apply List.Forall_forall. intros z Hz.
      apply (Permutation_in _ (insert_desc_perm x s)) in Hz. destruct Hz as [<-|Hz].
      * apply lt_le. exact E.
      * rewrite List.Forall_forall in Hall. apply Hall. exact Hz.
    + constructor; [constructor; assumption|].
      assert (Hyx : le (snd y) (snd x)) by (apply le_total; assumption).
      constructor; [exact Hyx|].
      apply List.Forall_forall. intros z Hz.
      rewrite List.Forall_forall in Hall, Hp.
      apply (le_trans (snd z) (snd y) (snd x)); auto.
Qed.

Lemma sorted_desc_sorted_by s :
  List.Forall (fun kv => proper (snd kv)) s ->
  StronglySorted (fun a b => le (snd b) (snd a)) (sorted_desc s).
Proof.
  induction 1 as [|x s Hx Hs IH]; cbn; [constructor|].
  apply insert_desc_sorted_by; [exact Hx| |exact IH].
  apply List.Forall_forall. intros z Hz.
  apply (Permutation_in _ (sorted_desc_perm s)) in Hz.
  rewrite List.Forall_forall in Hs. apply Hs. exact Hz.
Qed.

End OrderedScores.

(** In binary64: every score is a number that is not negative, and the
    sort puts the scores in descending order. *)
Lemma rrf_scores_nonneg64 (bm25 knn : list (OpenSearchService.hit float)) :
  List.Forall (fun kv => Binary64.nonneg64 (snd kv)) (OpenSearchService.rrf_scores bm25 knn).
Proof.
  apply (rrf_scores_proper (score_arith := Score_float) Binary64.nonneg64
           nonneg64_zero nonneg64_inv nonneg64_add).
Qed.

Lemma sorted_desc_sorted64 (s : list (string * float)) :
  List.Forall (fun kv => Binary64.nonneg64 (snd kv)) s ->
  StronglySorted Spec.by_score_desc64 (OpenSearchService.sorted_desc s).
Proof.
  apply (sorted_desc_sorted_by (score_arith := Score_float) Binary64.nonneg64
           (fun a b : float => PrimFloat.leb a b = true)).
  - exact leb64_total.
  - exact ltb64_leb64.
  - exact leb64_trans.
Qed.

(** *** The search itself, in any arithmetic *)

Section HybridRun.
Import OpenSearchService.
Context {num : Type} {score_arith : Score num}.
Variable rt : runtime.
Variable be : backend num.
Variable self : OpenSearchService.t.

Lemma ensure_index_ready (w : world) :
  Spec.index_ready be self ->
  exists pre : list event,
    _ensure_index rt be self w = (Ok tt, World (cache_store w) (history w ++ pre))
    /\ List.Forall (fun e => e = IndicesExists (index self)
                             \/ e = IndicesCreate (index self) (dim self)) pre.
Proof.
  unfold _ensure_index, try_except, bind, call, ret, log.
  intros [Hex|[Hex Hcr]]; rewrite Hex; cbn.
  - eexists. split; [reflexivity|]. repeat constructor.
  - rewrite Hcr. cbn. rewrite <- app_assoc. eexists. split; [reflexivity|].
    constructor; [auto|]. constructor; [auto|constructor].
Qed.

(** The record the code builds for a fetched document. *)
Lemma fused_of_annotated (scores : list (string * num)) (d : mget_doc) :
  fused_of scores d = Spec.annotated (scores_get (mdoc_id d) scores) d.
Proof.
  unfold fused_of, Spec.annotated, source_of, or_else, text_of, meta_of.
  destruct (mdoc_source d) as [[[[|c r]|] [t|] [m|]]|]; reflexivity.
Qed.

Lemma filter_found (docs : list mget_doc) :
  filter (fun d => mdoc_found d = true) docs = Spec.found_docs docs.
Proof.
  induction docs as [|d docs IH]; [reflexivity|].
  rewrite filter_cons. cbn [Spec.found_docs].
  destruct (mdoc_found d); destruct (decide _); try congruence; rewrite IH; reflexivity.
Qed.

Lemma scores_get_none (scores : list (string * num)) : scores_get None scores = s_zero.
Proof. destruct scores; reflexivity. Qed.

(** What [search_hybrid_slim] returns and which calls it makes, when the
    two searches answer: without a scored document it stops there; with
    one it asks the engine for the first [top_k] ids. *)
Lemma search_hybrid_slim_run (query : string) (top_k : nat) (w : world)
    (bm25 knn : list (hit num)) :
  Spec.searches_answer be self query top_k bm25 knn ->
  exists (pre : list event) (vec : vector),
    List.Forall (fun e => e = IndicesExists (index self)
                          \/ e = IndicesCreate (index self) (dim self)) pre
    /\ encode_query be query = Ok vec
    /\ search_hybrid_slim rt be self query top_k w
       = match rrf_scores bm25 knn with
         | [] =>
             (Ok [],
              World (cache_store w)
                    (history w ++ pre
                     ++ [Search (index self) (MatchText top_k query);
                         EncodeQuery query;
                         Search (index self) (Knn top_k vec)]))
         | _ =>
             (match mget be (index self) (top_ids top_k (rrf_scores bm25 knn)) with
              | Ok docs =>
                  Ok (map (fused_of (rrf_scores bm25 knn))
                          (filter (fun d => mdoc_found d = true) docs))
              | Raise e => Raise e
              end,
              World (cache_store w)
                    (history w ++ pre
                     ++ [Search (index self) (MatchText top_k query);
                         EncodeQuery query;
                         Search (index self) (Knn top_k vec);
                         Mget (index self) (top_ids top_k (rrf_scores bm25 knn))]))
         end.
Proof.
  intros [Hready Hlex [vec [Henc Hknn]]].
  destruct (ensure_index_ready w Hready) as [pre [Hpre Hkind]].
  exists pre, vec. split; [exact Hkind|]. split; [exact Henc|].
  unfold search_hybrid_slim.
  unfold bind at 1. rewrite Hpre.
  unfold bind at 1. unfold call at 1. rewrite Hlex.
  unfold bind at 1. unfold call at 1. rewrite Henc.
  unfold bind at 1. unfold call at 1. rewrite Hknn.
  unfold log. cbn [cache_store history].
  destruct (rrf_scores bm25 knn) as [|kv rest] eqn:Hs.
  - unfold ret. repeat rewrite <- app_assoc. reflexivity.
  - unfold bind, call, ret, log. cbn [cache_store history].
    destruct (mget be (index self) _); repeat rewrite <- app_assoc; reflexivity.
Qed.

End HybridRun.

(** C6. The hybrid search over the two hit lists the engine returns (each
    naming no document twice), in binary64, the arithmetic of the code.
    Every document gets the sum, over the lists that contain it, of
    [1/(60+rank)], [rank] being its position in the list counted from 1:
    that sum accumulated from zero, the lexical list first (in exact
    arithmetic the same accumulation is the sum itself). The scored
    documents are those of the two lists; every score is a number, not
    negative; the sort rearranges the scored documents in descending order
    of their scores. The first [top_k] ids of that order are asked back in
    one multi-get (after the lexical search, the encoding of the query and
    the nearest-neighbour search with the encoded vector, in that order),
    and the records of the documents found are returned in
    the order of the answer: each with its stored id (the engine's when
    none is stored), its stored text and metadata, and its fused score.
    When no document is scored, both lists empty included, the result is
    empty and nothing is asked back. For lexical hits [A, B, C] and vector
    hits [B, D] the scores are B = 1/61 + 1/62, A = 1/61, D = 1/62,
    C = 1/63 and the order is [B, A, D, C], in binary64 as in exact
    arithmetic. *)
Theorem hybrid_search_fuses_by_reciprocal_rank
    (rt : runtime) (be : OpenSearchService.backend float) (self : OpenSearchService.t)
    (query : string) (top_k : nat) (w : world)
    (bm25 knn : list (OpenSearchService.hit float)) :
  Spec.searches_answer be self query top_k bm25 knn ->
  Spec.distinct_ids bm25 ->
  Spec.distinct_ids knn ->
  (forall id : string,
     OpenSearchService.scores_get (Some id) (OpenSearchService.rrf_scores bm25 knn)
     = Spec.accumulated id bm25 knn)
  /\ (forall (id : string) (lexical nearest : list (OpenSearchService.hit Q)),
        Spec.distinct_ids lexical -> Spec.distinct_ids nearest ->
        (OpenSearchService.scores_get (Some id)
           (OpenSearchService.rrf_scores lexical nearest)
         == Spec.fused_score id lexical nearest)%Q)
  /\ (forall id : string,
        In id (map fst (OpenSearchService.rrf_scores bm25 knn))
        <-> In id (Spec.usable_ids bm25) \/ In id (Spec.usable_ids knn))
  /\ List.Forall (fun kv => PrimFloat.leb 0 (snd kv) = true)
       (OpenSearchService.rrf_scores bm25 knn)
  /\ Permutation (OpenSearchService.sorted_desc (OpenSearchService.rrf_scores bm25 knn))
                 (OpenSearchService.rrf_scores bm25 knn)
  /\ StronglySorted Spec.by_score_desc64
        (OpenSearchService.sorted_desc (OpenSearchService.rrf_scores bm25 knn))
  /\ (forall lexical nearest : list (OpenSearchService.hit Q),
        StronglySorted Spec.by_score_desc
          (OpenSearchService.sorted_desc (OpenSearchService.rrf_scores lexical nearest)))
  /\ OpenSearchService.top_ids top_k (OpenSearchService.rrf_scores bm25 knn)
     = map fst (firstn top_k (OpenSearchService.sorted_desc
                                (OpenSearchService.rrf_scores bm25 knn)))
  /\ (OpenSearchService.rrf_scores bm25 knn = [] ->
      exists (pre : list event) (vec : vector),
        List.Forall
          (fun e => e = IndicesExists (OpenSearchService.index self)
                    \/ e = IndicesCreate (OpenSearchService.index self)
                                         (OpenSearchService.dim self)) pre
        /\ OpenSearchService.encode_query be query = Ok vec
        /\ OpenSearchService.search_hybrid_slim rt be self query top_k w
           = (Ok [],
              World (cache_store w)
                    (history w ++ pre
                     ++ [Search (OpenSearchService.index self) (MatchText top_k query);
                         EncodeQuery query;
                         Search (OpenSearchService.index self) (Knn top_k vec)])))
  /\ (bm25 = [] -> knn = [] ->
      OpenSearchService.rrf_scores bm25 knn = []
      /\ fst (OpenSearchService.search_hybrid_slim rt be self query top_k w) = Ok [])
  /\ (forall docs : list OpenSearchService.mget_doc,
        OpenSearchService.rrf_scores bm25 knn <> [] ->
        OpenSearchService.mget be (OpenSearchService.index self)
          (OpenSearchService.top_ids top_k (OpenSearchService.rrf_scores bm25 knn))
        = Ok docs ->
        exists (pre : list event) (vec : vector),
          List.Forall
            (fun e => e = IndicesExists (OpenSearchService.index self)
                      \/ e = IndicesCreate (OpenSearchService.index self)
                                           (OpenSearchService.dim self)) pre
          /\ OpenSearchService.encode_query be query = Ok vec
          /\ OpenSearchService.search_hybrid_slim rt be self query top_k w
             = (Ok (map (fun d => Spec.annotated (Spec.score_of bm25 knn d) d)
                        (Spec.found_docs docs)),
                World (cache_store w)
                      (history w ++ pre
                       ++ [Search (OpenSearchService.index self) (MatchText top_k query);
                           EncodeQuery query;
                           Search (OpenSearchService.index self) (Knn top_k vec);
                           Mget (OpenSearchService.index self)
                                (OpenSearchService.top_ids top_k
                                   (OpenSearchService.rrf_scores bm25 knn))])))
  /\ (map (fun id => OpenSearchService.scores_get (Some id)
                       (OpenSearchService.rrf_scores (num := float)
                          Samples.lexical_hits Samples.vector_hits))
          ["B"; "A"; "D"; "C"]%string
      = [ (0 + 1 / 61 + 1 / 62)%float; (0 + 1 / 61)%float;
          (0 + 1 / 62)%float; (0 + 1 / 63)%float ]
      /\ OpenSearchService.top_ids (num := float) 5
           (OpenSearchService.rrf_scores Samples.lexical_hits Samples.vector_hits)
         = ["B"; "A"; "D"; "C"]%string
      /\ (OpenSearchService.scores_get (Some "B"%string)
            (OpenSearchService.rrf_scores Samples.lexical_hits Samples.vector_hits)
          == 1 / 61 + 1 / 62)%Q
      /\ (OpenSearchService.scores_get (Some "A"%string)
            (OpenSearchService.rrf_scores Samples.lexical_hits Samples.vector_hits)
          == 1 / 61)%Q
      /\ (OpenSearchService.scores_get (Some "D"%string)
            (OpenSearchService.rrf_scores Samples.lexical_hits Samples.vector_hits)
          == 1 / 62)%Q
      /\ (OpenSearchService.scores_get (Some "C"%string)
            (OpenSearchService.rrf_scores Samples.lexical_hits Samples.vector_hits)
          == 1 / 63)%Q
      /\ OpenSearchService.top_ids (num := Q) 5
           (OpenSearchService.rrf_scores Samples.lexical_hits Samples.vector_hits)
         = ["B"; "A"; "D"; "C"]%string).
Proof.
  intros Hans Hd1 Hd2.
  destruct (search_hybrid_slim_run rt be self query top_k w bm25 knn Hans)
    as [pre [vec [Hkind [Henc Hrun]]]].
  split; [intros id; apply (rrf_scores_accumulated id bm25 knn Hd1 Hd2)|].
  split; [intros id lexical nearest; apply rrf_scores_fused|].
  split; [intros id; apply rrf_scores_keys|].
  split.
  { eapply List.Forall_impl; [|apply rrf_scores_nonneg64].
    intros kv Hkv. apply leb64_zero. exact Hkv. }
  split; [apply sorted_desc_perm|].
  split; [apply sorted_desc_sorted64, rrf_scores_nonneg64|].
  split; [intros lexical nearest; apply sorted_desc_sorted|].
  split; [reflexivity|].
  split.
  { intros Hnone. exists pre, vec. split; [exact Hkind|]. split; [exact Henc|].
    rewrite Hrun, Hnone. reflexivity. }
  split; [intros -> ->; split; [reflexivity|rewrite Hrun; reflexivity]|].
  split.
  { intros docs Hsome Hget. exists pre, vec. split; [exact Hkind|].
    split; [exact Henc|]. rewrite Hrun.
    destruct (OpenSearchService.rrf_scores bm25 knn) as [|kv rest] eqn:Hs;
      [contradiction|]. rewrite <- Hs in *. rewrite Hget, filter_found.
    f_equal. f_equal. apply map_ext. intros d. rewrite fused_of_annotated. f_equal.
    unfold Spec.score_of. destruct (OpenSearchService.mdoc_id d) as [id|].
    - apply (rrf_scores_accumulated id bm25 knn Hd1 Hd2).
    - apply scores_get_none. }
  split; [vm_compute; reflexivity|].
  split; [vm_compute; reflexivity|].
  repeat split; vm_compute; reflexivity.
Qed.

Lemma sample_searches_answer :
  Spec.searches_answer Samples.engine64 Samples.service "sms" 5
    Samples.lexical_hits Samples.vector_hits.
Proof.
  split.
  - left. reflexivity.
  - reflexivity.
  - exists []. split; reflexivity.
Defined.

(** The theorem at the example, in binary64: the search returns the
    records of B, A, D and C in that order, each with its fused score. *)
Lemma hybrid_search_fuses_by_reciprocal_rank_witness :
  exists (pre : list event) (vec : vector),
    OpenSearchService.search_hybrid_slim Reference.rt Samples.engine64 Samples.service
      "sms" 5 Samples.cold
    = (Ok [ OpenSearchService.Slim (Some "B"%string) (Some (0 + 1 / 61 + 1 / 62)%float)
              "text of B" [];
            OpenSearchService.Slim (Some "A"%string) (Some (0 + 1 / 61)%float)
              "text of A" [];
            OpenSearchService.Slim (Some "D"%string) (Some (0 + 1 / 62)%float)
              "text of D" [];
            OpenSearchService.Slim (Some "C"%string) (Some (0 + 1 / 63)%float)
              "text of C" [] ],
       World (cache_store Samples.cold)
             (history Samples.cold ++ pre
              ++ [Search "themis" (MatchText 5 "sms"); EncodeQuery "sms";
                  Search "themis" (Knn 5 vec);
                  Mget "themis" ["B"; "A"; "D"; "C"]%string])).
Proof.
  destruct (hybrid_search_fuses_by_reciprocal_rank Reference.rt Samples.engine64
              Samples.service "sms" 5 Samples.cold
              Samples.lexical_hits Samples.vector_hits
              sample_searches_answer sample_distinct_lexical64 sample_distinct_vector64)
    as (_ & _ & _ & _ & _ & _ & _ & _ & _ & _ & Hrun & _).
  destruct (Hrun (map Samples.stored ["B"; "A"; "D"; "C"]%string))
    as [pre [vec [_ [_ H]]]].
  - vm_compute. discriminate.
  - vm_compute. reflexivity.
  - exists pre, vec. rewrite H. vm_compute. reflexivity.
Defined.

(** The same example in binary64, the arithmetic of the code: the order is
    the same. *)
Example fusion_example_in_binary64 :
  OpenSearchService.top_ids (num := float) 5
    (OpenSearchService.rrf_scores Samples.lexical_hits Samples.vector_hits)
  = ["B"; "A"; "D"; "C"]%string.
Proof. vm_compute. reflexivity. Qed.

(** ** Bulk indexing of nothing (C10) *)

(** C10. For the empty list of documents [index_docs] returns the count 0
    and leaves the world as it found it: it has called neither the
    embedding model nor the search engine (no index check, no index
    creation, no bulk write), whatever these would have answered. *)
Theorem index_docs_of_nothing
    (rt : runtime) (num : Type) (be : OpenSearchService.backend num)
    (self : OpenSearchService.t) (w : world) :
  OpenSearchService.index_docs rt be self [] w = (Ok 0, w)
  /\ count is_encode (history (snd (OpenSearchService.index_docs rt be self [] w)))
     = count is_encode (history w)
  /\ count is_index_call (history (snd (OpenSearchService.index_docs rt be self [] w)))
     = count is_index_call (history w).
Proof. repeat split. Qed.

(** By contrast one document costs an index check, an encoding and a bulk
    write. *)
Example index_docs_of_one_document :
  OpenSearchService.index_docs Reference.rt Samples.engine Samples.service
    [OpenSearchService.Doc (Some "T1") (Some "SMS abuse") None] Samples.cold
  = (Ok 1,
     World ∅ [ IndicesExists "themis";
               EncodeBatch ["SMS abuse"%string];
               Bulk [Action "themis" (Some "T1"%string) (Some "T1"%string)
                            (Some "SMS abuse"%string) [] []] ]).
Proof. reflexivity. Qed.

(** ** The two generators (C7) *)

Section Generators.
Import LlamaService.
Variable rt : runtime.
Variable sys : os.
Variable self : LlamaService.t.

(** Both build the command line with [_build_command], and when the wait
    does not expire they agree: the same error on a non-zero exit, the same
    trimmed output otherwise. *)
Lemma generators_agree_without_expiry (prompt : string) (max_tokens : Z)
    (extra_args : option (list string)) (timeout : option Q) :
  expires timeout (sys (_build_command self prompt max_tokens extra_args)) = false ->
  generate_response rt sys self prompt max_tokens extra_args timeout
  = generate_response_async rt sys self prompt max_tokens extra_args timeout.
Proof.
  intros Hno. unfold generate_response, generate_response_async, subprocess_run, _run_async.
  cbv zeta. rewrite Hno. destruct timeout; reflexivity.
Qed.

End Generators.

(** C7 fails on the code. When the wait expires, the synchronous generator
    lets [subprocess.TimeoutExpired] through, while the asynchronous one
    raises a [RuntimeError] with the message "LLaMA timeout." and the
    command line: two errors of different kinds. *)
Theorem generators_differ_on_timeout
    (rt : runtime) (sys : LlamaService.os) (self : LlamaService.t)
    (prompt : string) (max_tokens : Z) (extra_args : option (list string))
    (timeout : Q) :
  LlamaService.expires (Some timeout)
    (sys (LlamaService._build_command self prompt max_tokens extra_args)) = true ->
  LlamaService.generate_response rt sys self prompt max_tokens extra_args (Some timeout)
  = Raise (TimeoutExpired (LlamaService._build_command self prompt max_tokens extra_args)
                          timeout)
  /\ LlamaService.generate_response_async rt sys self prompt max_tokens extra_args
       (Some timeout)
     = Raise (RuntimeError
                ("LLaMA timeout." +:+ Text.nl +:+ "cmd: "
                 +:+ shlex_join rt
                       (LlamaService._build_command self prompt max_tokens extra_args)))
  /\ LlamaService.generate_response rt sys self prompt max_tokens extra_args (Some timeout)
     <> LlamaService.generate_response_async rt sys self prompt max_tokens extra_args
          (Some timeout).
Proof.
  intros Hexp.
  unfold LlamaService.generate_response, LlamaService.generate_response_async,
    LlamaService.subprocess_run, LlamaService._run_async.
  cbv zeta. rewrite Hexp. repeat split. discriminate.
Qed.

Lemma generators_differ_on_timeout_witness :
  LlamaService.generate_response Reference.rt Samples.slow_os Samples.llama
    "Analise" 512 None (Some 60%Q)
  = Raise (TimeoutExpired
             (LlamaService._build_command Samples.llama "Analise" 512 None) 60%Q)
  /\ LlamaService.generate_response_async Reference.rt Samples.slow_os Samples.llama
       "Analise" 512 None (Some 60%Q)
     = Raise (RuntimeError
                ("LLaMA timeout." +:+ Text.nl +:+ "cmd: "
                 +:+ shlex_join Reference.rt
                       (LlamaService._build_command Samples.llama "Analise" 512 None)))
  /\ LlamaService.generate_response Reference.rt Samples.slow_os Samples.llama
       "Analise" 512 None (Some 60%Q)
     <> LlamaService.generate_response_async Reference.rt Samples.slow_os Samples.llama
          "Analise" 512 None (Some 60%Q).
Proof.
  apply (generators_differ_on_timeout Reference.rt Samples.slow_os Samples.llama
           "Analise" 512 None 60%Q).
  reflexivity.
Defined.

(** With time enough, both return the output trimmed. *)
Example generators_return_trimmed_output :
  LlamaService.generate_response Reference.rt Samples.slow_os Samples.llama
    "Analise" 512 None (Some 300%Q)
  = Ok Samples.mock_themis_report_json
  /\ LlamaService.generate_response_async Reference.rt Samples.slow_os Samples.llama
       "Analise" 512 None (Some 300%Q)
     = Ok Samples.mock_themis_report_json.
Proof. split; vm_compute; reflexivity. Qed.

(** ** The retriever the application wires in (C8) *)

(** What the search service does offer: [search_knn_slim] returns records
    with an id, a score, a text and metadata. *)
Example search_knn_slim_returns_records :
  OpenSearchService.search_knn_slim Reference.rt Samples.engine Samples.service
    "sms" 5 Samples.cold
  = (Ok [ OpenSearchService.Slim (Some "B"%string) None EmptyString [];
          OpenSearchService.Slim (Some "D"%string) None EmptyString [] ],
     World ∅ [ IndicesExists "themis"; EncodeQuery "sms";
               Search "themis" (Knn 5 []) ]).
Proof. reflexivity. Qed.

(** The class has no attribute of the name the coordinator asks for. *)
Example search_service_has_no_search_vector :
  AnalysisDomain.retriever_has AnalysisDomain.of_OpenSearchService "search_vector" = false
  /\ AnalysisDomain.retriever_has AnalysisDomain.of_OpenSearchService "search_knn_slim"
     = true.
Proof. split; reflexivity. Qed.

(** C8 fails on the code. With an [OpenSearchService] as its retriever, as
    the constructor is annotated and the factory provides, a miss ends in
    [AttributeError]: the class has no [search_vector]. Nothing was asked of
    the search service, the generator was not called and nothing was
    written to the cache. *)
Theorem retrieval_fails_on_the_search_service
    (rt : runtime) (g : AnalysisDomain.generator_object) (req : AndroguardAnalysis)
    (w : world) :
  cache_store w !! AnalysisDomain.cache_key req = None ->
  AnalysisDomain.perform_analysis rt
    (AnalysisDomain.Domain AnalysisDomain.of_OpenSearchService g AnalysisDomain.TheCache)
    req w
  = (Raise (AttributeError "search_vector"),
     World (cache_store w) (history w ++ [CacheGet (AnalysisDomain.cache_key req)])).
Proof.
  intros Hc. unfold AnalysisDomain.perform_analysis, bind, cache_get. cbn.
  rewrite Hc. reflexivity.
Qed.

Lemma retrieval_fails_on_the_search_service_witness :
  AnalysisDomain.perform_analysis Reference.rt
    (AnalysisDomain.Domain AnalysisDomain.of_OpenSearchService
       (AnalysisDomain.of_LlamaService Reference.rt Samples.slow_os Samples.llama)
       AnalysisDomain.TheCache)
    Samples.mock_androguard_input Samples.cold
  = (Raise (AttributeError "search_vector"),
     World (cache_store Samples.cold)
           (history Samples.cold
            ++ [CacheGet (AnalysisDomain.cache_key Samples.mock_androguard_input)])).
Proof.
  apply (retrieval_fails_on_the_search_service Reference.rt
           (AnalysisDomain.of_LlamaService Reference.rt Samples.slow_os Samples.llama)
           Samples.mock_androguard_input Samples.cold).
  reflexivity.
Defined.

(** ** The dependency factory (C9) *)

(** C9. [get_analysis_domain] calls the constructor without [cache], which
    has no default: whatever retriever and generator it is given, it raises
    the [TypeError] of a missing argument. A request that reaches the
    factory therefore ends in that error with the world untouched:
    [perform_analysis], whose first act is a cache read, has not run. *)
Theorem factory_raises_missing_argument
    (rt : runtime) (retriever : AnalysisDomain.retriever_object)
    (generator : AnalysisDomain.generator_object) (req : AndroguardAnalysis)
    (w : world) :
  Routes.get_analysis_domain retriever generator
  = Raise (TypeError "AnalysisDomain.__init__() missing 1 required positional argument: 'cache'")
  /\ Routes.analyze_app rt (Ok tt) (Ok retriever) (Ok generator) req w
     = (Raise (TypeError "AnalysisDomain.__init__() missing 1 required positional argument: 'cache'"),
        w)
  /\ count is_cache_get
       (history (snd (Routes.analyze_app rt (Ok tt) (Ok retriever) (Ok generator) req w)))
     = count is_cache_get (history w).
Proof. repeat split. Qed.

(** ** Further consequences *)

(** *** A second identical request *)

(** After a miss whose output deserializes, the same request is a hit: it
    returns the same report and adds a cache read and a printed line,
    nothing else; retrieval and generation have been called once over the
    two requests. *)
Theorem second_request_is_served_from_cache
    (rt : runtime) (self : AnalysisDomain.t) (req : AndroguardAnalysis)
    (w : world) (chunks : list string) (raw : string) (report : ThemisAIReport) :
  reads_no_empty_text rt ->
  Spec.answered_miss rt self req w chunks raw ->
  model_validate_json rt raw = Ok report ->
  AnalysisDomain.perform_analysis rt self req w
  = (Ok report, Spec.written rt req w chunks raw)
  /\ exists hit_calls : list event,
       AnalysisDomain.perform_analysis rt self req (Spec.written rt req w chunks raw)
       = (Ok report,
          World (cache_store (Spec.written rt req w chunks raw))
                (history w ++ Spec.miss_calls rt req chunks raw ++ hit_calls))
       /\ count is_search_vector (Spec.miss_calls rt req chunks raw ++ hit_calls) = 1%nat
       /\ count is_generate (Spec.miss_calls rt req chunks raw ++ hit_calls) = 1%nat
       /\ count is_cache_set (Spec.miss_calls rt req chunks raw ++ hit_calls) = 1%nat.
Proof.
  intros Hrt Hmiss Hv. split.
  - rewrite (perform_analysis_on_miss rt self req w chunks raw Hmiss), validated_eq, Hv.
    reflexivity.
  - eexists. split.
    + rewrite (perform_analysis_on_hit rt self req _ raw).
      * rewrite Hv. unfold Spec.written. cbn [history cache_store].
        rewrite <- app_assoc. reflexivity.
      * unfold Spec.written. cbn [cache_store]. rewrite lookup_insert_eq. cbn.
        eapply valid_report_is_truthy; eassumption.
    + repeat split.
Qed.

Lemma second_request_is_served_from_cache_witness :
  AnalysisDomain.perform_analysis Reference.rt Samples.domain
    Samples.mock_androguard_input Samples.cold
  = (Ok Samples.mock_themis_report,
     Spec.written Reference.rt Samples.mock_androguard_input Samples.cold
       Samples.rag_context Samples.mock_themis_report_json).
Proof.
  apply (second_request_is_served_from_cache Reference.rt Samples.domain
           Samples.mock_androguard_input Samples.cold Samples.rag_context
           Samples.mock_themis_report_json Samples.mock_themis_report).
  - reflexivity.
  - apply sample_miss.
  - vm_compute. reflexivity.
Defined.

(** *** A cached output that does not deserialize *)

(** After a miss whose output is not empty and does not deserialize, the
    same request is a hit that fails in the same way, without calling
    retrieval or generation again. *)
Theorem malformed_output_is_replayed
    (rt : runtime) (self : AnalysisDomain.t) (req : AndroguardAnalysis)
    (w : world) (chunks : list string) (raw : string) (e : exn) :
  Spec.answered_miss rt self req w chunks raw ->
  Text.truthy raw = true ->
  model_validate_json rt raw = Raise e ->
  AnalysisDomain.perform_analysis rt self req w
  = (Raise e, Spec.written rt req w chunks raw)
  /\ exists hit_calls : list event,
       AnalysisDomain.perform_analysis rt self req (Spec.written rt req w chunks raw)
       = (Raise e,
          World (cache_store (Spec.written rt req w chunks raw))
                (history (Spec.written rt req w chunks raw) ++ hit_calls))
       /\ count is_search_vector hit_calls = 0%nat
       /\ count is_generate hit_calls = 0%nat
       /\ count is_cache_set hit_calls = 0%nat.
Proof.
  intros Hmiss Htrue Hv. split.
  - rewrite (perform_analysis_on_miss rt self req w chunks raw Hmiss), validated_eq, Hv.
    reflexivity.
  - eexists. split.
    + rewrite (perform_analysis_on_hit rt self req _ raw).
      * rewrite Hv. reflexivity.
      * unfold Spec.written. cbn [cache_store]. rewrite lookup_insert_eq. cbn.
        rewrite Htrue. reflexivity.
    + repeat split.
Qed.

Lemma malformed_output_is_replayed_witness :
  AnalysisDomain.perform_analysis Reference.rt
    (Samples.domain_returning Samples.not_json) Samples.mock_androguard_input Samples.cold
  = (Raise (ValidationError [ErrorEntry EmptyString "json_invalid"
                               (InputText Samples.not_json)]),
     Spec.written Reference.rt Samples.mock_androguard_input Samples.cold
       Samples.rag_context Samples.not_json).
Proof.
  apply (malformed_output_is_replayed Reference.rt
           (Samples.domain_returning Samples.not_json)
           Samples.mock_androguard_input Samples.cold Samples.rag_context
           Samples.not_json).
  - apply sample_miss.
  - reflexivity.
  - vm_compute. reflexivity.
Defined.

(** *** A timeout is never a result *)

(** When the wait expires, neither generator returns text. *)
Theorem expired_generation_returns_no_text
    (rt : runtime) (sys : LlamaService.os) (self : LlamaService.t)
    (prompt : string) (max_tokens : Z) (extra_args : option (list string))
    (timeout : option Q) :
  LlamaService.expires timeout
    (sys (LlamaService._build_command self prompt max_tokens extra_args)) = true ->
  is_Ok (LlamaService.generate_response rt sys self prompt max_tokens extra_args timeout)
  = false
  /\ is_Ok (LlamaService.generate_response_async rt sys self prompt max_tokens
              extra_args timeout) = false.
Proof.
  intros Hexp.
  unfold LlamaService.generate_response, LlamaService.generate_response_async,
    LlamaService.subprocess_run, LlamaService._run_async.
  cbv zeta. rewrite Hexp. destruct timeout; [split; reflexivity|discriminate].
Qed.

Lemma expired_generation_returns_no_text_witness :
  is_Ok (LlamaService.generate_response Reference.rt Samples.slow_os Samples.llama
           "Analise" 512 None (Some 60%Q)) = false
  /\ is_Ok (LlamaService.generate_response_async Reference.rt Samples.slow_os
              Samples.llama "Analise" 512 None (Some 60%Q)) = false.
Proof.
  apply (expired_generation_returns_no_text Reference.rt Samples.slow_os Samples.llama
           "Analise" 512 None (Some 60%Q)).
  reflexivity.
Defined.

(** *** The command line *)

(** The command line is the executable, the model, the token budget, the
    GPU layers and the prompt behind [-p], followed by the caller's extra
    arguments when there are any and by the configured ones otherwise. *)
Theorem command_line_shape
    (self : LlamaService.t) (prompt : string) (max_tokens : Z)
    (extra_args : option (list string)) :
  exists tail : list string,
    LlamaService._build_command self prompt max_tokens extra_args
    = [ LlamaService.llama_cpp self; "-m"; LlamaService.model_path self;
        "-n"; Text.str_of_int max_tokens; "-ngl"; LlamaService.default_ngl self;
        "-p"; prompt ]%string ++ tail
    /\ (forall x rest, extra_args = Some (x :: rest) -> tail = x :: rest)
    /\ (extra_args = None \/ extra_args = Some [] ->
        tail = LlamaService.default_extra_args self).
Proof.
  unfold LlamaService._build_command.
  destruct extra_args as [[|x rest]|]; cbn; eexists; (split; [reflexivity|]); split.
  - intros ? ? H. discriminate.
  - reflexivity.
  - intros ? ? H. injection H as <- <-. reflexivity.
  - intros [H|H]; discriminate.
  - intros ? ? H. discriminate.
  - reflexivity.
Qed.

(** *** The prompt *)

(** The context names the package and carries the indented JSON of the
    whole request; the prompt carries, in this order, the system prompt, the
    retrieved fragments one per line, and the context. *)
Theorem prompt_parts_in_order
    (rt : runtime) (req : AndroguardAnalysis) (chunks : list string) :
  (exists a b c : string,
     AnalysisDomain.specific_context req
     = a +:+ package_name req +:+ b +:+ model_dump_json_indent2 req +:+ c)
  /\ (exists a b c d : string,
        AnalysisDomain.final_prompt rt req chunks
        = a +:+ AnalysisDomain._get_system_prompt rt
          +:+ b +:+ Text.join Text.nl (map (fun c => "  - " +:+ c) chunks)
          +:+ c +:+ AnalysisDomain.specific_context req +:+ d).
Proof.
  split.
  - exists (Text.nl +:+ "        # CONTEXTO ESPECÍFICO DA APLICAÇÃO (ANDROGUARD)"
            +:+ Text.nl +:+ "        Pacote: "),
           ("." +:+ Text.nl +:+ "        Dados Analíticos Brutos (JSON):"
            +:+ Text.nl +:+ "        "),
           (Text.nl +:+ "        ").
    unfold AnalysisDomain.specific_context, Text.unlines. cbn [Text.join].
    rewrite !append_assoc, !append_empty. reflexivity.
  - exists (Text.nl +:+ "        "),
           (Text.nl +:+ Text.nl
            +:+ "        ################################################################################"
            +:+ Text.nl +:+ "        # CONTEXTO GERAL DE SEGURANÇA (MITRE ATT&CK Mobile)"
            +:+ Text.nl
            +:+ "        ################################################################################"
            +:+ Text.nl
            +:+ "        Use este contexto para identificar e categorizar vulnerabilidades presentes nos "
            +:+ Text.nl +:+ "        dados do aplicativo e sugerir mitigações."
            +:+ Text.nl +:+ Text.nl +:+ "        Chunk de Conhecimento:"
            +:+ Text.nl +:+ "        "),
           (Text.nl +:+ Text.nl +:+ Text.nl
            +:+ "        ################################################################################"
            +:+ Text.nl +:+ "        # DADOS BRUTOS DA APLICAÇÃO (ANDROGUARD)"
            +:+ Text.nl
            +:+ "        ################################################################################"
            +:+ Text.nl
            +:+ "        Analise o conteúdo abaixo (logs, permissões, resultados de análise estática)"
            +:+ Text.nl +:+ "        para correlacionar com as técnicas MITRE."
            +:+ Text.nl +:+ Text.nl +:+ "        "),
           (Text.nl +:+ Text.nl +:+ Text.nl
            +:+ "        ################################################################################"
            +:+ Text.nl +:+ "        # TAREFA FINAL E RESTRIÇÕES"
            +:+ Text.nl
            +:+ "        ################################################################################"
            +:+ Text.nl
            +:+ "        Sua análise deve ser completa, baseada estritamente nos dados fornecidos. "
            +:+ Text.nl
            +:+ "        Gere o relatório de segurança completo no formato JSON ESPECIFICADO NO INÍCIO "
            +:+ Text.nl
            +:+ "        (ThemisAIReport), sem adicionar nenhuma outra informação."
            +:+ Text.nl +:+ "        ").
    unfold AnalysisDomain.final_prompt, AnalysisDomain._format_final_prompt,
      AnalysisDomain.mitre_context_str, Text.unlines.
    cbn [Text.join]. rewrite !append_assoc, !append_empty. reflexivity.
Qed.

(** ** The coordinator on every path *)

Section EveryPath.
Import AnalysisDomain.
Variable rt : runtime.
Variable self : AnalysisDomain.t.
Variable req : AndroguardAnalysis.


End EveryPath.

(** *** What a call may touch *)

Lemma count_nil (p : event -> bool) : count p [] = 0%nat.
Proof. reflexivity. Qed.

Lemma count_cons (p : event -> bool) (e : event) (h : list event) :
  count p (e :: h) = ((if p e then 1 else 0) + count p h)%nat.
Proof.
  unfold count. rewrite filter_cons.
  destruct (p e); destruct (decide _); try congruence; reflexivity.
Qed.

Lemma count_app (p : event -> bool) (h1 h2 : list event) :
  count p (h1 ++ h2) = (count p h1 + count p h2)%nat.
Proof. unfold count. rewrite filter_app. apply length_app. Qed.


(** *** Failures upstream of the cache write *)

(** When the retriever raises, the call raises the same error: the
    generator has not been called, nothing has been written, and the same
    request afterwards is a miss again. *)
Theorem failed_retrieval_stops_the_analysis
    (rt : runtime) (self : AnalysisDomain.t) (req : AndroguardAnalysis)
    (w : world) (e : exn) :
  AnalysisDomain.hit_value (fst <$> cache_store w !! AnalysisDomain.cache_key req) = None ->
  AnalysisDomain.retriever_has (AnalysisDomain.retriever self) "search_vector" = true ->
  AnalysisDomain.search_vector (AnalysisDomain.retriever self)
    (AnalysisDomain.specific_context req) = Raise e ->
  AnalysisDomain.perform_analysis rt self req w
  = (Raise e,
     World (cache_store w)
           (history w ++ [CacheGet (AnalysisDomain.cache_key req);
                          SearchVector (AnalysisDomain.specific_context req)]))
  /\ AnalysisDomain.hit_value
       (fst <$> cache_store (snd (AnalysisDomain.perform_analysis rt self req w))
                !! AnalysisDomain.cache_key req) = None.
Proof.
  intros Hc Hr Hs.
  assert (Hrun : AnalysisDomain.perform_analysis rt self req w
                 = (Raise e,
                    World (cache_store w)
                          (history w ++ [CacheGet (AnalysisDomain.cache_key req);
                                         SearchVector (AnalysisDomain.specific_context req)]))).
  { unfold AnalysisDomain.perform_analysis, bind, cache_get. cbn.
    rewrite Hc. unfold AnalysisDomain.await_search_vector. rewrite Hr.
    unfold call, log. cbn. rewrite Hs, <- app_assoc. reflexivity. }
  split; [exact Hrun|]. rewrite Hrun. exact Hc.
Qed.

Lemma failed_retrieval_stops_the_analysis_witness :
  AnalysisDomain.perform_analysis Reference.rt
    (Samples.domain_without_retrieval (ServiceError "connection refused"))
    Samples.mock_androguard_input Samples.cold
  = (Raise (ServiceError "connection refused"),
     World (cache_store Samples.cold)
           (history Samples.cold
            ++ [CacheGet (AnalysisDomain.cache_key Samples.mock_androguard_input);
                SearchVector (AnalysisDomain.specific_context Samples.mock_androguard_input)])).
Proof.
  apply (failed_retrieval_stops_the_analysis Reference.rt
           (Samples.domain_without_retrieval (ServiceError "connection refused"))
           Samples.mock_androguard_input Samples.cold
           (ServiceError "connection refused")); reflexivity.
Defined.

(** When the generator raises, the call raises the same error after one
    retrieval: nothing has been written to the cache, so the failure is not
    remembered and the same request afterwards is a miss again. *)
Theorem failed_generation_caches_nothing
    (rt : runtime) (self : AnalysisDomain.t) (req : AndroguardAnalysis)
    (w : world) (chunks : list string) (e : exn) :
  AnalysisDomain.hit_value (fst <$> cache_store w !! AnalysisDomain.cache_key req) = None ->
  AnalysisDomain.retriever_has (AnalysisDomain.retriever self) "search_vector" = true ->
  AnalysisDomain.search_vector (AnalysisDomain.retriever self)
    (AnalysisDomain.specific_context req) = Ok chunks ->
  AnalysisDomain.generator_has (AnalysisDomain.generator self) "generate_response_async"
  = true ->
  AnalysisDomain.generate_response_async (AnalysisDomain.generator self)
    (AnalysisDomain.final_prompt rt req chunks) 512 = Raise e ->
  AnalysisDomain.perform_analysis rt self req w
  = (Raise e,
     World (cache_store w)
           (history w ++ [CacheGet (AnalysisDomain.cache_key req);
                          SearchVector (AnalysisDomain.specific_context req);
                          GenerateAsync (AnalysisDomain.final_prompt rt req chunks) 512]))
  /\ AnalysisDomain.hit_value
       (fst <$> cache_store (snd (AnalysisDomain.perform_analysis rt self req w))
                !! AnalysisDomain.cache_key req) = None.
Proof.
  intros Hc Hr Hs Hg Hgen.
  assert (Hrun : AnalysisDomain.perform_analysis rt self req w
                 = (Raise e,
                    World (cache_store w)
                          (history w
                           ++ [CacheGet (AnalysisDomain.cache_key req);
                               SearchVector (AnalysisDomain.specific_context req);
                               GenerateAsync (AnalysisDomain.final_prompt rt req chunks)
                                             512]))).
  { unfold AnalysisDomain.perform_analysis, bind, cache_get. cbn.
    rewrite Hc. unfold AnalysisDomain.await_search_vector. rewrite Hr.
    unfold call at 1. cbn. rewrite Hs.
    unfold AnalysisDomain.await_generate. rewrite Hg. unfold call, log. cbn.
    rewrite Hgen. repeat rewrite <- app_assoc. reflexivity. }
  split; [exact Hrun|]. rewrite Hrun. exact Hc.
Qed.

Lemma failed_generation_caches_nothing_witness :
  AnalysisDomain.perform_analysis Reference.rt
    (Samples.domain_without_generation (RuntimeError "LLaMA timeout."))
    Samples.mock_androguard_input Samples.cold
  = (Raise (RuntimeError "LLaMA timeout."),
     World (cache_store Samples.cold)
           (history Samples.cold
            ++ [CacheGet (AnalysisDomain.cache_key Samples.mock_androguard_input);
                SearchVector (AnalysisDomain.specific_context Samples.mock_androguard_input);
                GenerateAsync
                  (AnalysisDomain.final_prompt Reference.rt Samples.mock_androguard_input
                     Samples.rag_context) 512])).
Proof.
  apply (failed_generation_caches_nothing Reference.rt
           (Samples.domain_without_generation (RuntimeError "LLaMA timeout."))
           Samples.mock_androguard_input Samples.cold Samples.rag_context
           (RuntimeError "LLaMA timeout.")); reflexivity.
Defined.

(** *** An empty output *)

(** An empty generation output is written to the cache like any other, and
    fails to deserialize; but the cache read treats an empty value as
    absent, so the same request afterwards is a miss: retrieval and
    generation run again, unlike after an output that is malformed but not
    empty. *)
Theorem empty_output_is_never_served
    (rt : runtime) (self : AnalysisDomain.t) (req : AndroguardAnalysis)
    (w : world) (chunks : list string) :
  reads_no_empty_text rt ->
  Spec.answered_miss rt self req w chunks EmptyString ->
  AnalysisDomain.perform_analysis rt self req w
  = (Raise (ValidationError [ErrorEntry EmptyString "json_invalid" (InputText EmptyString)]),
     Spec.written rt req w chunks EmptyString)
  /\ cache_store (Spec.written rt req w chunks EmptyString) !! AnalysisDomain.cache_key req
     = Some (EmptyString, 3600)
  /\ AnalysisDomain.perform_analysis rt self req (Spec.written rt req w chunks EmptyString)
     = (Raise (ValidationError [ErrorEntry EmptyString "json_invalid"
                                  (InputText EmptyString)]),
        World (cache_store (Spec.written rt req w chunks EmptyString))
              (history w ++ Spec.miss_calls rt req chunks EmptyString
               ++ Spec.miss_calls rt req chunks EmptyString)).
Proof.
  intros Hrt Hmiss.
  assert (Hv : model_validate_json rt EmptyString
               = Raise (ValidationError [ErrorEntry EmptyString "json_invalid"
                                           (InputText EmptyString)])).
  { unfold model_validate_json. rewrite Hrt. reflexivity. }
  assert (Hstored : cache_store (Spec.written rt req w chunks EmptyString)
                      !! AnalysisDomain.cache_key req = Some (EmptyString, 3600)).
  { unfold Spec.written. cbn [cache_store]. apply lookup_insert_eq. }
  assert (Hagain : Spec.answered_miss rt self req (Spec.written rt req w chunks EmptyString)
                     chunks EmptyString).
  { destruct Hmiss as [Hc Hr Hs Hg Hgen]. constructor; try assumption.
    rewrite Hstored. reflexivity. }
  split; [|split; [exact Hstored|]].
  - rewrite (perform_analysis_on_miss rt self req w chunks EmptyString Hmiss),
      validated_eq, Hv. reflexivity.
  - rewrite (perform_analysis_on_miss rt self req _ chunks EmptyString Hagain),
      validated_eq, Hv.
    unfold Spec.written. cbn [cache_store history].
    rewrite insert_insert_eq, <- app_assoc. reflexivity.
Qed.

Lemma empty_output_is_never_served_witness :
  AnalysisDomain.perform_analysis Reference.rt (Samples.domain_returning EmptyString)
    Samples.mock_androguard_input Samples.cold
  = (Raise (ValidationError [ErrorEntry EmptyString "json_invalid" (InputText EmptyString)]),
     Spec.written Reference.rt Samples.mock_androguard_input Samples.cold
       Samples.rag_context EmptyString).
Proof.
  apply (empty_output_is_never_served Reference.rt (Samples.domain_returning EmptyString)
           Samples.mock_androguard_input Samples.cold Samples.rag_context).
  - reflexivity.
  - apply sample_miss.
Defined.

(** *** The errors of a call *)

(** Over a cache service whose calls may fail, an error that leaves the
    coordinator is one of these: the error the cache read raised; the
    deserializer's [ValidationError]; the [ValueError] the closing handler
    builds; the [AttributeError] of a collaborator that lacks the method
    asked for; the error the retriever or the generator raised; the error
    the cache write raised. The errors of the cache and of the
    collaborators pass unchanged. Over the cache of the specification, the
    coordinator is [perform_analysis]. *)
Theorem perform_analysis_errors
    (rt : runtime) (c : AnalysisDomain.cache_service) (self : AnalysisDomain.t)
    (req : AndroguardAnalysis) (w : world) (e : exn) :
  fst (AnalysisDomain.perform_analysis_over rt c self req w) = Raise e ->
  (fst (AnalysisDomain.service_get c (AnalysisDomain.cache_key req) w) = Raise e
   \/ (exists es, e = ValidationError es)
   \/ (exists (raw : string) (e' : exn),
         e = ValueError (AnalysisDomain.invalid_json_message rt e' raw))
   \/ (e = AttributeError "search_vector"
       /\ AnalysisDomain.retriever_has (AnalysisDomain.retriever self) "search_vector"
          = false)
   \/ AnalysisDomain.search_vector (AnalysisDomain.retriever self)
        (AnalysisDomain.specific_context req) = Raise e
   \/ (e = AttributeError "generate_response_async"
       /\ AnalysisDomain.generator_has (AnalysisDomain.generator self)
            "generate_response_async" = false)
   \/ (exists chunks,
         AnalysisDomain.search_vector (AnalysisDomain.retriever self)
           (AnalysisDomain.specific_context req) = Ok chunks
         /\ AnalysisDomain.generate_response_async (AnalysisDomain.generator self)
              (AnalysisDomain.final_prompt rt req chunks) 512 = Raise e)
   \/ (exists (raw : string) (w1 : world),
         fst (AnalysisDomain.service_set c (AnalysisDomain.cache_key req) raw 3600 w1)
         = Raise e))
  /\ (forall w' : world,
        AnalysisDomain.perform_analysis_over rt AnalysisDomain.spec_cache self req w'
        = AnalysisDomain.perform_analysis rt self req w').
Proof.
  intros He. split; [|reflexivity]. revert He.
  unfold AnalysisDomain.perform_analysis_over. unfold bind at 1.
  destruct (AnalysisDomain.service_get c (AnalysisDomain.cache_key req) w)
    as [[cached|e0] w0]; cbn [fst];
    [|intros He; left; injection He as <-; reflexivity].
  intros He. right.
  destruct (AnalysisDomain.hit_value cached) as [text|].
  { left. revert He. unfold bind, print, call, lift. cbn [fst]. intros He.
    eapply model_validate_json_raises_validation. exact He. }
  revert He. unfold bind at 1. unfold AnalysisDomain.await_search_vector.
  destruct (AnalysisDomain.retriever_has (AnalysisDomain.retriever self) "search_vector")
    eqn:Hr.
  2:{ unfold raise. cbn [fst]. intros He. injection He as <-. do 2 right. left. auto. }
  unfold call at 1.
  destruct (AnalysisDomain.search_vector (AnalysisDomain.retriever self)
              (AnalysisDomain.specific_context req)) as [chunks|e1] eqn:Hs.
  2:{ cbn [fst]. intros He. injection He as <-. do 3 right. left. reflexivity. }
  unfold bind at 1. unfold AnalysisDomain.await_generate.
  destruct (AnalysisDomain.generator_has (AnalysisDomain.generator self)
              "generate_response_async") eqn:Hg.
  2:{ unfold raise. cbn [fst]. intros He. injection He as <-. do 4 right. left. auto. }
  unfold call at 1.
  destruct (AnalysisDomain.generate_response_async (AnalysisDomain.generator self)
              (AnalysisDomain.final_prompt rt req chunks) 512) as [raw|e2] eqn:Hgen.
  2:{ cbn [fst]. intros He. injection He as <-. do 5 right. left. exists chunks. auto. }
  unfold bind.
  destruct (AnalysisDomain.service_set c (AnalysisDomain.cache_key req) raw 3600 _)
    as [[[]|e3] w3] eqn:Hset.
  2:{ cbn [fst]. intros He. injection He as <-. do 6 right. eexists raw, _.
      rewrite Hset. reflexivity. }
  rewrite validated_eq. cbn [fst]. intros He. left.
  eapply model_validate_json_raises_validation. exact He.
Qed.

Lemma perform_analysis_errors_witness :
  (fst (AnalysisDomain.service_get Samples.unreachable_cache (AnalysisDomain.cache_key Samples.mock_androguard_input) Samples.cold) = Raise (ServiceError "ConnectionError")
   \/ (exists es, (ServiceError "ConnectionError") = ValidationError es)
   \/ (exists (raw : string) (e' : exn),
         (ServiceError "ConnectionError") = ValueError (AnalysisDomain.invalid_json_message Reference.rt e' raw))
   \/ ((ServiceError "ConnectionError") = AttributeError "search_vector"
       /\ AnalysisDomain.retriever_has (AnalysisDomain.retriever Samples.domain) "search_vector"
          = false)
   \/ AnalysisDomain.search_vector (AnalysisDomain.retriever Samples.domain)
        (AnalysisDomain.specific_context Samples.mock_androguard_input) = Raise (ServiceError "ConnectionError")
   \/ ((ServiceError "ConnectionError") = AttributeError "generate_response_async"
       /\ AnalysisDomain.generator_has (AnalysisDomain.generator Samples.domain)
            "generate_response_async" = false)
   \/ (exists chunks,
         AnalysisDomain.search_vector (AnalysisDomain.retriever Samples.domain)
           (AnalysisDomain.specific_context Samples.mock_androguard_input) = Ok chunks
         /\ AnalysisDomain.generate_response_async (AnalysisDomain.generator Samples.domain)
              (AnalysisDomain.final_prompt Reference.rt Samples.mock_androguard_input chunks) 512 = Raise (ServiceError "ConnectionError"))
   \/ (exists (raw : string) (w1 : world),
         fst (AnalysisDomain.service_set Samples.unreachable_cache (AnalysisDomain.cache_key Samples.mock_androguard_input) raw 3600 w1)
         = Raise (ServiceError "ConnectionError")))
  /\ (forall w' : world,
        AnalysisDomain.perform_analysis_over Reference.rt AnalysisDomain.spec_cache Samples.domain Samples.mock_androguard_input w'
        = AnalysisDomain.perform_analysis Reference.rt Samples.domain Samples.mock_androguard_input w').
Proof.
  apply (perform_analysis_errors Reference.rt Samples.unreachable_cache Samples.domain
           Samples.mock_androguard_input Samples.cold (ServiceError "ConnectionError")).
  reflexivity.
Defined.

(** ** The route *)


(** Reached through its dependencies, the route never gets that far:
    whatever the three providers return or raise, the request ends in an
    error with the world untouched (no cache read, no retrieval, no
    generation). The error is one a provider raised, or else the
    [TypeError] of the factory; it is not wrapped into a status 500. *)
Theorem route_never_reaches_the_coordinator
    (rt : runtime) (user : result unit)
    (retriever : result AnalysisDomain.retriever_object)
    (generator : result AnalysisDomain.generator_object)
    (req : AndroguardAnalysis) (w : world) :
  exists e : exn,
    Routes.analyze_app rt user retriever generator req w = (Raise e, w)
    /\ (user = Raise e \/ retriever = Raise e \/ generator = Raise e
        \/ e = TypeError "AnalysisDomain.__init__() missing 1 required positional argument: 'cache'").
Proof.
  destruct user as [[]|e1]; [|exists e1; split; [reflexivity|auto]].
  destruct retriever as [r|e2]; [|exists e2; split; [reflexivity|auto]].
  destruct generator as [g|e3]; [|exists e3; split; [reflexivity|auto]].
  eexists. split; [reflexivity|]. auto.
Qed.

(** ** The search service, in any arithmetic *)

Section AnyEngine.
Import OpenSearchService.
Context {num : Type} {score_arith : Score num}.
Variable rt : runtime.
Variable be : backend num.
Variable self : OpenSearchService.t.

(** The four ways [_ensure_index] can go. *)
Lemma ensure_index_cases (w : world) :
  (indices_exists be (index self) = Ok true
   /\ _ensure_index rt be self w
      = (Ok tt, World (cache_store w) (history w ++ [IndicesExists (index self)])))
  \/ (indices_exists be (index self) = Ok false
      /\ indices_create be (index self) (dim self) = Ok tt
      /\ _ensure_index rt be self w
         = (Ok tt,
            World (cache_store w)
                  (history w ++ [IndicesExists (index self);
                                 IndicesCreate (index self) (dim self)])))
  \/ (exists e,
        indices_exists be (index self) = Raise e
        /\ _ensure_index rt be self w
           = (Raise e,
              World (cache_store w)
                    (history w ++ [IndicesExists (index self);
                                   Printed ("вќЊ Erro ao garantir Г­ndice OpenSearch: " +:+ exn_text rt e)])))
  \/ (exists e,
        indices_exists be (index self) = Ok false
        /\ indices_create be (index self) (dim self) = Raise e
        /\ _ensure_index rt be self w
           = (Raise e,
              World (cache_store w)
                    (history w ++ [IndicesExists (index self);
                                   IndicesCreate (index self) (dim self);
                                   Printed ("вќЊ Erro ao garantir Г­ndice OpenSearch: " +:+ exn_text rt e)]))).
Proof.
  unfold _ensure_index, try_except, bind, call, ret, print, raise, log.
  destruct (indices_exists be (index self)) as [[|]|e] eqn:Hex; cbn.
  - left. auto.
  - destruct (indices_create be (index self) (dim self)) as [[]|e] eqn:Hcr; cbn.
    + right. left. rewrite <- app_assoc. auto.
    + right. right. right. exists e. unfold log. cbn.
      repeat rewrite <- app_assoc. auto.
  - right. right. left. exists e. unfold log. cbn. rewrite <- app_assoc. auto.
Qed.

Lemma ensure_index_when_ready (w : world) :
  Spec.index_ready be self ->
  exists pre : list event,
    _ensure_index rt be self w = (Ok tt, World (cache_store w) (history w ++ pre))
    /\ List.Forall (fun e => e = IndicesExists (index self)
                             \/ e = IndicesCreate (index self) (dim self)) pre.
Proof.
  intros Hready.
  destruct (ensure_index_cases w) as [[_ H]|[[_ [_ H]]|[[e [Hex _]]|[e [Hex [Hcr _]]]]]].
  - eexists. split; [exact H|]. repeat constructor.
  - eexists. split; [exact H|]. constructor; [auto|]. constructor; [auto|constructor].
  - destruct Hready as [H1|[H1 _]]; congruence.
  - destruct Hready as [H1|[_ H2]]; congruence.
Qed.

End AnyEngine.

(** *** Ensuring the index *)

(** [_ensure_index] first asks whether the index exists; it asks to create
    it, with the dimension of the embedding model, exactly when the answer
    is no. It succeeds exactly when the index exists or could be created;
    otherwise it prints one line that ends with the text of the client's
    error and raises that same error. *)
Theorem index_is_created_only_when_absent
    (num : Type) (rt : runtime) (be : OpenSearchService.backend num)
    (self : OpenSearchService.t) (w : world) :
  exists calls : list event,
    snd (OpenSearchService._ensure_index rt be self w)
    = World (cache_store w)
            (history w ++ IndicesExists (OpenSearchService.index self) :: calls)
    /\ (In (IndicesCreate (OpenSearchService.index self) (OpenSearchService.dim self)) calls
        <-> OpenSearchService.indices_exists be (OpenSearchService.index self) = Ok false)
    /\ (fst (OpenSearchService._ensure_index rt be self w) = Ok tt
        <-> Spec.index_ready be self)
    /\ (forall e,
          fst (OpenSearchService._ensure_index rt be self w) = Raise e ->
          (OpenSearchService.indices_exists be (OpenSearchService.index self) = Raise e
           \/ OpenSearchService.indices_create be (OpenSearchService.index self)
                (OpenSearchService.dim self) = Raise e)
          /\ exists pre,
               calls = pre ++ [Printed ("вќЊ Erro ao garantir Г­ndice OpenSearch: " +:+ exn_text rt e)]).
Proof.
  unfold Spec.index_ready.
  destruct (ensure_index_cases rt be self w)
    as [[Hex H]|[[Hex [Hcr H]]|[[e [Hex H]]|[e [Hex [Hcr H]]]]]];
    rewrite H; cbn [fst snd]; eexists; (split; [reflexivity|]); rewrite Hex;
    try rewrite Hcr; cbn [In]; (split; [|split]).
  - split; [intros []|discriminate].
  - split; auto.
  - intros e He. discriminate.
  - split; auto.
  - split; auto.
  - intros e He. discriminate.
  - split; [intros [F|[]]; discriminate|discriminate].
  - split; [discriminate|intros [F|[F _]]; discriminate].
  - intros e' He. injection He as <-. split; [auto|]. exists []. reflexivity.
  - split; auto.
  - split; [discriminate|intros [F|[_ F]]; discriminate].
  - intros e' He. injection He as <-. split; [auto|].
    exists [IndicesCreate (OpenSearchService.index self) (OpenSearchService.dim self)].
    reflexivity.
Qed.

(** *** Bulk indexing *)

Section Indexing.
Import OpenSearchService.

Lemma texts_of_texts (docs : list doc) (texts : list string) :
  texts_of docs = Ok texts -> map Some texts = map d_text docs.
Proof.
  revert texts. induction docs as [|d docs IH]; intros texts H; cbn in H.
  - injection H as <-. reflexivity.
  - destruct (d_text d) as [t|] eqn:Ht; [|discriminate].
    destruct (texts_of docs) as [ts|e]; [|discriminate].
    injection H as <-. cbn. rewrite Ht, (IH ts eq_refl). reflexivity.
Qed.

Lemma texts_of_without_text (docs : list doc) :
  List.Exists (fun d => d_text d = None) docs -> texts_of docs = Raise (KeyError "text").
Proof.
  induction 1 as [d docs Hd|d docs _ IH]; cbn.
  - rewrite Hd. reflexivity.
  - destruct (d_text d); [|reflexivity]. rewrite IH. reflexivity.
Qed.

Lemma map_fst_combine {A B : Type} (l : list A) (l' : list B) :
  map fst (combine l l') = firstn (length l') l.
Proof.
  revert l'. induction l as [|a l IH]; intros [|b l']; cbn; try reflexivity.
  rewrite IH. reflexivity.
Qed.

Lemma map_snd_combine {A B : Type} (l : list A) (l' : list B) :
  map snd (combine l l') = firstn (length l) l'.
Proof.
  revert l'. induction l as [|a l IH]; intros [|b l']; cbn; try reflexivity.
  rewrite IH. reflexivity.
Qed.

End Indexing.

(** For a batch that is not empty and whose documents all have a text,
    [index_docs] ensures the index, has all texts embedded in one call, in
    the order of the documents, and sends one bulk request: one action per
    pair of a document and a vector (so as many as the shorter of the two
    lists), in the order of the documents, each under the document's [id],
    which is also the [id] stored with it, each with the vector at the
    same position and into the index of the service. It returns the count
    the bulk helper reports. *)
Theorem index_docs_indexes_each_document
    (num : Type) (rt : runtime) (be : OpenSearchService.backend num)
    (self : OpenSearchService.t) (d : OpenSearchService.doc)
    (docs : list OpenSearchService.doc) (texts : list string) (vectors : list vector)
    (n : Z) (w : world) :
  Spec.index_ready be self ->
  OpenSearchService.texts_of (d :: docs) = Ok texts ->
  OpenSearchService.encode_batch be texts = Ok vectors ->
  OpenSearchService.bulk be
    (map (OpenSearchService.action_of self) (combine (d :: docs) vectors)) = Ok n ->
  exists (pre : list event) (actions : list action),
    OpenSearchService.index_docs rt be self (d :: docs) w
    = (Ok n,
       World (cache_store w) (history w ++ pre ++ [EncodeBatch texts; Bulk actions]))
    /\ count is_encode pre = 0%nat
    /\ map Some texts = map OpenSearchService.d_text (d :: docs)
    /\ length actions = Nat.min (length (d :: docs)) (length vectors)
    /\ map action_id actions
       = firstn (length vectors) (map OpenSearchService.d_id (d :: docs))
    /\ map source_vector actions = firstn (length (d :: docs)) vectors
    /\ List.Forall (fun a => action_index a = OpenSearchService.index self
                             /\ source_id a = action_id a) actions.
Proof.
  intros Hready Htexts Henc Hbulk.
  destruct (ensure_index_when_ready rt be self w Hready) as [pre [Hpre Hkind]].
  exists pre, (map (OpenSearchService.action_of self) (combine (d :: docs) vectors)).
  split; [|split; [|split; [|split; [|split; [|split]]]]].
  - unfold OpenSearchService.index_docs.
    unfold bind at 1. rewrite Hpre.
    unfold bind at 1. unfold lift. rewrite Htexts.
    unfold bind at 1. unfold call at 1. rewrite Henc.
    unfold bind, call, ret, log. rewrite Hbulk. cbn [cache_store history].
    repeat rewrite <- app_assoc. reflexivity.
  - clear Hpre. induction Hkind as [|e pre He _ IH]; [reflexivity|].
    rewrite count_cons, IH. destruct He as [-> | ->]; reflexivity.
  - apply texts_of_texts. exact Htexts.
  - rewrite length_map, length_combine. reflexivity.
  - rewrite map_map.
    change (fun x => action_id (OpenSearchService.action_of self x))
      with (fun x : OpenSearchService.doc * vector => OpenSearchService.d_id (fst x)).
    rewrite <- (map_map fst OpenSearchService.d_id), map_fst_combine, firstn_map.
    reflexivity.
  - rewrite map_map.
    change (fun x => source_vector (OpenSearchService.action_of self x))
      with (@snd OpenSearchService.doc vector).
    apply map_snd_combine.
  - apply List.Forall_forall. intros a Ha. apply in_map_iff in Ha as [dv [<- _]].
    split; reflexivity.
Qed.

Lemma index_docs_indexes_each_document_witness :
  exists (pre : list event) (actions : list action),
    OpenSearchService.index_docs Reference.rt Samples.engine Samples.service
      Samples.techniques Samples.cold
    = (Ok 2,
       World (cache_store Samples.cold)
             (history Samples.cold ++ pre
              ++ [EncodeBatch ["Input Capture"; "Protected User Data"]%string;
                  Bulk actions]))
    /\ count is_encode pre = 0%nat
    /\ map Some ["Input Capture"; "Protected User Data"]%string
       = map OpenSearchService.d_text Samples.techniques
    /\ length actions = Nat.min (length Samples.techniques) (length ([[]; []] : list vector))
    /\ map action_id actions
       = firstn (length ([[]; []] : list vector))
           (map OpenSearchService.d_id Samples.techniques)
    /\ map source_vector actions = firstn (length Samples.techniques) ([[]; []] : list vector)
    /\ List.Forall (fun a => action_index a = OpenSearchService.index Samples.service
                             /\ source_id a = action_id a) actions.
Proof.
  apply (index_docs_indexes_each_document Q Reference.rt Samples.engine Samples.service
           (OpenSearchService.Doc (Some "T1417"%string) (Some "Input Capture"%string) None)
           [OpenSearchService.Doc (Some "T1636"%string) (Some "Protected User Data"%string)
              (Some [("tactic"%string, Json.Str "collection")])]
           ["Input Capture"; "Protected User Data"]%string [[]; []] 2 Samples.cold).
  - left. reflexivity.
  - reflexivity.
  - reflexivity.
  - reflexivity.
Defined.

(** A batch in which some document has no [text] is refused as a whole:
    [index_docs] raises [KeyError] once the index has been ensured (and
    created, if it was absent), before anything is embedded and before
    anything is written, the documents that do have a text included. *)
Theorem document_without_text_is_refused
    (num : Type) (rt : runtime) (be : OpenSearchService.backend num)
    (self : OpenSearchService.t) (docs : list OpenSearchService.doc) (w : world) :
  Spec.index_ready be self ->
  List.Exists (fun d => OpenSearchService.d_text d = None) docs ->
  exists pre : list event,
    OpenSearchService.index_docs rt be self docs w
    = (Raise (KeyError "text"), World (cache_store w) (history w ++ pre))
    /\ pre <> []
    /\ List.Forall
         (fun e => e = IndicesExists (OpenSearchService.index self)
                   \/ e = IndicesCreate (OpenSearchService.index self)
                                        (OpenSearchService.dim self)) pre.
Proof.
  intros Hready Hno.
  pose proof (texts_of_without_text docs Hno) as Htexts.
  destruct docs as [|d docs]; [inversion Hno|].
  destruct (ensure_index_cases rt be self w)
    as [[_ H]|[[_ [_ H]]|[[e [Hex _]]|[e [Hex [Hcr _]]]]]].
  - eexists. split; [|split].
    + unfold OpenSearchService.index_docs. unfold bind at 1. rewrite H.
      unfold bind, lift. rewrite Htexts. reflexivity.
    + discriminate.
    + repeat constructor.
  - eexists. split; [|split].
    + unfold OpenSearchService.index_docs. unfold bind at 1. rewrite H.
      unfold bind, lift. rewrite Htexts. reflexivity.
    + discriminate.
    + constructor; [auto|]. constructor; [auto|constructor].
  - destruct Hready as [H1|[H1 _]]; congruence.
  - destruct Hready as [H1|[_ H2]]; congruence.
Qed.

Lemma document_without_text_is_refused_witness :
  exists pre : list event,
    OpenSearchService.index_docs Reference.rt Samples.engine Samples.service
      Samples.batch_without_text Samples.cold
    = (Raise (KeyError "text"),
       World (cache_store Samples.cold) (history Samples.cold ++ pre))
    /\ pre <> []
    /\ List.Forall
         (fun e => e = IndicesExists (OpenSearchService.index Samples.service)
                   \/ e = IndicesCreate (OpenSearchService.index Samples.service)
                                        (OpenSearchService.dim Samples.service)) pre.
Proof.
  apply (document_without_text_is_refused Q Reference.rt Samples.engine Samples.service
           Samples.batch_without_text Samples.cold).
  - left. reflexivity.
  - apply List.Exists_cons_tl. apply List.Exists_cons_hd. reflexivity.
Defined.

(** *** The vector search *)

(** When the engine answers, [search_knn_slim] embeds the query once, sends
    one nearest-neighbour search of size [top_k], and returns one record
    per hit, in the engine's order and with the engine's scores. The id of
    a record is the [id] stored with the document; where none is stored,
    or an empty one, it is the engine's [_id]. A document stored without a
    text gives the empty text. *)
Theorem knn_search_keeps_the_engine_order
    (num : Type) (rt : runtime) (be : OpenSearchService.backend num)
    (self : OpenSearchService.t) (query : string) (top_k : nat) (vec : vector)
    (hits : list (OpenSearchService.hit num)) (w : world) :
  Spec.index_ready be self ->
  OpenSearchService.encode_query be query = Ok vec ->
  OpenSearchService.search be (OpenSearchService.index self) (Knn top_k vec) = Ok hits ->
  exists (pre : list event) (out : list (OpenSearchService.slim_hit num)),
    OpenSearchService.search_knn_slim rt be self query top_k w
    = (Ok out,
       World (cache_store w)
             (history w ++ pre
              ++ [EncodeQuery query; Search (OpenSearchService.index self) (Knn top_k vec)]))
    /\ count is_encode pre = 0%nat
    /\ map OpenSearchService.slim_score out = map OpenSearchService.hit_score hits
    /\ List.Forall2
         (fun h s =>
            let src := OpenSearchService.source_of (OpenSearchService.hit_source h) in
            (forall id, OpenSearchService.src_id src = Some id -> Text.truthy id = true ->
                        OpenSearchService.slim_id s = Some id)
            /\ (OpenSearchService.src_id src = None
                \/ OpenSearchService.src_id src = Some EmptyString ->
                OpenSearchService.slim_id s = OpenSearchService.hit_id h)
            /\ (OpenSearchService.src_text src = None ->
                OpenSearchService.slim_text s = EmptyString)
            /\ (forall t, OpenSearchService.src_text src = Some t ->
                          OpenSearchService.slim_text s = t))
         hits out.
Proof.
  intros Hready Henc Hsearch.
  destruct (ensure_index_when_ready rt be self w Hready) as [pre [Hpre Hkind]].
  exists pre, (map OpenSearchService.slim_of_hit hits).
  split; [|split; [|split]].
  - unfold OpenSearchService.search_knn_slim.
    unfold bind at 1. rewrite Hpre.
    unfold bind at 1. unfold call at 1. rewrite Henc.
    unfold bind, call, ret, log. rewrite Hsearch. cbn [cache_store history].
    repeat rewrite <- app_assoc. reflexivity.
  - clear Hpre. induction Hkind as [|e pre He _ IH]; [reflexivity|].
    rewrite count_cons, IH. destruct He as [-> | ->]; reflexivity.
  - rewrite map_map. reflexivity.
  - clear Hsearch. induction hits as [|h hits IH]; cbn [map]; constructor; [|exact IH].
    unfold OpenSearchService.slim_of_hit, OpenSearchService.or_else,
      OpenSearchService.text_of.
    cbn [OpenSearchService.slim_id OpenSearchService.slim_text].
    repeat split.
    + intros id -> ->. reflexivity.
    + intros [-> | ->]; reflexivity.
    + intros ->. reflexivity.
    + intros t ->. reflexivity.
Qed.

Lemma knn_search_keeps_the_engine_order_witness :
  exists (pre : list event) (out : list (OpenSearchService.slim_hit Q)),
    OpenSearchService.search_knn_slim Reference.rt Samples.scoring_engine Samples.service
      "keylogger" 2 Samples.cold
    = (Ok out,
       World (cache_store Samples.cold)
             (history Samples.cold ++ pre
              ++ [EncodeQuery "keylogger";
                  Search (OpenSearchService.index Samples.service) (Knn 2 [])]))
    /\ count is_encode pre = 0%nat
    /\ map OpenSearchService.slim_score out
       = map OpenSearchService.hit_score
           [Samples.scored_hit "T1417" (9 # 10) (Some "T1417"%string);
            Samples.scored_hit "T1636" (7 # 10) None]
    /\ List.Forall2
         (fun h s =>
            let src := OpenSearchService.source_of (OpenSearchService.hit_source h) in
            (forall id, OpenSearchService.src_id src = Some id -> Text.truthy id = true ->
                        OpenSearchService.slim_id s = Some id)
            /\ (OpenSearchService.src_id src = None
                \/ OpenSearchService.src_id src = Some EmptyString ->
                OpenSearchService.slim_id s = OpenSearchService.hit_id h)
            /\ (OpenSearchService.src_text src = None ->
                OpenSearchService.slim_text s = EmptyString)
            /\ (forall t, OpenSearchService.src_text src = Some t ->
                          OpenSearchService.slim_text s = t))
         [Samples.scored_hit "T1417" (9 # 10) (Some "T1417"%string);
          Samples.scored_hit "T1636" (7 # 10) None]
         out.
Proof.
  apply (knn_search_keeps_the_engine_order Q Reference.rt Samples.scoring_engine
           Samples.service "keylogger" 2 []
           [Samples.scored_hit "T1417" (9 # 10) (Some "T1417"%string);
            Samples.scored_hit "T1636" (7 # 10) None] Samples.cold).
  - left. reflexivity.
  - reflexivity.
  - reflexivity.
Defined.

(** *** The ids the fusion asks back *)

Section FusedIds.
Import OpenSearchService.
Context {num : Type} {score_arith : Score num}.

Implicit Types (s : list (string * num)) (hits : list (hit num)) (id : string).

Lemma NoDup_keys_bump id (x : num) s :
  List.NoDup (map fst s) -> List.NoDup (map fst (bump id x s)).
Proof.
  induction s as [|[k v] s IH]; cbn; intros Hnd.
  - constructor; [intros []|constructor].
  - apply NoDup_cons_iff in Hnd as [Hfresh Hnd].
    destruct (String.eqb k id) eqn:E; cbn.
    + constructor; assumption.
    + constructor; [|apply IH; exact Hnd].
      rewrite keys_bump. intros [->|Hin]; [|contradiction].
      rewrite String.eqb_refl in E. discriminate.
Qed.

Lemma NoDup_keys_add_rrf_from (rank : Z) hits s :
  List.NoDup (map fst s) -> List.NoDup (map fst (add_rrf_from rank hits s)).
Proof.
  revert rank s. induction hits as [|h hits IH]; intros rank s Hnd; [exact Hnd|].
  rewrite add_rrf_from_step. apply IH.
  destruct (Spec.usable_id h); [apply NoDup_keys_bump|]; exact Hnd.
Qed.

Lemma NoDup_firstn {A : Type} (n : nat) (l : list A) :
  List.NoDup l -> List.NoDup (firstn n l).
Proof.
  revert n. induction l as [|a l IH]; intros [|n] Hnd; cbn; try constructor.
  - apply NoDup_cons_iff in Hnd as [Hfresh _].
    intros Hin. apply Hfresh. revert Hin. clear.
    revert n. induction l as [|b l IH]; intros [|n]; cbn; try tauto.
    intros [->|Hin]; [left; reflexivity|right; eapply IH; exact Hin].
  - apply IH. apply NoDup_cons_iff in Hnd as [_ Hnd]. exact Hnd.
Qed.

Lemma In_firstn {A : Type} (n : nat) (l : list A) (a : A) :
  In a (firstn n l) -> In a l.
Proof.
  revert n. induction l as [|b l IH]; intros [|n]; cbn; try tauto.
  intros [->|Hin]; [left; reflexivity|right; eapply IH; exact Hin].
Qed.

Lemma usable_ids_truthy id hits :
  In id (Spec.usable_ids hits) -> Text.truthy id = true.
Proof.
  induction hits as [|h hits IH]; [intros []|].
  rewrite usable_ids_cons. unfold Spec.usable_id.
  destruct (hit_id h) as [id0|]; [|exact IH].
  destruct (Text.truthy id0) eqn:E; [|exact IH].
  intros [<-|Hin]; [exact E|apply IH; exact Hin].
Qed.

End FusedIds.

(** In binary64 as in exact arithmetic, the ids [search_hybrid_slim] asks
    the engine to fetch are pairwise distinct, even when a document is in
    both hit lists or several times in one; there are at most [top_k] of
    them, as many as there are scored documents when these are fewer; none
    is empty, and each is the [_id] of a hit of one of the two searches. *)
Theorem fused_ids_are_distinct_and_bounded
    (num : Type) (score_arith : Score num) (top_k : nat)
    (bm25 knn : list (OpenSearchService.hit num)) :
  List.NoDup (OpenSearchService.top_ids top_k (OpenSearchService.rrf_scores bm25 knn))
  /\ length (OpenSearchService.top_ids top_k (OpenSearchService.rrf_scores bm25 knn))
     = Nat.min top_k (length (OpenSearchService.rrf_scores bm25 knn))
  /\ (forall id : string,
        In id (OpenSearchService.top_ids top_k (OpenSearchService.rrf_scores bm25 knn)) ->
        Text.truthy id = true
        /\ (In (Some id) (map OpenSearchService.hit_id bm25)
            \/ In (Some id) (map OpenSearchService.hit_id knn))).
Proof.
  unfold OpenSearchService.top_ids. split; [|split].
  - rewrite <- firstn_map. apply NoDup_firstn.
    apply (Permutation_NoDup
             (Permutation_sym
                (Permutation_map fst
                   (sorted_desc_perm (OpenSearchService.rrf_scores bm25 knn))))).
    unfold OpenSearchService.rrf_scores, OpenSearchService.add_rrf.
    apply NoDup_keys_add_rrf_from, NoDup_keys_add_rrf_from. constructor.
  - rewrite length_map, length_firstn.
    rewrite (Permutation_length
               (sorted_desc_perm (OpenSearchService.rrf_scores bm25 knn))).
    reflexivity.
  - intros id Hin. rewrite <- firstn_map in Hin. apply In_firstn in Hin.
    apply (Permutation_in _
             (Permutation_map fst
                (sorted_desc_perm (OpenSearchService.rrf_scores bm25 knn)))) in Hin.
    apply rrf_scores_keys in Hin.
    assert (Hid : forall hits : list (OpenSearchService.hit num),
               In id (Spec.usable_ids hits) ->
               In (Some id) (map OpenSearchService.hit_id hits)).
    { induction hits as [|h hits IH]; [intros []|].
      rewrite usable_ids_cons. unfold Spec.usable_id. cbn [map In].
      destruct (OpenSearchService.hit_id h) as [id0|]; [|auto].
      destruct (Text.truthy id0); [|auto].
      intros [->|H]; auto. }
    destruct Hin as [Hin|Hin]; (split; [eapply usable_ids_truthy; exact Hin|]); auto.
Qed.

(** *** One list alone, and two lists that agree *)

Section OneList.
Import OpenSearchService.
Context {num : Type} {score_arith : Score num}.

Implicit Types (s : list (string * num)) (hits : list (hit num)) (id : string).

Lemma bump_fresh id (x : num) s :
  ~ In id (map fst s) -> bump id x s = s ++ [(id, s_add s_zero x)].
Proof.
  induction s as [|[k v] s IH]; cbn; intros Hno; [reflexivity|].
  destruct (String.eqb k id) eqn:E.
  - apply String.eqb_eq in E. subst. exfalso. apply Hno. left. reflexivity.
  - rewrite IH; [reflexivity|]. intros Hin. apply Hno. right. exact Hin.
Qed.

Lemma add_rrf_from_ranked (rank : Z) hits s :
  Spec.distinct_ids hits ->
  (forall id, In id (Spec.usable_ids hits) -> ~ In id (map fst s)) ->
  add_rrf_from rank hits s = s ++ Spec.ranked rank hits.
Proof.
  unfold Spec.distinct_ids. revert rank s.
  induction hits as [|h hits IH]; intros rank s Hnd Hfresh.
  - cbn. rewrite app_nil_r. reflexivity.
  - rewrite add_rrf_from_step. cbn [Spec.ranked].
    rewrite usable_ids_cons in Hnd, Hfresh.
    destruct (Spec.usable_id h) as [id0|].
    + apply NoDup_cons_iff in Hnd as [Hnew Hnd].
      rewrite bump_fresh by (apply Hfresh; left; reflexivity).
      rewrite IH; [rewrite <- app_assoc; reflexivity|exact Hnd|].
      intros id Hin. rewrite map_app, in_app_iff. cbn.
      intros [Hs|[->|[]]]; [|contradiction].
      apply (Hfresh id); [right; exact Hin|exact Hs].
    + apply IH; assumption.
Qed.

Lemma keys_ranked (rank : Z) hits : map fst (Spec.ranked rank hits) = Spec.usable_ids hits.
Proof.
  revert rank. induction hits as [|h hits IH]; intros rank; [reflexivity|].
  cbn [Spec.ranked]. rewrite usable_ids_cons.
  destruct (Spec.usable_id h); cbn; rewrite IH; reflexivity.
Qed.

Lemma rank_from_lower id hits (rank r : Z) :
  Spec.rank_from id hits rank = Some r -> rank <= r.
Proof.
  revert rank. induction hits as [|h hits IH]; intros rank; cbn; [discriminate|].
  destruct (Spec.usable_id h) as [id0|].
  - destruct (String.eqb id0 id).
    + intros H. injection H as <-. lia.
    + intros H. apply IH in H. lia.
  - intros H. apply IH in H. lia.
Qed.

Lemma rank_from_upper id hits (rank r : Z) :
  Spec.rank_from id hits rank = Some r -> r < rank + Z.of_nat (length hits).
Proof.
  revert rank. induction hits as [|h hits IH]; intros rank; cbn [Spec.rank_from length];
    [discriminate|].
  destruct (Spec.usable_id h) as [id0|].
  - destruct (String.eqb id0 id).
    + intros H. injection H as <-. lia.
    + intros H. apply IH in H. lia.
  - intros H. apply IH in H. lia.
Qed.

(** The entries of [ranked] carry the terms of positions within the
    list. *)
Lemma ranked_terms (rank : Z) hits (kv : string * num) :
  In kv (Spec.ranked rank hits) ->
  exists r : Z, rank <= r < rank + Z.of_nat (length hits) /\ snd kv = Spec.term r.
Proof.
  revert rank. induction hits as [|h hits IH]; intros rank; cbn [Spec.ranked length];
    [intros []|].
  assert (Hrest : In kv (Spec.ranked (rank + 1) hits) ->
                  exists r : Z, rank <= r < rank + Z.of_nat (S (length hits))
                                /\ snd kv = Spec.term r).
  { intros Hin. destruct (IH _ Hin) as [r [Hr Hkv]]. exists r. split; [lia|exact Hkv]. }
  destruct (Spec.usable_id h) as [id0|]; [|exact Hrest].
  intros [<-|Hin]; [|exact (Hrest Hin)].
  exists rank. split; [lia|reflexivity].
Qed.

(** Where the terms do not increase with the position, the entries of
    one list are in the order the sort keeps. *)
Lemma ranked_in_order (rank : Z) hits :
  (forall r r' : Z,
     rank <= r -> r < r' -> r' < rank + Z.of_nat (length hits) ->
     s_ltb (Spec.term r) (Spec.term r') = false) ->
  StronglySorted (fun a b => s_ltb (snd a) (snd b) = false) (Spec.ranked rank hits).
Proof.
  revert rank. induction hits as [|h hits IH]; intros rank Hterms;
    cbn [Spec.ranked]; [constructor|].
  assert (Hrest : StronglySorted (fun a b => s_ltb (snd a) (snd b) = false)
                    (Spec.ranked (rank + 1) hits)).
  { apply IH. intros r r' H1 H2 H3. apply Hterms; cbn [length]; lia. }
  destruct (Spec.usable_id h) as [id0|]; [|exact Hrest].
  constructor; [exact Hrest|].
  apply List.Forall_forall. intros kv Hin.
  destruct (ranked_terms _ _ _ Hin) as [r [Hr ->]]. cbn [snd].
  apply Hterms; cbn [length]; lia.
Qed.

Lemma sorted_desc_keeps s :
  StronglySorted (fun a b => s_ltb (snd a) (snd b) = false) s -> sorted_desc s = s.
Proof.
  induction 1 as [|x s Hs IH Hall]; [reflexivity|].
  cbn [sorted_desc fold_right]. fold (sorted_desc s). rewrite IH.
  destruct s as [|y s']; [reflexivity|]. cbn [insert_desc].
  apply List.Forall_inv in Hall. rewrite Hall. reflexivity.
Qed.

Lemma one_list_ranked hits : Spec.distinct_ids hits -> add_rrf hits [] = Spec.ranked 1 hits.
Proof.
  intros Hnd. unfold add_rrf. rewrite add_rrf_from_ranked; [reflexivity|exact Hnd|].
  intros id _ [].
Qed.

(** So one list alone keeps its order. *)
Lemma one_list_keeps_its_order (top_k : nat) hits :
  Spec.distinct_ids hits ->
  (forall r r' : Z,
     1 <= r -> r < r' -> r' < 1 + Z.of_nat (length hits) ->
     s_ltb (Spec.term r) (Spec.term r') = false) ->
  top_ids top_k (rrf_scores hits []) = firstn top_k (Spec.usable_ids hits)
  /\ top_ids top_k (rrf_scores [] hits) = firstn top_k (Spec.usable_ids hits).
Proof.
  intros Hnd Hterms.
  assert (H : top_ids top_k (Spec.ranked 1 hits) = firstn top_k (Spec.usable_ids hits)).
  { unfold top_ids. rewrite sorted_desc_keeps by (apply ranked_in_order; exact Hterms).
    rewrite <- firstn_map, keys_ranked. reflexivity. }
  unfold rrf_scores. split.
  - change (add_rrf [] (add_rrf hits [])) with (add_rrf hits []).
    rewrite one_list_ranked by exact Hnd. exact H.
  - change (add_rrf (num := num) [] []) with (@nil (string * num)).
    rewrite one_list_ranked by exact Hnd. exact H.
Qed.

End OneList.

Section ExactScores.
Import OpenSearchService.

Implicit Types (s : list (string * Q)) (hits : list (hit Q)) (id : string).

(** The term of a position, for a positive denominator. *)
Lemma term_of_position (n : Z) :
  0 < n -> (1 / inject_Z n == 1 # Z.to_pos n)%Q.
Proof.
  intros Hn. destruct n as [|p|p]; try lia. reflexivity.
Qed.

Lemma term_decreases (a b : Z) :
  0 < a -> a <= b -> (0 + 1 / inject_Z b <= 0 + 1 / inject_Z a)%Q.
Proof.
  intros Ha Hab. rewrite !Qplus_0_l, !term_of_position by lia.
  unfold Qle. cbn. rewrite !Z2Pos.id by lia. lia.
Qed.

Lemma contribution_bounds id hits :
  (0 <= Spec.contribution id hits <= 1 # 61)%Q
  /\ (forall r, Spec.rank_from id hits 1 = Some r -> r <= 61 ->
                (1 # 121 <= Spec.contribution id hits)%Q).
Proof.
  unfold Spec.contribution.
  destruct (Spec.rank_from id hits 1) as [r|] eqn:Hr.
  - apply rank_from_lower in Hr.
    assert (Hc : (1 / inject_Z (60 + r) == 1 # Z.to_pos (60 + r))%Q)
      by (apply term_of_position; lia).
    split; [split|intros r' Hr' Hle; injection Hr' as <-];
      rewrite Hc; unfold Qle; cbn; rewrite ?Z2Pos.id by lia; lia.
  - split; [split; discriminate|]. discriminate.
Qed.

End ExactScores.

(** *** The terms in binary64 *)

Lemma positions_within (n r : Z) :
  0 <= n -> (In r (Spec.positions n) <-> 1 <= r <= n).
Proof.
  intros Hn. unfold Spec.positions. rewrite in_map_iff. split.
  - intros [k [<- Hk]]. apply in_seq in Hk. lia.
  - intros Hr. exists (Z.to_nat r). split; [lia|]. apply in_seq. lia.
Qed.

Lemma term_nonneg64 (r : Z) : Binary64.nonneg64 (Spec.term r).
Proof. apply nonneg64_add; [apply nonneg64_zero|apply nonneg64_inv]. Qed.

(** Up to position 10 000 every term is at most the term before it. *)
Lemma terms64_step (r : Z) :
  1 <= r <= 9999 ->
  PrimFloat.leb (Spec.term (num := float) (r + 1)) (Spec.term r) = true.
Proof.
  assert (Hall : forallb (fun r => PrimFloat.leb (Spec.term (num := float) (r + 1))
                                                 (Spec.term r))
                   (Spec.positions 9999) = true) by (vm_compute; reflexivity).
  intros Hr. rewrite forallb_forall in Hall. apply Hall, positions_within; lia.
Qed.

Lemma terms64_do_not_increase (r r' : Z) :
  1 <= r -> r < r' -> r' <= 10000 ->
  PrimFloat.ltb (Spec.term (num := float) r) (Spec.term r') = false.
Proof.
  intros Hr Hlt Hmax.
  apply leb64_not_ltb64; try apply term_nonneg64.
  assert (Hgen : forall n : nat,
             r + Z.of_nat (S n) <= 10000 ->
             PrimFloat.leb (Spec.term (num := float) (r + Z.of_nat (S n))) (Spec.term r)
             = true).
  { induction n as [|n IH]; intros Hn.
    - apply terms64_step. lia.
    - apply (leb64_trans _ (Spec.term (r + Z.of_nat (S n)))); try apply term_nonneg64.
      + replace (r + Z.of_nat (S (S n))) with (r + Z.of_nat (S n) + 1) by lia.
        apply terms64_step. lia.
      + apply IH. lia. }
  replace r' with (r + Z.of_nat (S (Z.to_nat (r' - r - 1)))) by lia.
  apply Hgen. lia.
Qed.

(** When one of the two searches finds nothing, the fusion keeps the order
    of the other: the ids asked back are the first [top_k] ids of that
    list. In binary64, the arithmetic of the code, for a list of up to
    10 000 hits that names no document twice; in exact arithmetic, for
    such a list of any length. *)
Theorem one_sided_fusion_keeps_the_order
    (top_k : nat) (hits : list (OpenSearchService.hit float)) :
  Spec.distinct_ids hits ->
  Z.of_nat (length hits) <= 10000 ->
  OpenSearchService.top_ids top_k (OpenSearchService.rrf_scores hits [])
  = firstn top_k (Spec.usable_ids hits)
  /\ OpenSearchService.top_ids top_k (OpenSearchService.rrf_scores [] hits)
     = firstn top_k (Spec.usable_ids hits)
  /\ (forall exact : list (OpenSearchService.hit Q),
        Spec.distinct_ids exact ->
        OpenSearchService.top_ids top_k (OpenSearchService.rrf_scores exact [])
        = firstn top_k (Spec.usable_ids exact)
        /\ OpenSearchService.top_ids top_k (OpenSearchService.rrf_scores [] exact)
           = firstn top_k (Spec.usable_ids exact)).
Proof.
  intros Hnd Hlen.
  destruct (one_list_keeps_its_order top_k hits Hnd) as [H1 H2].
  { intros r r' Hr Hlt Hmax. apply terms64_do_not_increase; lia. }
  split; [exact H1|]. split; [exact H2|].
  intros exact Hexact. apply one_list_keeps_its_order; [exact Hexact|].
  intros r r' Hr Hlt _. unfold Spec.term. cbn [s_ltb s_add s_zero s_inv Score_Q].
  apply negb_false_iff, Qle_bool_iff. apply term_decreases; lia.
Qed.

Lemma one_sided_fusion_keeps_the_order_witness :
  OpenSearchService.top_ids 2
    (OpenSearchService.rrf_scores (num := float) Samples.lexical_hits [])
  = firstn 2 (Spec.usable_ids (num := float) Samples.lexical_hits).
Proof.
  apply (one_sided_fusion_keeps_the_order 2 Samples.lexical_hits).
  - apply sample_distinct_lexical64.
  - cbn. lia.
Defined.

(** With at most 61 hits from each search, a document that both searches
    return scores strictly more, in binary64, than a document that only
    one of them returns, whatever the positions: with the constant 60,
    agreement between the two searches outweighs the best rank in one. In
    exact arithmetic the same holds for a document within the first 61
    positions of both lists, whatever the length of the lists. *)
Theorem agreement_outranks_a_single_list
    (bm25 knn : list (OpenSearchService.hit float)) (a b : string) (r1 r2 r : Z) :
  Spec.distinct_ids bm25 -> Spec.distinct_ids knn ->
  Z.of_nat (length bm25) <= 61 -> Z.of_nat (length knn) <= 61 ->
  Spec.rank_from a bm25 1 = Some r1 ->
  Spec.rank_from a knn 1 = Some r2 ->
  (Spec.rank_from b bm25 1 = Some r /\ Spec.rank_from b knn 1 = None)
  \/ (Spec.rank_from b bm25 1 = None /\ Spec.rank_from b knn 1 = Some r) ->
  PrimFloat.ltb
    (OpenSearchService.scores_get (Some b) (OpenSearchService.rrf_scores bm25 knn))
    (OpenSearchService.scores_get (Some a) (OpenSearchService.rrf_scores bm25 knn))
  = true
  /\ (forall (lexical nearest : list (OpenSearchService.hit Q)) (q1 q2 : Z),
        Spec.distinct_ids lexical -> Spec.distinct_ids nearest ->
        Spec.rank_from a lexical 1 = Some q1 -> q1 <= 61 ->
        Spec.rank_from a nearest 1 = Some q2 -> q2 <= 61 ->
        Spec.rank_from b lexical 1 = None \/ Spec.rank_from b nearest 1 = None ->
        (OpenSearchService.scores_get (Some b)
           (OpenSearchService.rrf_scores lexical nearest)
         < OpenSearchService.scores_get (Some a)
             (OpenSearchService.rrf_scores lexical nearest))%Q).
Proof.
  intros H1 H2 Hl1 Hl2 Ha1 Ha2 Hb. split.
  - rewrite !(rrf_scores_accumulated _ bm25 knn H1 H2). unfold Spec.accumulated.
    rewrite Ha1, Ha2.
    assert (Hall : forallb (fun x =>
                     forallb (fun y =>
                       forallb (fun z =>
                         PrimFloat.ltb (Spec.term (num := float) z)
                           (s_add (Spec.term x) (s_inv (60 + y))))
                         (Spec.positions 61))
                       (Spec.positions 61))
                     (Spec.positions 61) = true) by (vm_compute; reflexivity).
    assert (Hcheck : forall x y z,
               1 <= x <= 61 -> 1 <= y <= 61 -> 1 <= z <= 61 ->
               PrimFloat.ltb (Spec.term (num := float) z)
                 (s_add (Spec.term x) (s_inv (60 + y))) = true).
    { intros x y z Hx Hy Hz. rewrite forallb_forall in Hall.
      specialize (Hall x (proj2 (positions_within 61 x ltac:(lia)) Hx)).
      rewrite forallb_forall in Hall.
      specialize (Hall y (proj2 (positions_within 61 y ltac:(lia)) Hy)).
      rewrite forallb_forall in Hall.
      apply Hall, positions_within; [lia|exact Hz]. }
    pose proof (rank_from_lower _ _ _ _ Ha1). pose proof (rank_from_upper _ _ _ _ Ha1).
    pose proof (rank_from_lower _ _ _ _ Ha2). pose proof (rank_from_upper _ _ _ _ Ha2).
    destruct Hb as [[Hb1 Hb2]|[Hb1 Hb2]]; rewrite Hb1, Hb2; cbn [Spec.add_term];
      [pose proof (rank_from_lower _ _ _ _ Hb1); pose proof (rank_from_upper _ _ _ _ Hb1)
      |pose proof (rank_from_lower _ _ _ _ Hb2); pose proof (rank_from_upper _ _ _ _ Hb2)];
      apply (Hcheck r1 r2 r); lia.
  - intros lexical nearest q1 q2 Hd1 Hd2 Hq1 Hle1 Hq2 Hle2 Hnone.
    rewrite !(rrf_scores_fused _ lexical nearest Hd1 Hd2). unfold Spec.fused_score.
    destruct (contribution_bounds a lexical) as [_ Hlow1].
    destruct (contribution_bounds a nearest) as [_ Hlow2].
    specialize (Hlow1 q1 Hq1 Hle1). specialize (Hlow2 q2 Hq2 Hle2).
    destruct (contribution_bounds b lexical) as [[Hb1 Hb1'] _].
    destruct (contribution_bounds b nearest) as [[Hb2 Hb2'] _].
    apply Qlt_le_trans with ((1 # 121) + (1 # 121))%Q;
      [|apply Qplus_le_compat; assumption].
    apply Qle_lt_trans with (1 # 61)%Q; [|reflexivity].
    destruct Hnone as [Hn|Hn]; unfold Spec.contribution in *; rewrite Hn in *.
    + rewrite Qplus_0_l. exact Hb2'.
    + rewrite Qplus_0_r. exact Hb1'.
Qed.

Lemma agreement_outranks_a_single_list_witness :
  PrimFloat.ltb
    (OpenSearchService.scores_get (Some "A"%string)
       (OpenSearchService.rrf_scores (num := float)
          Samples.lexical_hits Samples.vector_hits))
    (OpenSearchService.scores_get (Some "B"%string)
       (OpenSearchService.rrf_scores (num := float)
          Samples.lexical_hits Samples.vector_hits))
  = true.
Proof.
  apply (agreement_outranks_a_single_list Samples.lexical_hits Samples.vector_hits
           "B" "A" 2 1 1).
  - apply sample_distinct_lexical64.
  - apply sample_distinct_vector64.
  - cbn. lia.
  - cbn. lia.
  - reflexivity.
  - reflexivity.
  - left. split; reflexivity.
Defined.

(** ** Starting the generation service *)

Section Startup.
Import LlamaService.
Variable m : machine.

Lemma head_In {A : Type} (l : list A) (a : A) : head l = Some a -> In a l.
Proof. destruct l as [|b l]; cbn; [discriminate|]. intros H. injection H as <-. auto. Qed.

Lemma find_head_filter {A : Type} (p : A -> bool) (l : list A) :
  List.find p l = head (List.filter p l).
Proof.
  induction l as [|a l IH]; cbn; [reflexivity|]. destruct (p a); [reflexivity|exact IH].
Qed.

Lemma llama_entries_executable (dir : string) (names : list string) (c : string) :
  In c (llama_entries m dir names) -> _is_executable m c = true.
Proof. unfold llama_entries. intros H. apply List.filter_In in H as [_ H]. exact H. Qed.

Lemma candidates_executable (dir c : string) :
  In c (_candidate_bins_from_dir m dir) -> _is_executable m c = true.
Proof.
  unfold _candidate_bins_from_dir. destruct (isdir m dir); cbn [negb]; [|intros []].
  destruct (listdir m dir) as [names|]; [rewrite in_app_iff; intros [H|H]|intros H].
  - apply List.filter_In in H as [_ H]. exact H.
  - eapply llama_entries_executable. exact H.
  - apply List.filter_In in H as [_ H]. exact H.
Qed.

Lemma candidates_need_a_directory (dir : string) :
  (if isdir m dir then _candidate_bins_from_dir m dir else [])
  = _candidate_bins_from_dir m dir.
Proof.
  unfold _candidate_bins_from_dir. destruct (isdir m dir); reflexivity.
Qed.

Lemma path_entries_executable (c : string) :
  In c (_search_path_for_llama_bins m) -> _is_executable m c = true.
Proof.
  unfold _search_path_for_llama_bins. rewrite in_flat_map. intros [d [_ H]].
  destruct (listdir m d); [eapply llama_entries_executable; exact H|destruct H].
Qed.

Lemma join_nonempty (a b : string) :
  Text.truthy b = true -> Text.truthy (OsPath.join a b) = true.
Proof.
  intros Hb. unfold OsPath.join.
  destruct (Text.is_prefix (Text.str1 OsPath.sep) b); [exact Hb|].
  destruct a as [|x a]; cbn [Text.truthy negb orb].
  - rewrite append_empty. exact Hb.
  - destruct (OsPath.ends_with_sep (String x a)); rewrite append_cons; reflexivity.
Qed.

Lemma llama_entries_nonempty (dir : string) (names : list string) (c : string) :
  In c (llama_entries m dir names) -> Text.truthy c = true.
Proof.
  unfold llama_entries. intros H. apply List.filter_In in H as [H _].
  apply in_map_iff in H as [name [<- H]]. apply List.filter_In in H as [_ H].
  apply join_nonempty. destruct name; [discriminate|reflexivity].
Qed.

Lemma candidates_nonempty (dir c : string) :
  In c (_candidate_bins_from_dir m dir) -> Text.truthy c = true.
Proof.
  assert (Hfixed : forall names,
             List.Forall (fun n => Text.truthy n = true) names ->
             In c (List.filter (_is_executable m) (map (OsPath.join dir) names)) ->
             Text.truthy c = true).
  { intros names Hall H. apply List.filter_In in H as [H _].
    apply in_map_iff in H as [name [<- H]]. apply join_nonempty.
    rewrite List.Forall_forall in Hall. apply Hall. exact H. }
  unfold _candidate_bins_from_dir. destruct (isdir m dir); cbn [negb]; [|intros []].
  destruct (listdir m dir) as [names|]; [rewrite in_app_iff; intros [H|H]|intros H].
  - eapply Hfixed; [|exact H]. repeat constructor.
  - eapply llama_entries_nonempty. exact H.
  - eapply Hfixed; [|exact H]. repeat constructor.
Qed.

Lemma path_entries_nonempty (c : string) :
  In c (_search_path_for_llama_bins m) -> Text.truthy c = true.
Proof.
  unfold _search_path_for_llama_bins. rewrite in_flat_map. intros [d [_ H]].
  destruct (listdir m d); [eapply llama_entries_nonempty; exact H|destruct H].
Qed.

(** Where [_autodetect_bin] looks, in order. *)
Lemma autodetect_sources (self : t) :
  _autodetect_bin m self
  = head (_candidate_bins_from_dir m (llama_cpp self)
          ++ List.filter (_is_executable m) DEFAULT_CANDIDATES
          ++ _candidate_bins_from_dir m (OsPath.dirname (llama_cpp self))
          ++ _search_path_for_llama_bins m).
Proof.
  unfold _autodetect_bin. rewrite !head_app, find_head_filter.
  assert (Hif : forall dir,
             (if isdir m dir then head (_candidate_bins_from_dir m dir) else None)
             = head (_candidate_bins_from_dir m dir)).
  { intros dir. rewrite <- (candidates_need_a_directory dir) at 2.
    destruct (isdir m dir); reflexivity. }
  rewrite !Hif. reflexivity.
Qed.

Lemma autodetect_sound (self : t) (c : string) :
  _autodetect_bin m self = Some c -> _is_executable m c = true.
Proof.
  rewrite autodetect_sources. intros H. apply head_In in H.
  rewrite !in_app_iff in H. destruct H as [H|[H|[H|H]]].
  - eapply candidates_executable. exact H.
  - apply List.filter_In in H as [_ H]. exact H.
  - eapply candidates_executable. exact H.
  - apply path_entries_executable. exact H.
Qed.

Lemma autodetect_nonempty (self : t) (c : string) :
  _autodetect_bin m self = Some c -> Text.truthy c = true.
Proof.
  rewrite autodetect_sources. intros H. apply head_In in H.
  rewrite !in_app_iff in H. destruct H as [H|[H|[H|H]]].
  - eapply candidates_nonempty. exact H.
  - apply List.filter_In in H as [H _].
    cbn in H. repeat (destruct H as [<-|H]; [reflexivity|]). destruct H.
  - eapply candidates_nonempty. exact H.
  - apply path_entries_nonempty. exact H.
Qed.

(** The three ways [_validate_paths] can go when the configured path is not
    an executable file, and the one when it is. *)
Lemma validate_paths_cases (self : t) (w : world) :
  (_is_executable m (llama_cpp self) = true
   /\ _validate_paths m self w
      = (if isfile m (model_path self) then Ok self
         else Raise (RuntimeError (no_model_message self)), w))
  \/ (_is_executable m (llama_cpp self) = false
      /\ exists cand,
           _autodetect_bin m self = Some cand
           /\ _is_executable m cand = true
           /\ _validate_paths m self w
              = (if isfile m (model_path self)
                 then Ok (Service cand (model_path self) (default_ngl self)
                                  (default_extra_args self))
                 else Raise (RuntimeError
                               (no_model_message
                                  (Service cand (model_path self) (default_ngl self)
                                           (default_extra_args self)))),
                 World (cache_store w)
                       (history w
                        ++ [Printed ("[llama] Aviso: LLAMA_CPP_PATH inválido ('"
                                     +:+ llama_cpp self +:+ "'). Usando '" +:+ cand
                                     +:+ "'.")])))
  \/ (_is_executable m (llama_cpp self) = false
      /\ _autodetect_bin m self = None
      /\ _validate_paths m self w = (Raise (RuntimeError (no_binary_message self)), w)).
Proof.
  unfold _validate_paths, bind, ret, raise, print, call, log.
  destruct (_is_executable m (llama_cpp self)) eqn:Hx; cbn [negb].
  - left. split; [reflexivity|]. destruct (isfile m (model_path self)); reflexivity.
  - right. destruct (_autodetect_bin m self) as [cand|] eqn:Ha.
    + left. split; [reflexivity|]. exists cand.
      pose proof (autodetect_sound self cand Ha) as Hc.
      split; [reflexivity|]. split; [exact Hc|].
      rewrite (autodetect_nonempty self cand Ha). cbn. destruct (isfile m (model_path self)); reflexivity.
    + right. auto.
Qed.

End Startup.

(** Whatever the machine holds and whatever arguments and settings are
    given, constructing the service either yields a service whose
    [llama_cpp] is an executable file and whose [model_path] is a file,
    the model path being the one configured, or raises a [RuntimeError];
    no other error leaves the constructor, and the cache is not
    touched. *)
Theorem constructed_service_is_usable
    (m : LlamaService.machine) (st : LlamaService.settings)
    (llama_cpp model_path : option string) (default_ngl : option string)
    (default_extra_args : option (list string)) (w : world) :
  match LlamaService.__init__ m st llama_cpp model_path default_ngl default_extra_args w
  with
  | (Ok svc, w') =>
      LlamaService._is_executable m (LlamaService.llama_cpp svc) = true
      /\ LlamaService.isfile m (LlamaService.model_path svc) = true
      /\ LlamaService.model_path svc
         = LlamaService.or_default model_path (LlamaService.MODEL_PATH st)
      /\ cache_store w' = cache_store w
  | (Raise e, w') => (exists msg, e = RuntimeError msg) /\ cache_store w' = cache_store w
  end.
Proof.
  unfold LlamaService.__init__.
  destruct (validate_paths_cases m
              (LlamaService.Service
                 (LlamaService.or_default llama_cpp (LlamaService.LLAMA_CPP_PATH st))
                 (LlamaService.or_default model_path (LlamaService.MODEL_PATH st))
                 match default_ngl with Some n => n | None => "0"%string end
                 match default_extra_args with Some l => l | None => [] end) w)
    as [[Hx H]|[[Hx [cand [Ha [Hc H]]]]|[Hx [Ha H]]]]; rewrite H;
    cbn [LlamaService.llama_cpp LlamaService.model_path] in *.
  - destruct (LlamaService.isfile m _) eqn:Hm; cbn; eauto.
  - destruct (LlamaService.isfile m _) eqn:Hm; cbn; eauto.
  - eauto.
Qed.

(** The configured path is kept, silently, when it is an executable file;
    it is replaced only when it is not, by the binary detected, and then
    one line is printed that names both. *)
Theorem configured_path_is_replaced_only_when_unusable
    (m : LlamaService.machine) (st : LlamaService.settings)
    (llama_cpp model_path : option string) (default_ngl : option string)
    (default_extra_args : option (list string)) (w w' : world)
    (svc : LlamaService.t) :
  LlamaService.__init__ m st llama_cpp model_path default_ngl default_extra_args w
  = (Ok svc, w') ->
  (LlamaService._is_executable m
     (LlamaService.or_default llama_cpp (LlamaService.LLAMA_CPP_PATH st)) = true ->
   LlamaService.llama_cpp svc
   = LlamaService.or_default llama_cpp (LlamaService.LLAMA_CPP_PATH st)
   /\ w' = w)
  /\ (LlamaService._is_executable m
        (LlamaService.or_default llama_cpp (LlamaService.LLAMA_CPP_PATH st)) = false ->
      LlamaService.llama_cpp svc
      <> LlamaService.or_default llama_cpp (LlamaService.LLAMA_CPP_PATH st)
      /\ In (LlamaService.llama_cpp svc)
            (LlamaService._candidate_bins_from_dir m
               (LlamaService.or_default llama_cpp (LlamaService.LLAMA_CPP_PATH st))
             ++ List.filter (LlamaService._is_executable m) LlamaService.DEFAULT_CANDIDATES
             ++ LlamaService._candidate_bins_from_dir m
                  (OsPath.dirname
                     (LlamaService.or_default llama_cpp (LlamaService.LLAMA_CPP_PATH st)))
             ++ LlamaService._search_path_for_llama_bins m)
      /\ history w'
         = history w
           ++ [Printed ("[llama] Aviso: LLAMA_CPP_PATH inválido ('"
                        +:+ LlamaService.or_default llama_cpp
                              (LlamaService.LLAMA_CPP_PATH st)
                        +:+ "'). Usando '" +:+ LlamaService.llama_cpp svc +:+ "'.")]).
Proof.
  unfold LlamaService.__init__. intros Hinit.
  destruct (validate_paths_cases m
              (LlamaService.Service
                 (LlamaService.or_default llama_cpp (LlamaService.LLAMA_CPP_PATH st))
                 (LlamaService.or_default model_path (LlamaService.MODEL_PATH st))
                 match default_ngl with Some n => n | None => "0"%string end
                 match default_extra_args with Some l => l | None => [] end) w)
    as [[Hx H]|[[Hx [cand [Ha [Hc H]]]]|[Hx [Ha H]]]]; rewrite H in Hinit;
    cbn [LlamaService.llama_cpp LlamaService.model_path] in *.
  - destruct (LlamaService.isfile m _); [|discriminate].
    injection Hinit as <- <-. split; [auto|]. rewrite Hx. discriminate.
  - destruct (LlamaService.isfile m _); [|discriminate].
    injection Hinit as <- <-. split; [rewrite Hx; discriminate|]. intros _.
    cbn [LlamaService.llama_cpp history]. split; [|split; [|reflexivity]].
    + intros ->. congruence.
    + rewrite autodetect_sources in Ha. apply head_In in Ha. exact Ha.
  - discriminate.
Qed.

Lemma configured_path_is_replaced_only_when_unusable_witness :
  (LlamaService._is_executable Samples.image
     (LlamaService.or_default None (LlamaService.LLAMA_CPP_PATH Samples.stale_settings))
   = true ->
   LlamaService.llama_cpp
     (LlamaService.Service "/app/llama.cpp/build/bin/llama-cli" "/models/model.gguf" "0" [])
   = LlamaService.or_default None (LlamaService.LLAMA_CPP_PATH Samples.stale_settings)
   /\ World ∅ [Printed ("[llama] Aviso: LLAMA_CPP_PATH inválido ('/opt/llama.cpp/llama-cli'). "
                        +:+ "Usando '/app/llama.cpp/build/bin/llama-cli'.")]
      = Samples.cold)
  /\ (LlamaService._is_executable Samples.image
        (LlamaService.or_default None (LlamaService.LLAMA_CPP_PATH Samples.stale_settings))
      = false ->
      LlamaService.llama_cpp
        (LlamaService.Service "/app/llama.cpp/build/bin/llama-cli" "/models/model.gguf"
                              "0" [])
      <> LlamaService.or_default None (LlamaService.LLAMA_CPP_PATH Samples.stale_settings)
      /\ In (LlamaService.llama_cpp
               (LlamaService.Service "/app/llama.cpp/build/bin/llama-cli"
                                     "/models/model.gguf" "0" []))
            (LlamaService._candidate_bins_from_dir Samples.image
               (LlamaService.or_default None
                  (LlamaService.LLAMA_CPP_PATH Samples.stale_settings))
             ++ List.filter (LlamaService._is_executable Samples.image)
                  LlamaService.DEFAULT_CANDIDATES
             ++ LlamaService._candidate_bins_from_dir Samples.image
                  (OsPath.dirname
                     (LlamaService.or_default None
                        (LlamaService.LLAMA_CPP_PATH Samples.stale_settings)))
             ++ LlamaService._search_path_for_llama_bins Samples.image)
      /\ history
           (World ∅ [Printed ("[llama] Aviso: LLAMA_CPP_PATH inválido ('/opt/llama.cpp/llama-cli'). "
                              +:+ "Usando '/app/llama.cpp/build/bin/llama-cli'.")])
         = history Samples.cold
           ++ [Printed ("[llama] Aviso: LLAMA_CPP_PATH inválido ('"
                        +:+ LlamaService.or_default None
                              (LlamaService.LLAMA_CPP_PATH Samples.stale_settings)
                        +:+ "'). Usando '"
                        +:+ LlamaService.llama_cpp
                              (LlamaService.Service "/app/llama.cpp/build/bin/llama-cli"
                                                    "/models/model.gguf" "0" [])
                        +:+ "'.")]).
Proof.
  apply (configured_path_is_replaced_only_when_unusable Samples.image Samples.stale_settings
           None None None None Samples.cold).
  vm_compute. reflexivity.
Defined.

(** The binary detected is the first entry of four lists taken in this
    order: the candidates in the configured path taken as a directory, the
    five default paths that are executable, the candidates in the
    directory of the configured path, and the [llama-] entries of the
    directories of [PATH]. Every entry is an executable file with a name
    that is not empty; nothing is detected exactly when the four lists are
    empty. Within a directory, the five fixed names come first, in their
    order, then the [llama-] entries in the order of the listing. *)
Theorem detection_order (m : LlamaService.machine) (self : LlamaService.t) :
  LlamaService._autodetect_bin m self
  = head (LlamaService._candidate_bins_from_dir m (LlamaService.llama_cpp self)
          ++ List.filter (LlamaService._is_executable m) LlamaService.DEFAULT_CANDIDATES
          ++ LlamaService._candidate_bins_from_dir m
               (OsPath.dirname (LlamaService.llama_cpp self))
          ++ LlamaService._search_path_for_llama_bins m)
  /\ List.Forall
       (fun c => LlamaService._is_executable m c = true /\ Text.truthy c = true)
       (LlamaService._candidate_bins_from_dir m (LlamaService.llama_cpp self)
        ++ List.filter (LlamaService._is_executable m) LlamaService.DEFAULT_CANDIDATES
        ++ LlamaService._candidate_bins_from_dir m
             (OsPath.dirname (LlamaService.llama_cpp self))
        ++ LlamaService._search_path_for_llama_bins m)
  /\ (LlamaService._autodetect_bin m self = None
      <-> LlamaService._candidate_bins_from_dir m (LlamaService.llama_cpp self)
          ++ List.filter (LlamaService._is_executable m) LlamaService.DEFAULT_CANDIDATES
          ++ LlamaService._candidate_bins_from_dir m
               (OsPath.dirname (LlamaService.llama_cpp self))
          ++ LlamaService._search_path_for_llama_bins m
          = [])
  /\ (forall dir : string,
        LlamaService._candidate_bins_from_dir m dir
        = if LlamaService.isdir m dir
          then List.filter (LlamaService._is_executable m)
                 (map (OsPath.join dir)
                    (["llama-cli"; "llama-bin"; "llama-simple"; "main"; "llama"]%string
                     ++ List.filter (Text.is_prefix "llama-")
                          match LlamaService.listdir m dir with
                          | Some names => names
                          | None => []
                          end))
          else []).
Proof.
  split; [apply autodetect_sources|split; [|split]].
  3:{ intros dir. unfold LlamaService._candidate_bins_from_dir, LlamaService.llama_entries.
      destruct (LlamaService.isdir m dir); cbn [negb]; [|reflexivity].
      rewrite map_app, List.filter_app.
      destruct (LlamaService.listdir m dir); [reflexivity|].
      cbn [List.filter map]. rewrite app_nil_r. reflexivity. }
  - apply List.Forall_forall. intros c H. rewrite !in_app_iff in H.
    destruct H as [H|[H|[H|H]]].
    + split; [eapply (candidates_executable m)|eapply (candidates_nonempty m)]; exact H.
    + apply List.filter_In in H as [Hin Hx]. split; [exact Hx|].
      cbn in Hin. repeat (destruct Hin as [<-|Hin]; [reflexivity|]). destruct Hin.
    + split; [eapply (candidates_executable m)|eapply (candidates_nonempty m)]; exact H.
    + split; [apply (path_entries_executable m)|apply (path_entries_nonempty m)]; exact H.
  - rewrite autodetect_sources.
    destruct (_ ++ _) as [|c l]; cbn; split; congruence.
Qed.

(** ** Starting the application *)

(** Start-up never fails: when the search service cannot be built, or the
    index can neither be found nor created, one warning is printed and the
    application starts all the same. The search engine is asked at most
    whether the index exists and to create it; nothing is embedded and the
    cache is not touched. *)
Theorem startup_survives_the_search_engine
    (num : Type) (rt : runtime) (be : OpenSearchService.backend num)
    (service : result OpenSearchService.t) (w : world) :
  exists calls : list event,
    Main.lifespan rt be service w = (Ok tt, World (cache_store w) (history w ++ calls))
    /\ (count is_index_call calls <= 2)%nat
    /\ count is_encode calls = 0%nat
    /\ (is_Ok service = false ->
        calls = [Printed "AVISO: OpenSearchService não disponível ou inicialização falhou."])
    /\ (forall osvc, service = Ok osvc ->
        is_Ok (fst (OpenSearchService._ensure_index rt be osvc w)) = false ->
        exists pre,
          calls = pre ++ [Printed "AVISO: Falha ao garantir o índice do OpenSearch no lifespan."]).
Proof.
  unfold Main.lifespan, try_except at 1, bind at 1, lift.
  destruct service as [osvc|e]; cbn [is_Ok].
  - unfold try_except at 1.
    destruct (ensure_index_cases rt be osvc w)
      as [[_ H]|[[_ [_ H]]|[[e [_ H]]|[e [_ [_ H]]]]]]; rewrite H;
      cbn -[count]; unfold print, call, log; cbn -[count];
      eexists; (split; [try rewrite <- app_assoc; reflexivity|]);
      rewrite ?count_app, ?count_cons, ?count_nil; cbn [is_index_call is_encode Nat.add];
      (split; [lia|]); (split; [reflexivity|]); (split; [discriminate|]);
      intros osvc' Heq; injection Heq as <-; rewrite H; cbn [fst is_Ok];
      intros Hfail; try discriminate.
    + exists [IndicesExists (OpenSearchService.index osvc);
              Printed ("вќЊ Erro ao garantir Г­ndice OpenSearch: " +:+ exn_text rt e)]. reflexivity.
    + exists [IndicesExists (OpenSearchService.index osvc);
              IndicesCreate (OpenSearchService.index osvc) (OpenSearchService.dim osvc);
              Printed ("вќЊ Erro ao garantir Г­ndice OpenSearch: " +:+ exn_text rt e)]. reflexivity.
  - unfold print, call, log. cbn. eexists. split; [reflexivity|].
    rewrite ?count_cons, ?count_nil. cbn.
    split; [lia|]. split; [reflexivity|]. split; [reflexivity|]. discriminate.
Qed.

(** ** The report model *)

Section OtherMembers.
Variable rt : runtime.

Implicit Types (ms : list (string * Json.value)) (name field : string).

Lemma member_cons_other name field (v : Json.value) ms :
  name <> field -> Json.member field ((name, v) :: ms) = Json.member field ms.
Proof.
  intros Hne. cbn. destruct (Json.member field ms); [reflexivity|].
  destruct (String.eqb name field) eqn:E; [|reflexivity].
  apply String.eqb_eq in E. contradiction.
Qed.

Lemma member_app_other name field (v : Json.value) ms :
  name <> field -> Json.member field (ms ++ [(name, v)]) = Json.member field ms.
Proof.
  intros Hne. induction ms as [|[k x] ms IH]; cbn.
  - destruct (String.eqb name field) eqn:E; [|reflexivity].
    apply String.eqb_eq in E. contradiction.
  - cbn in IH. rewrite IH. reflexivity.
Qed.

Lemma str_field_same field ms ms' (a : string) :
  Json.member field ms' = Json.member field ms ->
  str_field field ms = inr a -> str_field field ms' = inr a.
Proof.
  unfold str_field. intros ->. destruct (Json.member field ms) as [[]|]; congruence.
Qed.

Lemma float_field_same field ms ms' (a : float) :
  Json.member field ms' = Json.member field ms ->
  float_field rt field ms = inr a -> float_field rt field ms' = inr a.
Proof.
  unfold float_field. intros ->. destruct (Json.member field ms) as [v|]; [|congruence].
  destruct (float_of_json rt v); congruence.
Qed.

Lemma str_list_field_same field ms ms' (a : list string) :
  Json.member field ms' = Json.member field ms ->
  str_list_field field ms = inr a -> str_list_field field ms' = inr a.
Proof.
  unfold str_list_field. intros ->. destruct (Json.member field ms) as [[]|]; congruence.
Qed.

Lemma model_validate_same ms ms' (report : ThemisAIReport) :
  (forall field, In field required_fields ->
                 Json.member field ms' = Json.member field ms) ->
  model_validate rt (Json.Object ms) = Ok report ->
  model_validate rt (Json.Object ms') = Ok report.
Proof.
  intros Hsame. unfold model_validate.
  destruct (str_field "package_name" ms) as [?|a] eqn:H1;
    destruct (float_field rt "score" ms) as [?|b] eqn:H2;
    destruct (str_field "summary" ms) as [?|c] eqn:H3;
    destruct (str_field "vulnerability_name" ms) as [?|d] eqn:H4;
    destruct (str_field "severity_level" ms) as [?|e] eqn:H5;
    destruct (str_list_field "mitigation_actions" ms) as [?|f] eqn:H6;
    try discriminate.
  intros H.
  rewrite (str_field_same _ ms ms' a), (float_field_same _ ms ms' b),
    (str_field_same _ ms ms' c), (str_field_same _ ms ms' d),
    (str_field_same _ ms ms' e), (str_list_field_same _ ms ms' f);
    try assumption; apply Hsame; cbn; auto 10.
Qed.

End OtherMembers.

(** A document that validates as a report still validates, to the same
    report, with a member of another name added to it, before or after
    the others: members the model does not declare are ignored, not
    refused. *)
Theorem members_of_other_names_are_ignored
    (rt : runtime) (ms : list (string * Json.value)) (name : string) (v : Json.value)
    (report : ThemisAIReport) :
  ~ In name required_fields ->
  model_validate rt (Json.Object ms) = Ok report ->
  model_validate rt (Json.Object ((name, v) :: ms)) = Ok report
  /\ model_validate rt (Json.Object (ms ++ [(name, v)])) = Ok report.
Proof.
  intros Hother Hok. split; (eapply model_validate_same; [|exact Hok]); intros field Hin.
  - apply member_cons_other. intros ->. contradiction.
  - apply member_app_other. intros ->. contradiction.
Qed.

Lemma members_of_other_names_are_ignored_witness :
  model_validate Reference.rt
    (Json.Object (("findings"%string, Samples.findings) :: Samples.report_members))
  = Ok Samples.mock_themis_report
  /\ model_validate Reference.rt
       (Json.Object (Samples.report_members ++ [("findings"%string, Samples.findings)]))
     = Ok Samples.mock_themis_report.
Proof.
  apply (members_of_other_names_are_ignored Reference.rt Samples.report_members
           "findings" Samples.findings Samples.mock_themis_report).
  - cbn. intros [H|[H|[H|[H|[H|[H|[]]]]]]]; discriminate.
  - vm_compute. reflexivity.
Defined.

(** ** What the generators return *)

(** Plain text has no newline for text mode to rewrite. *)
Lemma universal_newlines_plain (s : string) :
  Text.is_plain s = true -> Text.universal_newlines s = s.
Proof.
  induction s as [|c r IH]; [reflexivity|]. cbn [Text.is_plain Text.universal_newlines].
  unfold Text.is_plain_char. intros H.
  apply andb_prop in H as [Hc Hr]. apply andb_prop in Hc as [_ Hc].
  destruct (Nat.eqb (nat_of_ascii c) 13); [discriminate Hc|].
  rewrite (IH Hr). reflexivity.
Qed.

(** For a process whose output is plain (ASCII without carriage returns,
    which text mode and byte decoding read alike, text mode finding no
    newline to rewrite): either generator
    returns text exactly when the wait did not expire and the process
    exited with 0, and the text is then the standard output trimmed. When
    the wait did not expire and the exit code is not 0, both raise a
    [RuntimeError] with the same message: "LLaMA falhou (exit N).", then
    "cmd: " and the command line quoted for a shell, then "stderr:" and
    the standard error, each on a line of its own; the standard output is
    dropped. *)
Theorem generation_succeeds_only_on_exit_zero
    (rt : runtime) (sys : LlamaService.os) (self : LlamaService.t)
    (prompt : string) (max_tokens : Z) (extra_args : option (list string))
    (timeout : option Q) (text : string) :
  Text.is_plain
    (LlamaService.stdout
       (sys (LlamaService._build_command self prompt max_tokens extra_args))) = true ->
  Text.is_plain
    (LlamaService.stderr
       (sys (LlamaService._build_command self prompt max_tokens extra_args))) = true ->
  (Text.universal_newlines
     (LlamaService.stdout
        (sys (LlamaService._build_command self prompt max_tokens extra_args)))
   = LlamaService.stdout
       (sys (LlamaService._build_command self prompt max_tokens extra_args))
   /\ Text.universal_newlines
        (LlamaService.stderr
           (sys (LlamaService._build_command self prompt max_tokens extra_args)))
      = LlamaService.stderr
          (sys (LlamaService._build_command self prompt max_tokens extra_args)))
  /\ (LlamaService.generate_response rt sys self prompt max_tokens extra_args timeout = Ok text
   <-> LlamaService.expires timeout (sys (LlamaService._build_command self prompt max_tokens extra_args)) = false
       /\ LlamaService.returncode (sys (LlamaService._build_command self prompt max_tokens extra_args)) = 0
       /\ text = str_strip rt (LlamaService.stdout (sys (LlamaService._build_command self prompt max_tokens extra_args))))
  /\ (LlamaService.generate_response_async rt sys self prompt max_tokens extra_args timeout
      = Ok text
      <-> LlamaService.expires timeout (sys (LlamaService._build_command self prompt max_tokens extra_args)) = false
          /\ LlamaService.returncode (sys (LlamaService._build_command self prompt max_tokens extra_args)) = 0
          /\ text = str_strip rt (LlamaService.stdout (sys (LlamaService._build_command self prompt max_tokens extra_args))))
  /\ (LlamaService.expires timeout (sys (LlamaService._build_command self prompt max_tokens extra_args)) = false ->
      LlamaService.returncode (sys (LlamaService._build_command self prompt max_tokens extra_args)) <> 0 ->
      LlamaService.generate_response rt sys self prompt max_tokens extra_args timeout
      = Raise (RuntimeError
                 ("LLaMA falhou (exit " +:+ Text.str_of_int (LlamaService.returncode (sys (LlamaService._build_command self prompt max_tokens extra_args)))
                  +:+ ")." +:+ Text.nl
                  +:+ "cmd: " +:+ shlex_join rt (LlamaService._build_command self prompt max_tokens extra_args) +:+ Text.nl
                  +:+ "stderr:" +:+ Text.nl +:+ LlamaService.stderr (sys (LlamaService._build_command self prompt max_tokens extra_args))))
      /\ LlamaService.generate_response_async rt sys self prompt max_tokens extra_args timeout
         = Raise (RuntimeError
                    ("LLaMA falhou (exit " +:+ Text.str_of_int (LlamaService.returncode (sys (LlamaService._build_command self prompt max_tokens extra_args)))
                  +:+ ")." +:+ Text.nl
                  +:+ "cmd: " +:+ shlex_join rt (LlamaService._build_command self prompt max_tokens extra_args) +:+ Text.nl
                  +:+ "stderr:" +:+ Text.nl +:+ LlamaService.stderr (sys (LlamaService._build_command self prompt max_tokens extra_args))))).
Proof.
  intros Hout Herr.
  split; [split; apply universal_newlines_plain; assumption|].
  clear Hout Herr.
  unfold LlamaService.generate_response, LlamaService.generate_response_async,
    LlamaService.subprocess_run, LlamaService._run_async, LlamaService.failure_message.
  cbv zeta.
  set (cmd := LlamaService._build_command self prompt max_tokens extra_args).
  destruct (LlamaService.expires timeout (sys cmd)) eqn:Hexp.
  - destruct timeout as [t|]; [|discriminate Hexp].
    repeat split; try discriminate; intros [H _]; discriminate.
  - assert (Hrun : (match timeout with
                    | Some t => Ok (sys cmd)
                    | None => Ok (sys cmd)
                    end) = Ok (sys cmd)) by (destruct timeout; reflexivity).
    rewrite Hrun.
    destruct (LlamaService.returncode (sys cmd) =? 0) eqn:Hcode; cbn [negb].
    + apply Z.eqb_eq in Hcode.
      repeat split; try congruence; try (intros [_ [_ ->]]; reflexivity).
    + apply Z.eqb_neq in Hcode.
      repeat split; try discriminate; try (intros [_ [H _]]; contradiction).
Qed.

Lemma generation_succeeds_only_on_exit_zero_witness :
  (Text.universal_newlines
     (LlamaService.stdout
        (Samples.failing_os (LlamaService._build_command Samples.llama "Analise"%string 512 None)))
   = LlamaService.stdout
       (Samples.failing_os (LlamaService._build_command Samples.llama "Analise"%string 512 None))
   /\ Text.universal_newlines
        (LlamaService.stderr
           (Samples.failing_os (LlamaService._build_command Samples.llama "Analise"%string 512 None)))
      = LlamaService.stderr
          (Samples.failing_os (LlamaService._build_command Samples.llama "Analise"%string 512 None)))
  /\ (LlamaService.generate_response Reference.rt Samples.failing_os Samples.llama "Analise"%string 512 None (Some 60%Q) = Ok "partial"%string
   <-> LlamaService.expires (Some 60%Q) (Samples.failing_os (LlamaService._build_command Samples.llama "Analise"%string 512 None)) = false
       /\ LlamaService.returncode (Samples.failing_os (LlamaService._build_command Samples.llama "Analise"%string 512 None)) = 0
       /\ "partial"%string = str_strip Reference.rt (LlamaService.stdout (Samples.failing_os (LlamaService._build_command Samples.llama "Analise"%string 512 None))))
  /\ (LlamaService.generate_response_async Reference.rt Samples.failing_os Samples.llama "Analise"%string 512 None (Some 60%Q)
      = Ok "partial"%string
      <-> LlamaService.expires (Some 60%Q) (Samples.failing_os (LlamaService._build_command Samples.llama "Analise"%string 512 None)) = false
          /\ LlamaService.returncode (Samples.failing_os (LlamaService._build_command Samples.llama "Analise"%string 512 None)) = 0
          /\ "partial"%string = str_strip Reference.rt (LlamaService.stdout (Samples.failing_os (LlamaService._build_command Samples.llama "Analise"%string 512 None))))
  /\ (LlamaService.expires (Some 60%Q) (Samples.failing_os (LlamaService._build_command Samples.llama "Analise"%string 512 None)) = false ->
      LlamaService.returncode (Samples.failing_os (LlamaService._build_command Samples.llama "Analise"%string 512 None)) <> 0 ->
      LlamaService.generate_response Reference.rt Samples.failing_os Samples.llama "Analise"%string 512 None (Some 60%Q)
      = Raise (RuntimeError
                 ("LLaMA falhou (exit " +:+ Text.str_of_int (LlamaService.returncode (Samples.failing_os (LlamaService._build_command Samples.llama "Analise"%string 512 None)))
                  +:+ ")." +:+ Text.nl
                  +:+ "cmd: " +:+ shlex_join Reference.rt (LlamaService._build_command Samples.llama "Analise"%string 512 None) +:+ Text.nl
                  +:+ "stderr:" +:+ Text.nl +:+ LlamaService.stderr (Samples.failing_os (LlamaService._build_command Samples.llama "Analise"%string 512 None))))
      /\ LlamaService.generate_response_async Reference.rt Samples.failing_os Samples.llama "Analise"%string 512 None (Some 60%Q)
         = Raise (RuntimeError
                    ("LLaMA falhou (exit " +:+ Text.str_of_int (LlamaService.returncode (Samples.failing_os (LlamaService._build_command Samples.llama "Analise"%string 512 None)))
                  +:+ ")." +:+ Text.nl
                  +:+ "cmd: " +:+ shlex_join Reference.rt (LlamaService._build_command Samples.llama "Analise"%string 512 None) +:+ Text.nl
                  +:+ "stderr:" +:+ Text.nl +:+ LlamaService.stderr (Samples.failing_os (LlamaService._build_command Samples.llama "Analise"%string 512 None))))).
Proof.
  apply (generation_succeeds_only_on_exit_zero Reference.rt Samples.failing_os
           Samples.llama "Analise" 512 None (Some 60%Q) "partial"); reflexivity.
Defined.

(** ** The errors of the hybrid search *)

(** What [_ensure_index] leaves behind, and whose error it raises. *)
Lemma ensure_index_outcome {num : Type} (rt : runtime)
    (be : OpenSearchService.backend num) (self : OpenSearchService.t) (w : world) :
  exists pre : list event,
    snd (OpenSearchService._ensure_index rt be self w)
    = World (cache_store w) (history w ++ pre)
    /\ count is_encode pre = 0%nat
    /\ (forall e, fst (OpenSearchService._ensure_index rt be self w) = Raise e ->
          OpenSearchService.indices_exists be (OpenSearchService.index self) = Raise e
          \/ OpenSearchService.indices_create be (OpenSearchService.index self)
               (OpenSearchService.dim self) = Raise e).
Proof.
  destruct (ensure_index_cases rt be self w)
    as [[_ H]|[[_ [_ H]]|[[e' [Hex H]]|[e' [_ [Hcr H]]]]]]; rewrite H;
    cbn [fst snd]; eexists; (split; [reflexivity|]);
    rewrite ?count_cons, ?count_nil; cbn [is_encode]; (split; [reflexivity|]);
    intros e He; try discriminate; injection He as <-; auto.
Qed.

(** [search_hybrid_slim] raises nothing of its own: an error that leaves it
    is the error one of its calls raised (the index check or creation, the
    lexical search, the embedding of the query, the vector search, the
    multi-get), unchanged; and it stops at the first call that fails. *)
Theorem hybrid_search_errors
    (num : Type) (score_arith : Score num) (rt : runtime)
    (be : OpenSearchService.backend num) (self : OpenSearchService.t)
    (query : string) (top_k : nat) (w : world) (e : exn) :
  fst (OpenSearchService.search_hybrid_slim rt be self query top_k w) = Raise e ->
  (OpenSearchService.indices_exists be (OpenSearchService.index self) = Raise e
   /\ count is_encode
        (history (snd (OpenSearchService.search_hybrid_slim rt be self query top_k w)))
      = count is_encode (history w))
  \/ (OpenSearchService.indices_create be (OpenSearchService.index self)
        (OpenSearchService.dim self) = Raise e
      /\ count is_encode
           (history (snd (OpenSearchService.search_hybrid_slim rt be self query top_k w)))
         = count is_encode (history w))
  \/ (OpenSearchService.search be (OpenSearchService.index self) (MatchText top_k query)
      = Raise e
      /\ count is_encode
           (history (snd (OpenSearchService.search_hybrid_slim rt be self query top_k w)))
         = count is_encode (history w))
  \/ OpenSearchService.encode_query be query = Raise e
  \/ (exists vec,
        OpenSearchService.encode_query be query = Ok vec
        /\ OpenSearchService.search be (OpenSearchService.index self) (Knn top_k vec)
           = Raise e)
  \/ (exists ids,
        OpenSearchService.mget be (OpenSearchService.index self) ids = Raise e).
Proof.
  intros He.
  destruct (ensure_index_outcome rt be self w) as [pre [Hw [Hcnt Herr]]].
  destruct (OpenSearchService._ensure_index rt be self w) as [[[]|e0] w0] eqn:Hens;
    cbn [fst snd] in Hw, Herr; subst w0.
  2:{ assert (Hrun : OpenSearchService.search_hybrid_slim rt be self query top_k w
                     = (Raise e0, World (cache_store w) (history w ++ pre))).
      { unfold OpenSearchService.search_hybrid_slim, bind. rewrite Hens. reflexivity. }
      rewrite Hrun in He |- *. cbn [fst snd history] in *. injection He as <-.
      rewrite count_app, Hcnt.
      destruct (Herr e0 eq_refl) as [Hx|Hc]; [left|right; left]; split; auto; lia. }
  destruct (OpenSearchService.search be (OpenSearchService.index self)
              (MatchText top_k query)) as [bm25|e1] eqn:Hlex.
  2:{ assert (Hrun : OpenSearchService.search_hybrid_slim rt be self query top_k w
                     = (Raise e1,
                        World (cache_store w)
                              ((history w ++ pre)
                               ++ [Search (OpenSearchService.index self)
                                          (MatchText top_k query)]))).
      { unfold OpenSearchService.search_hybrid_slim, bind, call. rewrite Hens, Hlex.
        reflexivity. }
      rewrite Hrun in He |- *. cbn [fst snd history] in *. injection He as <-.
      rewrite !count_app, Hcnt, count_cons, count_nil. cbn [is_encode].
      right. right. left. split; [reflexivity|lia]. }
  destruct (OpenSearchService.encode_query be query) as [vec|e2] eqn:Henc.
  2:{ assert (Hrun : fst (OpenSearchService.search_hybrid_slim rt be self query top_k w)
                     = Raise e2).
      { unfold OpenSearchService.search_hybrid_slim, bind, call. rewrite Hens, Hlex, Henc.
        reflexivity. }
      rewrite Hrun in He. injection He as <-. auto. }
  destruct (OpenSearchService.search be (OpenSearchService.index self) (Knn top_k vec))
    as [knn|e3] eqn:Hknn.
  2:{ assert (Hrun : fst (OpenSearchService.search_hybrid_slim rt be self query top_k w)
                     = Raise e3).
      { unfold OpenSearchService.search_hybrid_slim, bind, call.
        rewrite Hens, Hlex, Henc, Hknn. reflexivity. }
      rewrite Hrun in He. injection He as <-. do 4 right. left. exists vec. auto. }
  do 5 right.
  exists (OpenSearchService.top_ids top_k (OpenSearchService.rrf_scores bm25 knn)).
  revert He. unfold OpenSearchService.search_hybrid_slim, bind, call, ret.
  rewrite Hens, Hlex, Henc, Hknn.
  destruct (OpenSearchService.rrf_scores bm25 knn) as [|kv rest]; [discriminate|].
  destruct (OpenSearchService.mget be (OpenSearchService.index self) _) as [docs|e4];
    cbn [fst]; [discriminate|].
  intros He. injection He as <-. reflexivity.
Qed.

Lemma hybrid_search_errors_witness :
  (OpenSearchService.indices_exists Samples.timing_out_engine
     (OpenSearchService.index Samples.service) = Raise (ServiceError "ConnectionTimeout")
   /\ count is_encode
        (history (snd (OpenSearchService.search_hybrid_slim Reference.rt
                         Samples.timing_out_engine Samples.service "sms" 5 Samples.cold)))
      = count is_encode (history Samples.cold))
  \/ (OpenSearchService.indices_create Samples.timing_out_engine
        (OpenSearchService.index Samples.service)
        (OpenSearchService.dim Samples.service) = Raise (ServiceError "ConnectionTimeout")
      /\ count is_encode
           (history (snd (OpenSearchService.search_hybrid_slim Reference.rt
                            Samples.timing_out_engine Samples.service "sms" 5
                            Samples.cold)))
         = count is_encode (history Samples.cold))
  \/ (OpenSearchService.search Samples.timing_out_engine
        (OpenSearchService.index Samples.service) (MatchText 5 "sms")
      = Raise (ServiceError "ConnectionTimeout")
      /\ count is_encode
           (history (snd (OpenSearchService.search_hybrid_slim Reference.rt
                            Samples.timing_out_engine Samples.service "sms" 5
                            Samples.cold)))
         = count is_encode (history Samples.cold))
  \/ OpenSearchService.encode_query Samples.timing_out_engine "sms"
     = Raise (ServiceError "ConnectionTimeout")
  \/ (exists vec,
        OpenSearchService.encode_query Samples.timing_out_engine "sms" = Ok vec
        /\ OpenSearchService.search Samples.timing_out_engine
             (OpenSearchService.index Samples.service) (Knn 5 vec)
           = Raise (ServiceError "ConnectionTimeout"))
  \/ (exists ids,
        OpenSearchService.mget Samples.timing_out_engine
          (OpenSearchService.index Samples.service) ids
        = Raise (ServiceError "ConnectionTimeout")).
Proof.
  apply (hybrid_search_errors Q Score_Q Reference.rt Samples.timing_out_engine
           Samples.service "sms" 5 Samples.cold (ServiceError "ConnectionTimeout")).
  reflexivity.
Defined.
